(** * SceneManager.cpp: texture and material registries, per-draw shader state

    A shallow embedding of [SceneManager] (src/SceneManager.cpp) and the
    properties of its resource registries and of the state it pushes into the
    shader before each draw.

    Conventions of the embedding.
    - A C++ [int] or [GLuint] is a [Z]; the one conversion between the two
      that the code performs ([GLuint] to [int] in [FindTextureID]) is written
      out as [int_of_GLuint].
    - A [float] is carried as the exact rational value of the literal it was
      written with.  The modelled code never computes with floats itself; all
      float arithmetic happens inside GLM.
    - GLM, stb_image, OpenGL, [ShaderManager] and [ShapeMeshes] are external.
      A GLM matrix is represented by the expression that builds it; calls into
      the other components are recorded, in program order, in a trace, and the
      shader is the store of the last value written to each uniform name.
    - Undefined behaviour of the C++ code (an array index out of range, a call
      through a NULL pointer) is the outcome [Undefined].
    - Console output ([std::cout]) is not modelled. *)

From Stdlib Require Import ZArith QArith List String Lia.
From stdpp Require Import gmap strings list fin_maps.

Local Open Scope string_scope.
Local Open Scope Z_scope.
Local Open Scope list_scope.

(** ** Values *)

Definition float := Q.
Bind Scope Q_scope with float.

Record vec2 := Vec2 { vec2_x : float; vec2_y : float }.
Record vec3 := Vec3 { vec3_x : float; vec3_y : float; vec3_z : float }.
Record vec4 := Vec4 { vec4_r : float; vec4_g : float; vec4_b : float; vec4_a : float }.

(** [glm::radians(d)]: the angle of [d] degrees, in radians. *)
Inductive radians := glm_radians (degrees : float).

(** [glm::mat4] values, as built by [glm::scale], [glm::rotate],
    [glm::translate] (glm/gtx/transform.hpp) and [operator*]. *)
Inductive mat4 :=
| glm_scale (v : vec3)
| glm_rotate (angle : radians) (axis : vec3)
| glm_translate (v : vec3)
| mat4_mul (a b : mat4).

Declare Scope mat4_scope.
Delimit Scope mat4_scope with mat4.
Bind Scope mat4_scope with mat4.
Infix "*" := mat4_mul : mat4_scope.

(** [GLuint] texture names and the [GL_*] constants the code passes. *)
Definition GLuint := Z.

Inductive GLenum :=
| GL_TEXTURE_2D | GL_TEXTURE_WRAP_S | GL_TEXTURE_WRAP_T | GL_REPEAT
| GL_TEXTURE_MIN_FILTER | GL_TEXTURE_MAG_FILTER | GL_LINEAR
| GL_RGB8 | GL_RGB | GL_RGBA8 | GL_RGBA | GL_UNSIGNED_BYTE.

(** The conversion [int x = <GLuint>] on a 32-bit two's complement target. *)
Definition int_of_GLuint (u : GLuint) : Z :=
  (u + 2 ^ 31) mod 2 ^ 32 - 2 ^ 31.

(** The meshes of [ShapeMeshes]. *)
Inductive mesh :=
| PlaneMesh | BoxMesh | CylinderMesh | ConeMesh | SphereMesh
| Pyramid4Mesh | PrismMesh | TaperedCylinderMesh.

(** What [stbi_load] reports for a decoded file. *)
Record Image := { width : Z; height : Z; colorChannels : Z }.

(** ** The shader abstraction

    A uniform write is one of the [set...Value] methods of [ShaderManager];
    the shader keeps the last value written under each name. *)

Inductive uniform_value :=
| BoolValue (b : bool)
| IntValue (i : Z)
| FloatValue (f : float)
| Vec2Value (v : vec2)
| Vec3Value (v : vec3)
| Vec4Value (v : vec4)
| Mat4Value (m : mat4)
| Sampler2DValue (slot : Z).

Abbreviation ShaderManager := (gmap string uniform_value).

(** ** Calls into the external components, in program order *)

Inductive event :=
| stbi_set_flip_vertically_on_load (flag : bool)
| stbi_image_free
| glGenTextures (name : GLuint)
| glDeleteTextures (name : GLuint)
| glBindTexture (target : GLenum) (name : GLuint)
| glActiveTexture (unit : Z)   (* the texture unit [GL_TEXTURE0 + unit] *)
| glTexParameteri (target pname param : GLenum)
| glTexImage2D (target : GLenum) (level : Z) (internalformat : GLenum)
    (w h border : Z) (format type : GLenum)
| glGenerateMipmap (target : GLenum)
| setUniform (name : string) (v : uniform_value)
| LoadMesh (m : mesh)
| DrawMesh (m : mesh).

(** ** The scene manager *)

Record TEXTURE_INFO := { ID : GLuint; tag : string }.

Record OBJECT_MATERIAL := {
  diffuseColor : vec3;
  specularColor : vec3;
  shininess : float;
  material_tag : string
}.

(** The members of [SceneManager] that the modelled methods use, the OpenGL
    texture names that have been generated and not deleted, and the trace. *)
Record State := {
  m_pShaderManager : option ShaderManager;   (* [None] is NULL *)
  m_textureIDs : list TEXTURE_INFO;          (* a fixed-size array *)
  m_loadedTextures : Z;
  m_objectMaterials : list OBJECT_MATERIAL;  (* a std::vector *)
  gl_textures : list GLuint;
  trace : list event
}.

(** Modelled from the spec: the declaration [TEXTURE_INFO m_textureIDs[16]]
    of SceneManager.h, which is not among the sources; the spec and the
    comments of SceneManager.cpp give 16 texture slots. *)
Definition MAX_TEXTURES : nat := 16.

(** What the platform decides: which files decode to which images, which
    unused name [glGenTextures] hands out given the names in use, and the
    indeterminate contents of an uninitialised [OBJECT_MATERIAL] local. *)
Record Platform := {
  stbi_load : string -> option Image;
  gl_fresh_name : list GLuint -> GLuint;
  uninitialised_material : OBJECT_MATERIAL
}.

(** ** Outcomes and the state monad *)

Inductive result (A : Type) :=
| Ok (a : A)
| Undefined
| OutOfFuel.
Arguments Ok {A} a.
Arguments Undefined {A}.
Arguments OutOfFuel {A}.

#[global] Instance result_ret : MRet result := fun A a => Ok a.
#[global] Instance result_bind : MBind result := fun A B f m =>
  match m with
  | Ok a => f a
  | Undefined => Undefined
  | OutOfFuel => OutOfFuel
  end.

Definition M (A : Type) : Type := State -> result (A * State).

#[global] Instance M_ret : MRet M := fun A a st => Ok (a, st).
#[global] Instance M_bind : MBind M := fun A B f m st =>
  match m st with
  | Ok (a, st') => f a st'
  | Undefined => Undefined
  | OutOfFuel => OutOfFuel
  end.

Definition get : M State := fun st => Ok (st, st).
Definition modify (f : State -> State) : M unit := fun st => Ok (tt, f st).
Definition lift {A} (r : result A) : M A := fun st =>
  match r with
  | Ok a => Ok (a, st)
  | Undefined => Undefined
  | OutOfFuel => OutOfFuel
  end.

Definition set_shader (sh : option ShaderManager) (st : State) : State :=
  {| m_pShaderManager := sh; m_textureIDs := m_textureIDs st;
     m_loadedTextures := m_loadedTextures st;
     m_objectMaterials := m_objectMaterials st;
     gl_textures := gl_textures st; trace := trace st |}.
Definition set_textureIDs (ids : list TEXTURE_INFO) (st : State) : State :=
  {| m_pShaderManager := m_pShaderManager st; m_textureIDs := ids;
     m_loadedTextures := m_loadedTextures st;
     m_objectMaterials := m_objectMaterials st;
     gl_textures := gl_textures st; trace := trace st |}.
Definition set_loadedTextures (n : Z) (st : State) : State :=
  {| m_pShaderManager := m_pShaderManager st; m_textureIDs := m_textureIDs st;
     m_loadedTextures := n;
     m_objectMaterials := m_objectMaterials st;
     gl_textures := gl_textures st; trace := trace st |}.
Definition set_objectMaterials (ms : list OBJECT_MATERIAL) (st : State) : State :=
  {| m_pShaderManager := m_pShaderManager st; m_textureIDs := m_textureIDs st;
     m_loadedTextures := m_loadedTextures st;
     m_objectMaterials := ms;
     gl_textures := gl_textures st; trace := trace st |}.
Definition set_gl_textures (names : list GLuint) (st : State) : State :=
  {| m_pShaderManager := m_pShaderManager st; m_textureIDs := m_textureIDs st;
     m_loadedTextures := m_loadedTextures st;
     m_objectMaterials := m_objectMaterials st;
     gl_textures := names; trace := trace st |}.
Definition set_trace (t : list event) (st : State) : State :=
  {| m_pShaderManager := m_pShaderManager st; m_textureIDs := m_textureIDs st;
     m_loadedTextures := m_loadedTextures st;
     m_objectMaterials := m_objectMaterials st;
     gl_textures := gl_textures st; trace := t |}.

(** A call into an external component: appended to the trace. *)
Definition emit (e : event) : M unit := fun st =>
  Ok (tt, set_trace (trace st ++ [e]) st).

(** [arr[i]] and [arr[i] = v] on a C array; an index outside the array is
    undefined behaviour. *)
Definition array_read {A} (arr : list A) (i : Z) : result A :=
  if 0 <=? i then
    match arr !! Z.to_nat i with
    | Some a => Ok a
    | None => Undefined
    end
  else Undefined.

Definition array_write {A} (arr : list A) (i : Z) (a : A) : result (list A) :=
  if (0 <=? i) && (i <? Z.of_nat (length arr)) then Ok (<[Z.to_nat i := a]> arr)
  else Undefined.

(** [s.compare(t)]: negative, zero or positive. *)
Definition string_compare (s t : string) : Z :=
  match String.compare s t with
  | Eq => 0
  | Lt => -1
  | Gt => 1
  end.

(** [m_pShaderManager->set...Value(name, v)]: a call through the pointer. *)
Definition shader_set (name : string) (v : uniform_value) : M unit := fun st =>
  match m_pShaderManager st with
  | Some sh =>
      Ok (tt, set_trace (trace st ++ [setUniform name v])
                (set_shader (Some (<[name := v]> sh)) st))
  | None => Undefined
  end.

(** [glGenTextures(1, &name)]: the driver picks a name, which is in use from
    then on. *)
Definition gl_gen_texture (P : Platform) : M GLuint := fun st =>
  let name := gl_fresh_name P (gl_textures st) in
  Ok (name, set_trace (trace st ++ [glGenTextures name])
              (set_gl_textures (gl_textures st ++ [name]) st)).

(** The global uniform names. *)
Definition g_ModelName := "model".
Definition g_ColorValueName := "objectColor".
Definition g_TextureValueName := "objectTexture".
Definition g_UseTextureName := "bUseTexture".
Definition g_UseLightingName := "bUseLighting".

(** ** Texture registry *)

(** The statements of [CreateGLTexture] after the upload of the bitmap:
    mipmaps, release of the image, registration under [tag']. *)
Definition CreateGLTexture_register (textureID : GLuint) (tag' : string) : M bool :=
  emit (glGenerateMipmap GL_TEXTURE_2D);;
  emit stbi_image_free;;
  emit (glBindTexture GL_TEXTURE_2D 0);;
  (* m_textureIDs[m_loadedTextures].ID = textureID; *)
  st ← get;
  e ← lift (array_read (m_textureIDs st) (m_loadedTextures st));
  ids ← lift (array_write (m_textureIDs st) (m_loadedTextures st)
                {| ID := textureID; tag := tag e |});
  (* m_textureIDs[m_loadedTextures].tag = tag; *)
  e ← lift (array_read ids (m_loadedTextures st));
  ids ← lift (array_write ids (m_loadedTextures st)
                {| ID := ID e; tag := tag' |});
  (* m_loadedTextures++; *)
  modify (set_textureIDs ids);;
  modify (fun st => set_loadedTextures (m_loadedTextures st + 1) st);;
  mret true.

Definition CreateGLTexture (P : Platform) (filename : string) (tag' : string)
  : M bool :=
  emit (stbi_set_flip_vertically_on_load true);;
  match stbi_load P filename with
  | Some image =>
      textureID ← gl_gen_texture P;
      emit (glBindTexture GL_TEXTURE_2D textureID);;
      emit (glTexParameteri GL_TEXTURE_2D GL_TEXTURE_WRAP_S GL_REPEAT);;
      emit (glTexParameteri GL_TEXTURE_2D GL_TEXTURE_WRAP_T GL_REPEAT);;
      emit (glTexParameteri GL_TEXTURE_2D GL_TEXTURE_MIN_FILTER GL_LINEAR);;
      emit (glTexParameteri GL_TEXTURE_2D GL_TEXTURE_MAG_FILTER GL_LINEAR);;
      if colorChannels image =? 3 then
        emit (glTexImage2D GL_TEXTURE_2D 0 GL_RGB8 (width image) (height image)
                0 GL_RGB GL_UNSIGNED_BYTE);;
        CreateGLTexture_register textureID tag'
      else if colorChannels image =? 4 then
        emit (glTexImage2D GL_TEXTURE_2D 0 GL_RGBA8 (width image) (height image)
                0 GL_RGBA GL_UNSIGNED_BYTE);;
        CreateGLTexture_register textureID tag'
      else
        mret false
  | None => mret false
  end.

(** [for (int i = ...; i < m_loadedTextures; i++)] of [BindGLTextures]. *)
Fixpoint BindGLTextures_loop (fuel : nat) (i : Z) : M unit := fun st =>
  if i <? m_loadedTextures st then
    match fuel with
    | O => OutOfFuel
    | S fuel' =>
        (emit (glActiveTexture i);;
         e ← lift (array_read (m_textureIDs st) i);
         emit (glBindTexture GL_TEXTURE_2D (ID e));;
         BindGLTextures_loop fuel' (i + 1)) st
    end
  else Ok (tt, st).

Definition BindGLTextures : M unit := fun st =>
  BindGLTextures_loop (Z.to_nat (m_loadedTextures st)) 0 st.

(** [for (int i = ...; i < m_loadedTextures; i++)] of [DestroyGLTextures]:
    [glGenTextures(1, &m_textureIDs[i].ID)]. *)
Fixpoint DestroyGLTextures_loop (P : Platform) (fuel : nat) (i : Z) : M unit :=
  fun st =>
  if i <? m_loadedTextures st then
    match fuel with
    | O => OutOfFuel
    | S fuel' =>
        (e ← lift (array_read (m_textureIDs st) i);
         name ← gl_gen_texture P;
         ids ← lift (array_write (m_textureIDs st) i {| ID := name; tag := tag e |});
         modify (set_textureIDs ids);;
         DestroyGLTextures_loop P fuel' (i + 1)) st
    end
  else Ok (tt, st).

Definition DestroyGLTextures (P : Platform) : M unit := fun st =>
  DestroyGLTextures_loop P (Z.to_nat (m_loadedTextures st)) 0 st.

(** The [while] loop of [FindTextureID], on its three locals. *)
Fixpoint FindTextureID_loop (fuel : nat) (st : State) (tag' : string)
    (textureID index : Z) (bFound : bool) : result Z :=
  if (index <? m_loadedTextures st) && Bool.eqb bFound false then
    match fuel with
    | O => OutOfFuel
    | S fuel' =>
        e ← array_read (m_textureIDs st) index;
        if string_compare (tag e) tag' =? 0 then
          FindTextureID_loop fuel' st tag' (int_of_GLuint (ID e)) index true
        else
          FindTextureID_loop fuel' st tag' textureID (index + 1) bFound
    end
  else Ok textureID.

Definition FindTextureID (st : State) (tag' : string) : result Z :=
  FindTextureID_loop (Z.to_nat (m_loadedTextures st)) st tag' (-1) 0 false.

(** The [while] loop of [FindTextureSlot]. *)
Fixpoint FindTextureSlot_loop (fuel : nat) (st : State) (tag' : string)
    (textureSlot index : Z) (bFound : bool) : result Z :=
  if (index <? m_loadedTextures st) && Bool.eqb bFound false then
    match fuel with
    | O => OutOfFuel
    | S fuel' =>
        e ← array_read (m_textureIDs st) index;
        if string_compare (tag e) tag' =? 0 then
          FindTextureSlot_loop fuel' st tag' index index true
        else
          FindTextureSlot_loop fuel' st tag' textureSlot (index + 1) bFound
    end
  else Ok textureSlot.

Definition FindTextureSlot (st : State) (tag' : string) : result Z :=
  FindTextureSlot_loop (Z.to_nat (m_loadedTextures st)) st tag' (-1) 0 false.

(** ** Material registry *)

(** The [while] loop of [FindMaterial]; [material] is the reference
    parameter, of which three fields are assigned on a match. *)
Fixpoint FindMaterial_loop (fuel : nat) (st : State) (tag' : string)
    (material : OBJECT_MATERIAL) (index : Z) (bFound : bool)
  : result OBJECT_MATERIAL :=
  if (index <? Z.of_nat (length (m_objectMaterials st))) && Bool.eqb bFound false then
    match fuel with
    | O => OutOfFuel
    | S fuel' =>
        e ← array_read (m_objectMaterials st) index;
        if string_compare (material_tag e) tag' =? 0 then
          FindMaterial_loop fuel' st tag'
            {| diffuseColor := diffuseColor e;
               specularColor := specularColor e;
               shininess := shininess e;
               material_tag := material_tag material |}
            index true
        else
          FindMaterial_loop fuel' st tag' material (index + 1) bFound
    end
  else Ok material.

(** [FindMaterial(tag, material)]: the returned flag and the final contents
    of [material]. *)
Definition FindMaterial (st : State) (tag' : string) (material : OBJECT_MATERIAL)
  : result (bool * OBJECT_MATERIAL) :=
  if Z.of_nat (length (m_objectMaterials st)) =? 0 then
    Ok (false, material)
  else
    material ← FindMaterial_loop (length (m_objectMaterials st)) st tag' material 0 false;
    Ok (true, material).

(** ** Transform composer and render state dispatcher *)

Definition SetTransformations (scaleXYZ : vec3)
    (XrotationDegrees YrotationDegrees ZrotationDegrees : float)
    (positionXYZ : vec3) : M unit :=
  let scale := glm_scale scaleXYZ in
  let rotationX := glm_rotate (glm_radians XrotationDegrees) (Vec3 1.0 0.0 0.0) in
  let rotationY := glm_rotate (glm_radians YrotationDegrees) (Vec3 0.0 1.0 0.0) in
  let rotationZ := glm_rotate (glm_radians ZrotationDegrees) (Vec3 0.0 0.0 1.0) in
  let translation := glm_translate positionXYZ in
  let modelView := (translation * rotationZ * rotationY * rotationX * scale)%mat4 in
  st ← get;
  match m_pShaderManager st with
  | Some _ => shader_set g_ModelName (Mat4Value modelView)
  | None => mret tt
  end.

Definition SetShaderColor
    (redColorValue greenColorValue blueColorValue alphaValue : float) : M unit :=
  let currentColor :=
    {| vec4_r := redColorValue; vec4_g := greenColorValue;
       vec4_b := blueColorValue; vec4_a := alphaValue |} in
  st ← get;
  match m_pShaderManager st with
  | Some _ =>
      shader_set g_UseTextureName (IntValue 0);;
      shader_set g_ColorValueName (Vec4Value currentColor)
  | None => mret tt
  end.

Definition SetShaderTexture (textureTag : string) : M unit :=
  st ← get;
  match m_pShaderManager st with
  | Some _ =>
      shader_set g_UseTextureName (IntValue 1);;
      st ← get;
      textureID ← lift (FindTextureSlot st textureTag);
      shader_set g_TextureValueName (Sampler2DValue textureID)
  | None => mret tt
  end.

Definition SetTextureUVScale (u v : float) : M unit :=
  st ← get;
  match m_pShaderManager st with
  | Some _ => shader_set "UVscale" (Vec2Value (Vec2 u v))
  | None => mret tt
  end.

(** The local [OBJECT_MATERIAL material] is not initialised before it is
    handed to [FindMaterial]; its contents are the platform's. *)
Definition SetShaderMaterial (P : Platform) (materialTag : string) : M unit :=
  st ← get;
  if 0 <? Z.of_nat (length (m_objectMaterials st)) then
    let material := uninitialised_material P in
    '(bReturn, material) ← lift (FindMaterial st materialTag material);
    if Bool.eqb bReturn true then
      shader_set "material.diffuseColor" (Vec3Value (diffuseColor material));;
      shader_set "material.specularColor" (Vec3Value (specularColor material));;
      shader_set "material.shininess" (FloatValue (shininess material))
    else mret tt
  else mret tt.

(** ** Scene preparation *)

Definition push_back (m : OBJECT_MATERIAL) : M unit :=
  modify (fun st => set_objectMaterials (m_objectMaterials st ++ [m]) st).

Definition DefineObjectMaterials : M unit :=
  let goldMaterial :=
    {| diffuseColor := Vec3 0.5 0.5 0.5; specularColor := Vec3 0.6 0.6 0.6;
       shininess := 70.0; material_tag := "metal" |} in
  push_back goldMaterial;;
  let woodMaterial :=
    {| diffuseColor := Vec3 0.3 0.3 0.3; specularColor := Vec3 0.4 0.4 0.4;
       shininess := 40.0; material_tag := "wood" |} in
  push_back woodMaterial;;
  let glassMaterial :=
    {| diffuseColor := Vec3 0.2 0.2 0.2; specularColor := Vec3 1.0 1.0 1.0;
       shininess := 95.0; material_tag := "glass" |} in
  push_back glassMaterial;;
  let clayMaterial :=
    {| diffuseColor := Vec3 0.4 0.4 0.4; specularColor := Vec3 0.5 0.5 0.5;
       shininess := 40.0; material_tag := "vase" |} in
  push_back clayMaterial;;
  let backdropMaterial :=
    {| diffuseColor := Vec3 0.8 0.8 0.9; specularColor := Vec3 0.0 0.0 0.0;
       shininess := 2.0; material_tag := "wall" |} in
  push_back backdropMaterial;;
  let leafMaterial :=
    {| diffuseColor := Vec3 0.4 0.2 0.4; specularColor := Vec3 0.1 0.05 0.1;
       shininess := 0.30; material_tag := "leaf" |} in
  push_back leafMaterial;;
  let paperMaterial :=
    {| diffuseColor := Vec3 0.5 0.5 0.5; specularColor := Vec3 0.0 0.0 0.0;
       shininess := 1.0; material_tag := "paper" |} in
  push_back paperMaterial;;
  let fabricMaterial :=
    {| diffuseColor := Vec3 0.5 0.5 0.5; specularColor := Vec3 0.0 0.0 0.0;
       shininess := 1.0; material_tag := "fabric" |} in
  push_back fabricMaterial.

Definition SetupSceneLights : M unit :=
  shader_set g_UseLightingName (BoolValue true);;
  shader_set "directionalLight.direction" (Vec3Value (Vec3 (-7.0) 10.0 (-10.0)));;
  shader_set "directionalLight.ambient" (Vec3Value (Vec3 0.2 0.2 0.2));;
  shader_set "directionalLight.diffuse" (Vec3Value (Vec3 0.7 0.7 0.7));;
  shader_set "directionalLight.specular" (Vec3Value (Vec3 0.0 0.0 0.0));;
  shader_set "directionalLight.bActive" (BoolValue true);;
  shader_set "pointLights[0].position" (Vec3Value (Vec3 14.0 35.0 5.0));;
  shader_set "pointLights[0].ambient" (Vec3Value (Vec3 0.08 0.08 0.08));;
  shader_set "pointLights[0].diffuse" (Vec3Value (Vec3 0.4 0.4 0.4));;
  shader_set "pointLights[0].specular" (Vec3Value (Vec3 0.2 0.2 0.2));;
  shader_set "pointLights[0].constant" (FloatValue 1.0);;
  shader_set "pointLights[0].linear" (FloatValue 0.09);;
  shader_set "pointLights[0].quadratic" (FloatValue 0.032);;
  shader_set "pointLights[0].bActive" (BoolValue true);;
  shader_set "pointLights[1].position" (Vec3Value (Vec3 14.0 35.0 (-17.0)));;
  shader_set "pointLights[1].ambient" (Vec3Value (Vec3 0.08 0.08 0.08));;
  shader_set "pointLights[1].diffuse" (Vec3Value (Vec3 0.4 0.4 0.4));;
  shader_set "pointLights[1].specular" (Vec3Value (Vec3 0.2 0.2 0.2));;
  shader_set "pointLights[1].constant" (FloatValue 1.0);;
  shader_set "pointLights[1].linear" (FloatValue 0.09);;
  shader_set "pointLights[1].quadratic" (FloatValue 0.032);;
  shader_set "pointLights[1].bActive" (BoolValue true);;
  shader_set "pointLights[2].position" (Vec3Value (Vec3 (-2.0) 13.0 (-17.0)));;
  shader_set "pointLights[2].ambient" (Vec3Value (Vec3 0.05 0.05 0.05));;
  shader_set "pointLights[2].diffuse" (Vec3Value (Vec3 0.3 0.3 0.3));;
  shader_set "pointLights[2].specular" (Vec3Value (Vec3 0.1 0.1 0.1));;
  shader_set "pointLights[2].constant" (FloatValue 1.0);;
  shader_set "pointLights[2].linear" (FloatValue 0.09);;
  shader_set "pointLights[2].quadratic" (FloatValue 0.032);;
  shader_set "pointLights[2].bActive" (BoolValue true);;
  shader_set "pointLights[3].position" (Vec3Value (Vec3 (-2.0) 13.0 (-15.0)));;
  shader_set "pointLights[3].ambient" (Vec3Value (Vec3 0.05 0.05 0.05));;
  shader_set "pointLights[3].diffuse" (Vec3Value (Vec3 0.3 0.3 0.3));;
  shader_set "pointLights[3].specular" (Vec3Value (Vec3 0.1 0.1 0.1));;
  shader_set "pointLights[3].constant" (FloatValue 1.0);;
  shader_set "pointLights[3].linear" (FloatValue 0.09);;
  shader_set "pointLights[3].quadratic" (FloatValue 0.032);;
  shader_set "pointLights[3].bActive" (BoolValue true).

(** The results of the calls are assigned to [bReturn] and not looked at. *)
Definition LoadSceneTextures (P : Platform) : M unit :=
  bReturn ← CreateGLTexture P "textures/leaf.jpg" "leaf";
  bReturn ← CreateGLTexture P "textures/vase.jpg" "vase";
  bReturn ← CreateGLTexture P "textures/floor.jpg" "floor";
  bReturn ← CreateGLTexture P "textures/wall.jpg" "wall";
  bReturn ← CreateGLTexture P "textures/ottoman.jpg" "ottoman";
  bReturn ← CreateGLTexture P "textures/pillow.jpg" "pillow";
  bReturn ← CreateGLTexture P "textures/bookshelf.jpg" "bookshelf";
  bReturn ← CreateGLTexture P "textures/picture.jpg" "picture";
  bReturn ← CreateGLTexture P "textures/rug.jpg" "rug";
  bReturn ← CreateGLTexture P "textures/lamp_bot.jpg" "lamp_bot";
  bReturn ← CreateGLTexture P "textures/lamp_top.jpg" "lamp_top";
  bReturn ← CreateGLTexture P "textures/books.jpg" "books";
  bReturn ← CreateGLTexture P "textures/book2.jpg" "book2";
  bReturn ← CreateGLTexture P "textures/snowglobe_bot.jpg" "snowglobe_bot";
  BindGLTextures.

Definition PrepareScene (P : Platform) : M unit :=
  LoadSceneTextures P;;
  DefineObjectMaterials;;
  SetupSceneLights;;
  emit (LoadMesh PlaneMesh);;
  emit (LoadMesh SphereMesh);;
  emit (LoadMesh CylinderMesh);;
  emit (LoadMesh BoxMesh);;
  emit (LoadMesh ConeMesh);;
  emit (LoadMesh PrismMesh);;
  emit (LoadMesh Pyramid4Mesh);;
  emit (LoadMesh ConeMesh);;
  emit (LoadMesh TaperedCylinderMesh).

(** ** Rendering

    [RenderScene] is straight-line code: assignments to five locals and calls
    of four methods of the class and of the draw methods of [m_basicMeshes].
    It is embedded as the sequence of its calls, each with the values its
    arguments hold at that point. *)

Inductive call :=
| call_SetTransformations (scaleXYZ : vec3)
    (XrotationDegrees YrotationDegrees ZrotationDegrees : float)
    (positionXYZ : vec3)
| call_SetShaderColor (redColorValue greenColorValue blueColorValue alphaValue : float)
| call_SetShaderTexture (textureTag : string)
| call_SetShaderMaterial (materialTag : string)
| call_Draw (m : mesh).

Definition run_call (P : Platform) (c : call) : M unit :=
  match c with
  | call_SetTransformations s rx ry rz p => SetTransformations s rx ry rz p
  | call_SetShaderColor r g b a => SetShaderColor r g b a
  | call_SetShaderTexture t => SetShaderTexture t
  | call_SetShaderMaterial t => SetShaderMaterial P t
  | call_Draw m => emit (DrawMesh m)
  end.

Fixpoint run_calls (P : Platform) (cs : list call) : M unit :=
  match cs with
  | [] => mret tt
  | c :: cs' => run_call P c;; run_calls P cs'
  end.

Definition RenderScene_body : list call :=
  [
    (* FLOOR, line 671 *)
    call_SetTransformations (Vec3 20.0 1.0 20.0) 0.0 0.0 0.0 (Vec3 0.0 0.0 0.0);
    call_SetShaderTexture "floor";
    call_SetShaderMaterial "wood";
    call_Draw PlaneMesh;
    (* WALL 1, line 701 *)
    call_SetTransformations (Vec3 20.0 1.0 20.0) 90.0 90.0 0.0 (Vec3 20.0 20.0 0.0);
    call_SetShaderTexture "wall";
    call_SetShaderMaterial "wall";
    call_Draw PlaneMesh;
    (* WALL 2, line 730 *)
    call_SetTransformations (Vec3 20.0 1.0 20.0) 90.0 0.0 90.0 (Vec3 0.0 20.0 (-20.0));
    call_SetShaderTexture "wall";
    call_SetShaderMaterial "wall";
    call_Draw PlaneMesh;
    (* LEAF 1, line 758 *)
    call_SetTransformations (Vec3 0.5 1.5 0.5) 45.0 (-90.0) 0.0 (Vec3 (-0.5) 3.0 0.0);
    call_SetShaderTexture "leaf";
    call_SetShaderMaterial "leaf";
    call_Draw Pyramid4Mesh;
    (* LEAF 2, line 787 *)
    call_SetTransformations (Vec3 0.5 1.5 0.5) (-45.0) 0.0 0.0 (Vec3 0.0 3.0 (-0.5));
    call_SetShaderTexture "leaf";
    call_SetShaderMaterial "leaf";
    call_Draw Pyramid4Mesh;
    (* LEAF 3, line 816 *)
    call_SetTransformations (Vec3 0.5 1.5 0.5) 45.0 0.0 0.0 (Vec3 0.0 3.0 0.5);
    call_SetShaderTexture "leaf";
    call_SetShaderMaterial "leaf";
    call_Draw Pyramid4Mesh;
    (* LEAF 4, line 845 *)
    call_SetTransformations (Vec3 0.5 1.5 0.5) (-45.0) (-90.0) 0.0 (Vec3 0.5 3.0 0.0);
    call_SetShaderTexture "leaf";
    call_SetShaderMaterial "leaf";
    call_Draw Pyramid4Mesh;
    (* LEAF BASE, line 874 *)
    call_SetTransformations (Vec3 0.5 1.5 0.5) 0.0 0.0 0.0 (Vec3 0.0 3.2 0.0);
    call_SetShaderTexture "leaf";
    call_SetShaderMaterial "leaf";
    call_Draw Pyramid4Mesh;
    (* VASE BASE, line 903 *)
    call_SetTransformations (Vec3 1.0 1.5 1.0) 180.0 0.0 0.0 (Vec3 0.0 2.4 0.0);
    call_SetShaderTexture "vase";
    call_SetShaderMaterial "vase";
    call_Draw TaperedCylinderMesh;
    (* OTTOMAN, line 932 *)
    call_SetTransformations (Vec3 6.0 5.0 6.0) 0.0 0.0 0.0 (Vec3 14.0 0.0 5.0);
    call_SetShaderTexture "ottoman";
    call_SetShaderMaterial "fabric";
    call_Draw CylinderMesh;
    (* PILLOW 1, line 961 *)
    call_SetTransformations (Vec3 5.0 1.0 5.0) (-75.0) 120.0 0.0 (Vec3 16.0 7.5 3.0);
    call_SetShaderTexture "pillow";
    call_SetShaderMaterial "fabric";
    call_Draw BoxMesh;
    (* PILLOW 2, line 990 *)
    call_SetTransformations (Vec3 5.0 1.0 5.0) 90.0 90.0 (-20.0) (Vec3 18.0 7.5 6.0);
    call_SetShaderTexture "pillow";
    call_SetShaderMaterial "fabric";
    call_Draw BoxMesh;
    (* BOOK SHELF BACK, line 1019 *)
    call_SetTransformations (Vec3 15.0 0.5 20.0) 90.0 0.0 0.0 (Vec3 10.8 10.0 (-20.0));
    call_SetShaderTexture "bookshelf";
    call_SetShaderMaterial "wood";
    call_Draw BoxMesh;
    (* BOOK SHELF MIDDLE, line 1048 *)
    call_SetTransformations (Vec3 7.0 0.5 15.0) 0.0 90.0 0.0 (Vec3 10.8 10.0 (-18.0));
    call_SetShaderTexture "bookshelf";
    call_SetShaderMaterial "wood";
    call_Draw BoxMesh;
    (* BOOK SHELF UPPER SHELF, line 1077 *)
    call_SetTransformations (Vec3 7.0 0.5 15.0) 0.0 90.0 0.0 (Vec3 10.8 15.0 (-18.0));
    call_SetShaderTexture "bookshelf";
    call_SetShaderMaterial "wood";
    call_Draw BoxMesh;
    (* BOOK SHELF LOWER SHELF, line 1106 *)
    call_SetTransformations (Vec3 7.0 0.5 15.0) 0.0 90.0 0.0 (Vec3 10.8 5.0 (-18.0));
    call_SetShaderTexture "bookshelf";
    call_SetShaderMaterial "wood";
    call_Draw BoxMesh;
    (* BOOK SHELF TOP, line 1135 *)
    call_SetTransformations (Vec3 7.0 0.5 15.0) 0.0 90.0 0.0 (Vec3 10.8 20.0 (-18.0));
    call_SetShaderTexture "bookshelf";
    call_SetShaderMaterial "wood";
    call_Draw BoxMesh;
    (* BOOK SHELF BOTTOM, line 1164 *)
    call_SetTransformations (Vec3 7.0 0.5 15.0) 0.0 90.0 0.0 (Vec3 10.8 0.0 (-18.0));
    call_SetShaderTexture "bookshelf";
    call_SetShaderMaterial "wood";
    call_Draw BoxMesh;
    (* BOOK SHELF LEFT, line 1193 *)
    call_SetTransformations (Vec3 7.0 0.5 20.0) 90.0 90.0 0.0 (Vec3 3.4 10.0 (-18.0));
    call_SetShaderTexture "bookshelf";
    call_SetShaderMaterial "wood";
    call_Draw BoxMesh;
    (* BOOK SHELF RIGHT, line 1222 *)
    call_SetTransformations (Vec3 7.0 0.5 20.0) 90.0 90.0 0.0 (Vec3 18.4 10.0 (-18.0));
    call_SetShaderTexture "bookshelf";
    call_SetShaderMaterial "wood";
    call_Draw BoxMesh;
    (* PICTURE, line 1251 *)
    call_SetTransformations (Vec3 8.0 0.5 11.0) 90.0 90.0 0.0 (Vec3 19.8 20.0 0.0);
    call_SetShaderTexture "picture";
    call_SetShaderMaterial "paper";
    call_Draw BoxMesh;
    (* RUG, line 1280 *)
    call_SetTransformations (Vec3 10.0 0.3 15.0) 0.0 0.0 0.0 (Vec3 0.0 0.0 0.0);
    call_SetShaderTexture "rug";
    call_SetShaderMaterial "fabric";
    call_Draw BoxMesh;
    (* LAMP TOP, line 1309 *)
    call_SetTransformations (Vec3 2.0 3.5 2.0) 0.0 0.0 0.0 (Vec3 (-2.0) 13.0 (-17.0));
    call_SetShaderColor 0.3 0.3 0.3 0.3;
    call_SetShaderTexture "lamp_top";
    call_SetShaderMaterial "paper";
    call_Draw TaperedCylinderMesh;
    (* LAMP BOT, line 1339 *)
    call_SetTransformations (Vec3 0.3 13.0 0.3) 0.0 0.0 0.0 (Vec3 (-2.0) 0.5 (-17.0));
    call_SetShaderTexture "lamp_bot";
    call_SetShaderMaterial "metal";
    call_Draw CylinderMesh;
    (* LAMP BOT, line 1368 *)
    call_SetTransformations (Vec3 2.0 0.5 2.0) 0.0 0.0 0.0 (Vec3 (-2.0) 0.0 (-17.0));
    call_SetShaderTexture "lamp_bot";
    call_SetShaderMaterial "metal";
    call_Draw CylinderMesh;
    (* BOOK 1, line 1397 *)
    call_SetTransformations (Vec3 3.0 1.0 4.0) 90.0 90.0 0.0 (Vec3 17.6 12.0 (-18.0));
    call_SetShaderTexture "books";
    call_SetShaderMaterial "fabric";
    call_Draw BoxMesh;
    (* BOOK 2, line 1427 *)
    call_SetTransformations (Vec3 3.0 1.0 5.0) 90.0 90.0 0.0 (Vec3 16.3 12.5 (-18.0));
    call_SetShaderTexture "book2";
    call_SetShaderMaterial "fabric";
    call_Draw BoxMesh;
    (* BOOK 3, line 1456 *)
    call_SetTransformations (Vec3 3.0 1.0 4.0) 90.0 90.0 0.0 (Vec3 15.0 12.0 (-18.0));
    call_SetShaderTexture "books";
    call_SetShaderMaterial "fabric";
    call_Draw BoxMesh;
    (* BOOK 4, line 1484 *)
    call_SetTransformations (Vec3 3.0 1.0 4.0) 90.0 90.0 0.0 (Vec3 4.2 17.0 (-18.0));
    call_SetShaderTexture "books";
    call_SetShaderMaterial "fabric";
    call_Draw BoxMesh;
    (* BOOK 5, line 1513 *)
    call_SetTransformations (Vec3 3.0 1.0 5.0) 90.0 90.0 0.0 (Vec3 5.4 17.4 (-18.0));
    call_SetShaderTexture "book2";
    call_SetShaderMaterial "fabric";
    call_Draw BoxMesh;
    (* BOOK 6, line 1542 *)
    call_SetTransformations (Vec3 2.9 1.0 3.8) 90.0 90.0 20.0 (Vec3 7.0 17.1 (-18.0));
    call_SetShaderTexture "books";
    call_SetShaderMaterial "fabric";
    call_Draw BoxMesh;
    (* SNOWGLOBE BOTTOM, line 1571 *)
    call_SetTransformations (Vec3 1.0 1.0 1.0) 0.0 0.0 0.0 (Vec3 7.0 5.0 (-17.0));
    call_SetShaderTexture "snowglobe_bot";
    call_SetShaderMaterial "metal";
    call_Draw TaperedCylinderMesh;
    (* SNOWGLOBE Top, line 1600 *)
    call_SetTransformations (Vec3 0.9 0.9 0.9) 0.0 0.0 0.0 (Vec3 7.0 6.7 (-17.0));
    call_SetShaderTexture "lamp_bot";
    call_SetShaderMaterial "glass";
    call_Draw SphereMesh
  ].

Definition RenderScene (P : Platform) : M unit :=
  run_calls P RenderScene_body.

(** ** Vocabulary of the properties *)

(** From a state in [Pre], [m] returns, with a result and a state in
    [Post]. *)
Definition returns {A} (Pre : State -> Prop) (m : M A)
    (Post : A -> State -> Prop) : Prop :=
  forall st, Pre st -> exists a st', m st = Ok (a, st') /\ Post a st'.

(** The scene before any texture is registered beyond the first [k] slots of
    an array of [MAX_TEXTURES], with a shader attached and no
    material yet. *)
Definition loading (k : Z) (st : State) : Prop :=
  is_Some (m_pShaderManager st) /\
  m_objectMaterials st = [] /\
  length (m_textureIDs st) = MAX_TEXTURES /\
  0 <= m_loadedTextures st <= k.

(** A sequence of [CreateGLTexture] calls, [(filename, tag)] each, and what
    each returned. *)
Fixpoint CreateGLTextures (P : Platform) (loads : list (string * string))
  : M (list bool) :=
  match loads with
  | [] => mret []
  | (filename, tag') :: loads' =>
      b ← CreateGLTexture P filename tag';
      bs ← CreateGLTextures P loads';
      mret (b :: bs)
  end.

(** The tags of the calls that returned [true], in call order. *)
Fixpoint loaded_tags (loads : list (string * string)) (results : list bool)
  : list string :=
  match loads, results with
  | (_, tag') :: loads', true :: results' => tag' :: loaded_tags loads' results'
  | _ :: loads', false :: results' => loaded_tags loads' results'
  | _, _ => []
  end.

(** The registered entries: the first [m_loadedTextures] elements of the
    array. *)
Definition registered (st : State) : list TEXTURE_INFO :=
  take (Z.to_nat (m_loadedTextures st)) (m_textureIDs st).

(** The registry is within its array. *)
Definition registry_in_bounds (st : State) : Prop :=
  0 <= m_loadedTextures st <= Z.of_nat (length (m_textureIDs st)).

(** [material] after the three assignments of [FindMaterial] from the
    registry entry [e]: the tag is not assigned. *)
Definition copy_material (e material : OBJECT_MATERIAL) : OBJECT_MATERIAL :=
  {| diffuseColor := diffuseColor e; specularColor := specularColor e;
     shininess := shininess e; material_tag := material_tag material |}.

(** How the locals of the two texture lookups stand to each other: both at
    their initial -1, or [slot] a registered index and [id] the name stored
    there, converted to [int]. *)
Definition coherent (st : State) (slot id : Z) : Prop :=
  (slot = -1 /\ id = -1) \/
  (0 <= slot < m_loadedTextures st /\
   exists e, array_read (m_textureIDs st) slot = Ok e /\ id = int_of_GLuint (ID e)).

(** A sequence cut at its draws: for each draw, what came since the draw
    before it, and what is left after the last draw. *)
Fixpoint split_draws {A} (draw_of : A -> option mesh) (l : list A)
  : list (list A * mesh) * list A :=
  match l with
  | [] => ([], [])
  | a :: l' =>
      let '(segs, rest) := split_draws draw_of l' in
      match draw_of a with
      | Some m => (([], m) :: segs, rest)
      | None =>
          match segs with
          | [] => ([], a :: rest)
          | (pre, m) :: segs' => ((a :: pre, m) :: segs', rest)
          end
      end
  end.

Definition draw_of_call (c : call) : option mesh :=
  match c with
  | call_Draw m => Some m
  | _ => None
  end.

Definition draw_of_event (e : event) : option mesh :=
  match e with
  | DrawMesh m => Some m
  | _ => None
  end.

(** An event without the value it carries. *)
Inductive effect :=
| WriteUniform (name : string)
| Draw (m : mesh)
| OtherCall.

Definition effect_of (e : event) : effect :=
  match e with
  | setUniform name _ => WriteUniform name
  | DrawMesh m => Draw m
  | _ => OtherCall
  end.

#[global] Instance mesh_eq_dec : EqDecision mesh.
Proof. solve_decision. Defined.
#[global] Instance effect_eq_dec : EqDecision effect.
Proof. solve_decision. Defined.

Definition draw_of_effect (k : effect) : option mesh :=
  match k with
  | Draw m => Some m
  | _ => None
  end.

(** The effects of a call of [RenderScene] when a shader is attached and the
    material registry is not empty. *)
Definition call_effects (c : call) : list effect :=
  match c with
  | call_SetTransformations _ _ _ _ _ => [WriteUniform g_ModelName]
  | call_SetShaderColor _ _ _ _ =>
      [WriteUniform g_UseTextureName; WriteUniform g_ColorValueName]
  | call_SetShaderTexture _ =>
      [WriteUniform g_UseTextureName; WriteUniform g_TextureValueName]
  | call_SetShaderMaterial _ =>
      [WriteUniform "material.diffuseColor"; WriteUniform "material.specularColor";
       WriteUniform "material.shininess"]
  | call_Draw m => [Draw m]
  end.

(** Some value is written to the uniform [name] in [evs]. *)
Definition writes (name : string) (evs : list event) : Prop :=
  WriteUniform name ∈ effect_of <$> evs.

(** The uniforms a draw consumes were all written in [evs]: the model
    matrix, the texture flag with the sampler or the colour, the material. *)
Definition state_set (evs : list event) : Prop :=
  writes g_ModelName evs /\
  writes g_UseTextureName evs /\
  (writes g_TextureValueName evs \/ writes g_ColorValueName evs) /\
  writes "material.diffuseColor" evs /\
  writes "material.specularColor" evs /\
  writes "material.shininess" evs.

(** The same, and no draw, on effects. *)
Definition state_set_effects (ks : list effect) : Prop :=
  Forall (fun k => draw_of_effect k = None) ks /\
  WriteUniform g_ModelName ∈ ks /\
  WriteUniform g_UseTextureName ∈ ks /\
  (WriteUniform g_TextureValueName ∈ ks \/ WriteUniform g_ColorValueName ∈ ks) /\
  WriteUniform "material.diffuseColor" ∈ ks /\
  WriteUniform "material.specularColor" ∈ ks /\
  WriteUniform "material.shininess" ∈ ks.

(** What [RenderScene] relies on and [PrepareScene] establishes: a shader
    attached, some material registered, the texture registry within its
    array. *)
Definition scene_ready (st : State) : Prop :=
  is_Some (m_pShaderManager st) /\
  m_objectMaterials st <> [] /\
  registry_in_bounds st.

(** The calls, or the events, of one drawn object: what precedes the draw,
    then the draw. *)
Definition object_call_sequence (o : list call * mesh) : list call :=
  o.1 ++ [call_Draw o.2].
Definition object_events (s : list event * mesh) : list event :=
  s.1 ++ [DrawMesh s.2].
Definition object_effects (k : list effect * mesh) : list effect :=
  k.1 ++ [Draw k.2].

Definition is_SetTransformations (c : call) : bool :=
  match c with call_SetTransformations _ _ _ _ _ => true | _ => false end.
Definition is_SetShaderColor (c : call) : bool :=
  match c with call_SetShaderColor _ _ _ _ => true | _ => false end.
Definition is_SetShaderTexture (c : call) : bool :=
  match c with call_SetShaderTexture _ => true | _ => false end.
Definition is_SetShaderMaterial (c : call) : bool :=
  match c with call_SetShaderMaterial _ => true | _ => false end.

(** The calls made for one object: [SetTransformations], then
    [SetShaderColor] or [SetShaderTexture] or both, then
    [SetShaderMaterial]. *)
Definition object_calls (cs : list call) : bool :=
  match cs with
  | [t; s; m] =>
      is_SetTransformations t && (is_SetShaderColor s || is_SetShaderTexture s)
      && is_SetShaderMaterial m
  | [t; c; s; m] =>
      is_SetTransformations t && is_SetShaderColor c && is_SetShaderTexture s
      && is_SetShaderMaterial m
  | _ => false
  end.

(** At most one of [SetShaderColor] and [SetShaderTexture] is called. *)
Definition color_xor_texture (cs : list call) : bool :=
  negb (existsb is_SetShaderColor cs && existsb is_SetShaderTexture cs).

(** ** Concrete inputs *)

(** A platform on which "textures/gray.png" decodes to a one-channel image,
    "textures/missing.jpg" cannot be read, every other file is a three-channel
    512 x 512 image, and texture names are handed out in increasing order. *)
Definition example_platform : Platform := {|
  stbi_load := fun filename =>
    if bool_decide (filename = "textures/gray.png") then
      Some {| width := 2; height := 2; colorChannels := 1 |}
    else if bool_decide (filename = "textures/missing.jpg") then None
    else Some {| width := 512; height := 512; colorChannels := 3 |};
  gl_fresh_name := fun used => 1 + foldr Z.max 0 used;
  uninitialised_material :=
    {| diffuseColor := Vec3 0 0 0; specularColor := Vec3 0 0 0;
       shininess := 0; material_tag := "" |}
|}.

(** A scene manager in which nothing is loaded yet: no texture, no material,
    no texture name in use, nothing traced. *)
Definition empty_scene (sh : option ShaderManager) : State := {|
  m_pShaderManager := sh;
  m_textureIDs := replicate MAX_TEXTURES {| ID := 0; tag := "" |};
  m_loadedTextures := 0;
  m_objectMaterials := [];
  gl_textures := [];
  trace := []
|}.

(** The state a computation ends in ([st] itself if it has none). *)
Definition state_after {A} (m : M A) (st : State) : State :=
  match m st with
  | Ok (_, st') => st'
  | _ => st
  end.

(** The scene after [LoadSceneTextures] and [DefineObjectMaterials], with an
    attached shader that has no uniform set yet. *)
Definition prepared_scene : State :=
  Eval vm_compute in
    state_after (LoadSceneTextures example_platform;; DefineObjectMaterials)
      (empty_scene (Some ∅)).

(** The scene after [DefineObjectMaterials] alone. *)
Definition materials_defined (sh : option ShaderManager) : State :=
  state_after DefineObjectMaterials (empty_scene sh).

(** A registry holding one texture, "floor", with name 7. *)
Definition one_texture : State := {|
  m_pShaderManager := Some ∅;
  m_textureIDs := {| ID := 7; tag := "floor" |}
                    :: replicate 15 {| ID := 0; tag := "" |};
  m_loadedTextures := 1;
  m_objectMaterials := [];
  gl_textures := [7];
  trace := []
|}.

(** A registry holding one texture whose name is the largest [GLuint]. *)
Definition max_name_texture : State := {|
  m_pShaderManager := Some ∅;
  m_textureIDs := {| ID := 4294967295; tag := "floor" |}
                    :: replicate 15 {| ID := 0; tag := "" |};
  m_loadedTextures := 1;
  m_objectMaterials := [];
  gl_textures := [4294967295];
  trace := []
|}.

(** Four loads of which the second is rejected for its channel count and the
    third cannot be read, and the state they leave. *)
Definition mixed_loads : list (string * string) :=
  [("textures/leaf.jpg", "leaf"); ("textures/gray.png", "gray");
   ("textures/missing.jpg", "missing"); ("textures/vase.jpg", "vase")].

Definition mixed_loaded : State :=
  Eval vm_compute in
    state_after (CreateGLTextures example_platform mixed_loads)
      (empty_scene (Some ∅)).

(** The calls [RenderScene] makes for the lamp shade ("LAMP TOP", lines
    1296-1322 of SceneManager.cpp), before its draw. *)
Definition lamp_top_calls : list call :=
  [call_SetTransformations (Vec3 2.0 3.5 2.0) 0.0 0.0 0.0 (Vec3 (-2.0) 13.0 (-17.0));
   call_SetShaderColor 0.3 0.3 0.3 0.3;
   call_SetShaderTexture "lamp_top";
   call_SetShaderMaterial "paper"].

(** ** Further vocabulary and inputs *)

(** The matrix [SetTransformations] composes. *)
Definition model_matrix (scaleXYZ : vec3) (rx ry rz : float) (positionXYZ : vec3)
  : mat4 :=
  (glm_translate positionXYZ
   * glm_rotate (glm_radians rz) (Vec3 0.0 0.0 1.0)
   * glm_rotate (glm_radians ry) (Vec3 0.0 1.0 0.0)
   * glm_rotate (glm_radians rx) (Vec3 1.0 0.0 0.0)
   * glm_scale scaleXYZ)%mat4.

(** [e] is the first entry of [l] that [P] holds of, at index [i]. *)
Definition first_match {A} (P : A -> Prop) (l : list A) (i : nat) (e : A) : Prop :=
  l !! i = Some e /\ P e /\
  forall j e', (j < i)%nat -> l !! j = Some e' -> ~ P e'.

(** A registry with two materials tagged "wood", of different shininess,
    after one tagged "metal". *)
Definition two_woods : State := {|
  m_pShaderManager := Some ∅;
  m_textureIDs := replicate MAX_TEXTURES {| ID := 0; tag := "" |};
  m_loadedTextures := 0;
  m_objectMaterials :=
    [{| diffuseColor := Vec3 0.5 0.5 0.5; specularColor := Vec3 0.6 0.6 0.6;
        shininess := 70.0; material_tag := "metal" |};
     {| diffuseColor := Vec3 0.3 0.3 0.3; specularColor := Vec3 0.4 0.4 0.4;
        shininess := 40.0; material_tag := "wood" |};
     {| diffuseColor := Vec3 0.1 0.1 0.1; specularColor := Vec3 0.2 0.2 0.2;
        shininess := 5.0; material_tag := "wood" |}];
  gl_textures := [];
  trace := []
|}.

(** A registry of three textures in which the tag "wall" is loaded twice. *)
Definition wall_twice : State := {|
  m_pShaderManager := Some ∅;
  m_textureIDs :=
    [{| ID := 11; tag := "floor" |}; {| ID := 12; tag := "wall" |};
     {| ID := 13; tag := "wall" |}; {| ID := 14; tag := "stale" |}];
  m_loadedTextures := 3;
  m_objectMaterials := [];
  gl_textures := [11; 12; 13; 14];
  trace := []
|}.

(** A registry whose four slots are all taken. *)
Definition full_registry : State := {|
  m_pShaderManager := Some ∅;
  m_textureIDs :=
    [{| ID := 11; tag := "floor" |}; {| ID := 12; tag := "wall" |};
     {| ID := 13; tag := "rug" |}; {| ID := 14; tag := "vase" |}];
  m_loadedTextures := 4;
  m_objectMaterials := [];
  gl_textures := [11; 12; 13; 14];
  trace := []
|}.

(** The format arguments of the [glTexImage2D] call for an image of 3
    channels and for one of 4. *)
Definition upload_call (image : Image) : event :=
  if colorChannels image =? 3 then
    glTexImage2D GL_TEXTURE_2D 0 GL_RGB8 (width image) (height image) 0
      GL_RGB GL_UNSIGNED_BYTE
  else
    glTexImage2D GL_TEXTURE_2D 0 GL_RGBA8 (width image) (height image) 0
      GL_RGBA GL_UNSIGNED_BYTE.

(** The slot [FindTextureSlot] reports for a tag, and the material
    [SetShaderMaterial] hands to the shader for a tag, read off the
    registries. *)
Definition slot_of (st : State) (t : string) : Z :=
  match list_find (fun e => tag e = t) (registered st) with
  | Some (j, _) => Z.of_nat j
  | None => -1
  end.

Definition material_of (P : Platform) (st : State) (t : string) : OBJECT_MATERIAL :=
  match list_find (fun e => material_tag e = t) (m_objectMaterials st) with
  | Some (_, e) => copy_material e (uninitialised_material P)
  | None => uninitialised_material P
  end.

(** What a call of [RenderScene] does in a scene that is ready, as a function
    of the registries alone. *)
Definition call_events (P : Platform) (st : State) (c : call) : list event :=
  match c with
  | call_SetTransformations s rx ry rz p =>
      [setUniform "model" (Mat4Value (model_matrix s rx ry rz p))]
  | call_SetShaderColor r g b a =>
      [setUniform "bUseTexture" (IntValue 0);
       setUniform "objectColor" (Vec4Value (Vec4 r g b a))]
  | call_SetShaderTexture t =>
      [setUniform "bUseTexture" (IntValue 1);
       setUniform "objectTexture" (Sampler2DValue (slot_of st t))]
  | call_SetShaderMaterial t =>
      [setUniform "material.diffuseColor"
         (Vec3Value (diffuseColor (material_of P st t)));
       setUniform "material.specularColor"
         (Vec3Value (specularColor (material_of P st t)));
       setUniform "material.shininess"
         (FloatValue (shininess (material_of P st t)))]
  | call_Draw m => [DrawMesh m]
  end.

(** The shader after an event. *)
Definition apply_event (sh : ShaderManager) (e : event) : ShaderManager :=
  match e with
  | setUniform name v => <[name := v]> sh
  | _ => sh
  end.

(** The uniforms that the calls of [RenderScene] write. *)
Definition per_object_uniforms : list string :=
  ["model"; "bUseTexture"; "objectColor"; "objectTexture";
   "material.diffuseColor"; "material.specularColor"; "material.shininess"].

(** Every file that [LoadSceneTextures] asks for decodes to an image of 3 or
    4 channels. *)
Definition scene_textures_load (P : Platform) : Prop :=
  Forall (fun filename =>
            exists image, stbi_load P filename = Some image /\
                          (colorChannels image = 3 \/ colorChannels image = 4))
    ["textures/leaf.jpg"; "textures/vase.jpg"; "textures/floor.jpg";
     "textures/wall.jpg"; "textures/ottoman.jpg"; "textures/pillow.jpg";
     "textures/bookshelf.jpg"; "textures/picture.jpg"; "textures/rug.jpg";
     "textures/lamp_bot.jpg"; "textures/lamp_top.jpg"; "textures/books.jpg";
     "textures/book2.jpg"; "textures/snowglobe_bot.jpg"].

(** The scene while it is prepared: [l] are the tags of the registered
    textures, [ms] the registered materials. *)
Definition prepared (shader : bool) (l : list string) (ms : list OBJECT_MATERIAL)
    (st : State) : Prop :=
  (if shader then is_Some (m_pShaderManager st) else m_pShaderManager st = None) /\
  m_objectMaterials st = ms /\
  length (m_textureIDs st) = MAX_TEXTURES /\
  registry_in_bounds st /\
  tag <$> registered st = l.

(** The draws among the calls. *)
Definition draws_of (cs : list call) : list event :=
  omap (fun c => DrawMesh <$> draw_of_call c) cs.

(** The scene while its textures are loaded, with the shader pointer [sh0]:
    no material yet, an array of [MAX_TEXTURES], at most [k] of them
    registered. *)
Definition loading_with (sh0 : option ShaderManager) (k : Z) (st : State) : Prop :=
  m_pShaderManager st = sh0 /\
  m_objectMaterials st = [] /\
  length (m_textureIDs st) = MAX_TEXTURES /\
  0 <= m_loadedTextures st <= k.

(** The slot of a tag among the tags of the registered textures. *)
Definition slot_in (tags : list string) (t : string) : Z :=
  match list_find (fun x => x = t) tags with
  | Some (j, _) => Z.of_nat j
  | None => -1
  end.

(** A sampler index written by [e], if any, is a slot below [n]. *)
Definition sampler_in_range (n : Z) (e : event) : bool :=
  match e with
  | setUniform _ (Sampler2DValue s) => (0 <=? s) && (s <? n)
  | _ => true
  end.

(** The material a [SetShaderMaterial] call names is among [ms]. *)
Definition names_registered_material (ms : list OBJECT_MATERIAL) (c : call) : bool :=
  match c with
  | call_SetShaderMaterial t => bool_decide (t ∈ material_tag <$> ms)
  | _ => true
  end.

(** The tags under which [LoadSceneTextures] loads, in load order. *)
Definition scene_texture_tags : list string :=
  ["leaf"; "vase"; "floor"; "wall"; "ottoman"; "pillow"; "bookshelf";
   "picture"; "rug"; "lamp_bot"; "lamp_top"; "books"; "book2";
   "snowglobe_bot"].

(** The materials [DefineObjectMaterials] registers. *)
Definition scene_materials : list OBJECT_MATERIAL :=
  Eval vm_compute in m_objectMaterials (materials_defined None).


(** A second platform: every file decodes to a four-channel 64 x 64 image,
    texture names are handed out seven apart, and an uninitialised material
    holds other values than on [example_platform]. *)
Definition rgba_platform : Platform := {|
  stbi_load := fun _ => Some {| width := 64; height := 64; colorChannels := 4 |};
  gl_fresh_name := fun used => 7 + foldr Z.max 0 used;
  uninitialised_material :=
    {| diffuseColor := Vec3 0.9 0.9 0.9; specularColor := Vec3 0.8 0.8 0.8;
       shininess := 3.0; material_tag := "junk" |}
|}.

(** The scene while only its shader is written to: since [st0], whose shader
    was [sh], the events [evs] have happened and nothing else has changed. *)
Definition shader_written (st0 : State) (sh : ShaderManager) (evs : list event)
    (st : State) : Prop :=
  m_pShaderManager st = Some (foldl apply_event sh evs) /\
  trace st = trace st0 ++ evs /\
  m_textureIDs st = m_textureIDs st0 /\
  m_loadedTextures st = m_loadedTextures st0 /\
  m_objectMaterials st = m_objectMaterials st0 /\
  gl_textures st = gl_textures st0.

(** The uniforms that switch the lighting and the five lights on. *)
Definition light_switches : list string :=
  [g_UseLightingName; "directionalLight.bActive"; "pointLights[0].bActive";
   "pointLights[1].bActive"; "pointLights[2].bActive"; "pointLights[3].bActive"].

(** A scene with a shader attached, [k] textures registered, in an array of
    [n] elements. *)
Definition counted (n : nat) (k : Z) (st : State) : Prop :=
  is_Some (m_pShaderManager st) /\
  length (m_textureIDs st) = n /\
  m_loadedTextures st = k.

(** From a state in [Pre], [m] has undefined behaviour. *)
Definition overflows {A} (Pre : State -> Prop) (m : M A) : Prop :=
  forall st, Pre st -> m st = Undefined.




(** * Properties *)

(** ** The monad *)

Lemma bind_Ok {A B} (m : M A) (f : A -> M B) st a st' :
  m st = Ok (a, st') -> (m ≫= f) st = f a st'.
Proof. intros H. unfold mbind, M_bind. by rewrite H. Qed.

Lemma bind_get {B} (f : State -> M B) st : (get ≫= f) st = f st st.
Proof. reflexivity. Qed.

Lemma bind_emit {B} e (f : unit -> M B) st :
  (emit e ≫= f) st = f tt (set_trace (trace st ++ [e]) st).
Proof. reflexivity. Qed.

Lemma bind_modify {B} g (f : unit -> M B) st :
  (modify g ≫= f) st = f tt (g st).
Proof. reflexivity. Qed.

Lemma bind_lift_Ok {A B} (a : A) (f : A -> M B) st :
  (lift (Ok a) ≫= f) st = f a st.
Proof. reflexivity. Qed.

Lemma bind_shader_set {B} name v (f : unit -> M B) st sh :
  m_pShaderManager st = Some sh ->
  (shader_set name v ≫= f) st =
  f tt (set_trace (trace st ++ [setUniform name v])
          (set_shader (Some (<[name := v]> sh)) st)).
Proof. intros H. unfold mbind, M_bind, shader_set. by rewrite H. Qed.

Lemma shader_set_Some name v st sh :
  m_pShaderManager st = Some sh ->
  shader_set name v st =
  Ok (tt, set_trace (trace st ++ [setUniform name v])
            (set_shader (Some (<[name := v]> sh)) st)).
Proof. intros H. unfold shader_set. by rewrite H. Qed.

(** ** Strings and arrays *)

Lemma string_compare_eq s t : (string_compare s t =? 0) = bool_decide (s = t).
Proof.
  unfold string_compare.
  destruct (String.compare s t) eqn:E.
  - apply String.compare_eq_iff in E. subst. by rewrite bool_decide_eq_true_2.
  - rewrite bool_decide_eq_false_2; [done|]. intros ->.
    pose proof (String.compare_antisym t t) as H. rewrite E in H. discriminate.
  - rewrite bool_decide_eq_false_2; [done|]. intros ->.
    pose proof (String.compare_antisym t t) as H. rewrite E in H. discriminate.
Qed.

Lemma array_read_lookup {A} (arr : list A) (k : nat) a :
  arr !! k = Some a -> array_read arr (Z.of_nat k) = Ok a.
Proof.
  intros H. unfold array_read.
  rewrite (proj2 (Z.leb_le 0 (Z.of_nat k))) by lia.
  by rewrite Nat2Z.id, H.
Qed.

Lemma array_read_Ok {A} (arr : list A) i a :
  array_read arr i = Ok a -> 0 <= i ∧ arr !! Z.to_nat i = Some a.
Proof.
  unfold array_read. destruct (0 <=? i) eqn:E; [|done].
  apply Z.leb_le in E. destruct (arr !! Z.to_nat i); [|done].
  by intros [= ->].
Qed.

Lemma array_write_in_bounds {A} (arr : list A) (k : nat) a :
  (k < length arr)%nat -> array_write arr (Z.of_nat k) a = Ok (<[k := a]> arr).
Proof.
  intros H. unfold array_write.
  rewrite (proj2 (Z.leb_le 0 (Z.of_nat k))) by lia.
  rewrite (proj2 (Z.ltb_lt (Z.of_nat k) _)) by lia.
  by rewrite Nat2Z.id.
Qed.

(** ** The material registry *)

Lemma FindMaterial_loop_found fuel st t material index :
  FindMaterial_loop fuel st t material index true = Ok material.
Proof. destruct fuel; simpl; by rewrite andb_false_r. Qed.

Lemma FindMaterial_loop_spec st t fuel : forall (k : nat) material,
  (length (m_objectMaterials st) - k <= fuel)%nat ->
  (k <= length (m_objectMaterials st))%nat ->
  FindMaterial_loop fuel st t material (Z.of_nat k) false =
  Ok (match list_find (fun e => material_tag e = t) (drop k (m_objectMaterials st)) with
      | Some (_, e) => copy_material e material
      | None => material
      end).
Proof.
  induction fuel as [|fuel IH]; intros k material Hf Hk.
  - assert (k = length (m_objectMaterials st)) as -> by lia.
    simpl. rewrite Z.ltb_irrefl. simpl. by rewrite drop_all.
  - simpl. destruct (decide (k = length (m_objectMaterials st))) as [->|Hne].
    { rewrite Z.ltb_irrefl. simpl. by rewrite drop_all. }
    assert (k < length (m_objectMaterials st))%nat as Hlt by lia.
    rewrite (proj2 (Z.ltb_lt _ _)) by lia. simpl.
    destruct (lookup_lt_is_Some_2 _ _ Hlt) as [e He].
    rewrite (array_read_lookup _ _ _ He). simpl.
    rewrite (drop_S _ _ _ He). simpl.
    rewrite string_compare_eq.
    destruct (decide (material_tag e = t)) as [Heq|Hneq].
    + rewrite bool_decide_eq_true_2 by done.
      apply FindMaterial_loop_found.
    + rewrite bool_decide_eq_false_2 by done.
      replace (Z.of_nat k + 1) with (Z.of_nat (S k)) by lia.
      rewrite IH by lia.
      by destruct (list_find _ (drop (S k) _)) as [[]|].
Qed.

Lemma FindMaterial_spec st t material :
  FindMaterial st t material =
  Ok (match m_objectMaterials st with
      | [] => (false, material)
      | _ :: _ =>
          (true,
           match list_find (fun e => material_tag e = t) (m_objectMaterials st) with
           | Some (_, e) => copy_material e material
           | None => material
           end)
      end).
Proof.
  unfold FindMaterial.
  destruct (m_objectMaterials st) as [|e0 mats] eqn:E; [done|].
  rewrite (proj2 (Z.eqb_neq _ 0)) by (simpl; lia).
  rewrite <- E.
  change 0 with (Z.of_nat 0).
  rewrite FindMaterial_loop_spec by lia.
  by rewrite drop_0.
Qed.

(** [FindMaterial] reports a match whenever the registry is not empty. *)
Lemma FindMaterial_true_iff st t material :
  (exists material', FindMaterial st t material = Ok (true, material'))
  <-> m_objectMaterials st <> [].
Proof.
  rewrite FindMaterial_spec.
  destruct (m_objectMaterials st); split; try done.
  - by intros [? [=]].
  - eauto.
Qed.

Lemma SetShaderMaterial_nonempty P t st sh :
  m_pShaderManager st = Some sh ->
  m_objectMaterials st <> [] ->
  let material :=
    match list_find (fun e => material_tag e = t) (m_objectMaterials st) with
    | Some (_, e) => copy_material e (uninitialised_material P)
    | None => uninitialised_material P
    end in
  SetShaderMaterial P t st =
  Ok (tt,
      set_trace
        (trace st ++
         [setUniform "material.diffuseColor" (Vec3Value (diffuseColor material));
          setUniform "material.specularColor" (Vec3Value (specularColor material));
          setUniform "material.shininess" (FloatValue (shininess material))])
        (set_shader
           (Some (<["material.shininess" := FloatValue (shininess material)]>
                    (<["material.specularColor" := Vec3Value (specularColor material)]>
                       (<["material.diffuseColor" := Vec3Value (diffuseColor material)]>
                          sh))))
           st)).
Proof.
  intros Hsh Hne material. unfold SetShaderMaterial.
  rewrite bind_get.
  assert (0 < Z.of_nat (length (m_objectMaterials st))) as Hlen
    by (destruct (m_objectMaterials st); [done | simpl; lia]).
  rewrite (proj2 (Z.ltb_lt 0 _)) by done.
  assert (FindMaterial st t (uninitialised_material P) = Ok (true, material)) as ->.
  { rewrite FindMaterial_spec. subst material.
    by destruct (m_objectMaterials st). }
  rewrite bind_lift_Ok.
  change (Bool.eqb true true) with true. cbv iota.
  rewrite (bind_shader_set _ _ _ _ _ Hsh).
  erewrite bind_shader_set by reflexivity.
  erewrite shader_set_Some by reflexivity.
  simpl. unfold set_trace, set_shader; simpl.
  by rewrite <- !app_assoc.
Qed.

Lemma SetShaderMaterial_empty P t st :
  m_objectMaterials st = [] -> SetShaderMaterial P t st = Ok (tt, st).
Proof.
  intros E. unfold SetShaderMaterial. rewrite bind_get. by rewrite E.
Qed.

(** C3 (the code departs from the claim).  The claim: for a tag that no
    registered material has, [FindMaterial] returns false, in an empty and in
    a non-empty registry alike.  The code: in the registry that
    [DefineObjectMaterials] builds, which has no material tagged "gold",
    [FindMaterial] returns true for "gold", and leaves the caller's
    [material] as it was; the flag [bFound] of its loop is not what it
    returns. *)
Theorem FindMaterial_absent_tag_returns_true P sh :
  let st := materials_defined sh in
  Forall (fun e => material_tag e <> "gold") (m_objectMaterials st) /\
  FindMaterial st "gold" (uninitialised_material P) =
  Ok (true, uninitialised_material P).
Proof.
  split.
  - simpl. repeat (constructor; [discriminate|]). constructor.
  - rewrite FindMaterial_spec. reflexivity.
Qed.

(** C2 (the code departs from the claim).  The claim: for a tag that matches
    no registered material, [SetShaderMaterial] writes no uniform.  The code:
    with the materials of [DefineObjectMaterials] and a shader that has no
    uniform set, [SetShaderMaterial] for the unregistered tag "gold" writes
    all three material uniforms, from the fields of its uninitialised local
    [material]. *)
Theorem SetShaderMaterial_absent_tag_writes P :
  let st := materials_defined (Some ∅) in
  let garbage := uninitialised_material P in
  Forall (fun e => material_tag e <> "gold") (m_objectMaterials st) /\
  m_pShaderManager st = Some ∅ /\
  exists st',
    SetShaderMaterial P "gold" st = Ok (tt, st') /\
    m_pShaderManager st' =
      Some (<["material.shininess" := FloatValue (shininess garbage)]>
              (<["material.specularColor" := Vec3Value (specularColor garbage)]>
                 (<["material.diffuseColor" := Vec3Value (diffuseColor garbage)]> ∅))) /\
    trace st' =
      [setUniform "material.diffuseColor" (Vec3Value (diffuseColor garbage));
       setUniform "material.specularColor" (Vec3Value (specularColor garbage));
       setUniform "material.shininess" (FloatValue (shininess garbage))].
Proof.
  intros st garbage. split; [|split; [reflexivity|]].
  - simpl. repeat (constructor; [discriminate|]). constructor.
  - eexists. split.
    + apply (SetShaderMaterial_nonempty P "gold" st ∅); [reflexivity | discriminate].
    + split; reflexivity.
Qed.

(** ** The dispatcher without a shader *)

(** C10.  With [m_pShaderManager] NULL, each of [SetTransformations],
    [SetShaderColor], [SetShaderTexture] and [SetTextureUVScale] returns
    normally and leaves everything as it was, the trace of uniform writes
    included, whatever its arguments. *)
Theorem dispatcher_without_shader_is_noop st :
  m_pShaderManager st = None ->
  (forall scaleXYZ rx ry rz positionXYZ,
      SetTransformations scaleXYZ rx ry rz positionXYZ st = Ok (tt, st)) /\
  (forall r g b a, SetShaderColor r g b a st = Ok (tt, st)) /\
  (forall textureTag, SetShaderTexture textureTag st = Ok (tt, st)) /\
  (forall u v, SetTextureUVScale u v st = Ok (tt, st)).
Proof.
  intros H. repeat split; intros.
  - unfold SetTransformations. rewrite bind_get. by rewrite H.
  - unfold SetShaderColor. rewrite bind_get. by rewrite H.
  - unfold SetShaderTexture. rewrite bind_get. by rewrite H.
  - unfold SetTextureUVScale. rewrite bind_get. by rewrite H.
Qed.

Lemma dispatcher_without_shader_is_noop_witness :
  m_pShaderManager (empty_scene None) = None /\
  SetTransformations (Vec3 2 3 4) 90 0 0 (Vec3 5 6 7) (empty_scene None)
    = Ok (tt, empty_scene None) /\
  SetShaderColor 0.3 0.3 0.3 0.3 (empty_scene None) = Ok (tt, empty_scene None) /\
  SetShaderTexture "floor" (empty_scene None) = Ok (tt, empty_scene None) /\
  SetTextureUVScale 2 2 (empty_scene None) = Ok (tt, empty_scene None).
Proof.
  destruct (dispatcher_without_shader_is_noop (empty_scene None) eq_refl)
    as (Ht & Hc & Hx & Hu).
  split; [reflexivity|].
  split; [apply Ht|]. split; [apply Hc|]. split; [apply Hx | apply Hu].
Defined.

(** ** The transform composer *)

(** C8.  With a shader attached, [SetTransformations] writes to the uniform
    "model" the matrix translation * rotationZ * rotationY * rotationX * scale,
    each rotation built about its axis from the angle converted with
    [glm::radians]; that one write is all it does: every other uniform, the
    registries and the OpenGL state are as before. *)
Theorem SetTransformations_model_matrix st sh scaleXYZ rx ry rz positionXYZ :
  m_pShaderManager st = Some sh ->
  let modelView :=
    (glm_translate positionXYZ
     * glm_rotate (glm_radians rz) (Vec3 0.0 0.0 1.0)
     * glm_rotate (glm_radians ry) (Vec3 0.0 1.0 0.0)
     * glm_rotate (glm_radians rx) (Vec3 1.0 0.0 0.0)
     * glm_scale scaleXYZ)%mat4 in
  exists st' sh',
    SetTransformations scaleXYZ rx ry rz positionXYZ st = Ok (tt, st') /\
    m_pShaderManager st' = Some sh' /\
    sh' !! "model" = Some (Mat4Value modelView) /\
    (forall name, name <> "model" -> sh' !! name = sh !! name) /\
    trace st' = trace st ++ [setUniform "model" (Mat4Value modelView)] /\
    m_textureIDs st' = m_textureIDs st /\
    m_loadedTextures st' = m_loadedTextures st /\
    m_objectMaterials st' = m_objectMaterials st /\
    gl_textures st' = gl_textures st.
Proof.
  intros H modelView.
  eexists _, _. split.
  { unfold SetTransformations. rewrite bind_get, H.
    apply (shader_set_Some _ _ _ _ H). }
  simpl. repeat split.
  - apply lookup_insert_eq.
  - intros name Hne. by apply lookup_insert_ne.
Qed.

Lemma SetTransformations_model_matrix_witness :
  m_pShaderManager prepared_scene = Some ∅ /\
  exists st' sh',
    SetTransformations (Vec3 2 3 4) 90 0 0 (Vec3 5 6 7) prepared_scene
      = Ok (tt, st') /\
    m_pShaderManager st' = Some sh' /\
    sh' !! "model" =
      Some (Mat4Value
              (glm_translate (Vec3 5 6 7)
               * glm_rotate (glm_radians 0) (Vec3 0.0 0.0 1.0)
               * glm_rotate (glm_radians 0) (Vec3 0.0 1.0 0.0)
               * glm_rotate (glm_radians 90) (Vec3 1.0 0.0 0.0)
               * glm_scale (Vec3 2 3 4))%mat4) /\
    sh' !! "bUseTexture" = None /\
    m_loadedTextures st' = 14.
Proof.
  split; [reflexivity|].
  destruct (SetTransformations_model_matrix prepared_scene ∅
              (Vec3 2 3 4) 90 0 0 (Vec3 5 6 7) eq_refl)
    as (st' & sh' & Hrun & Hsh & Hmodel & Hother & _ & _ & Hn & _).
  exists st', sh'. split; [exact Hrun|]. split; [exact Hsh|].
  split; [exact Hmodel|]. split.
  - rewrite Hother by discriminate. reflexivity.
  - rewrite Hn. reflexivity.
Defined.

(** ** The texture lookups *)

Lemma int_of_GLuint_small u : 0 <= u < 2 ^ 31 -> int_of_GLuint u = u.
Proof.
  intros H. unfold int_of_GLuint.
  rewrite Z.mod_small by lia. lia.
Qed.

Lemma FindTextureSlot_loop_found fuel st t slot index :
  FindTextureSlot_loop fuel st t slot index true = Ok slot.
Proof. destruct fuel; simpl; by rewrite andb_false_r. Qed.

Lemma FindTextureID_loop_found fuel st t id index :
  FindTextureID_loop fuel st t id index true = Ok id.
Proof. destruct fuel; simpl; by rewrite andb_false_r. Qed.

Lemma registered_lookup st (k : nat) :
  (k < Z.to_nat (m_loadedTextures st))%nat ->
  registered st !! k = m_textureIDs st !! k.
Proof. intros H. unfold registered. by rewrite lookup_take_lt. Qed.

Lemma registered_length st :
  registry_in_bounds st ->
  length (registered st) = Z.to_nat (m_loadedTextures st).
Proof.
  intros [H0 H1]. unfold registered. rewrite length_take. lia.
Qed.

Lemma FindTextureSlot_loop_spec st t :
  registry_in_bounds st ->
  forall fuel (k : nat) slot,
  (Z.to_nat (m_loadedTextures st) - k <= fuel)%nat ->
  (k <= Z.to_nat (m_loadedTextures st))%nat ->
  FindTextureSlot_loop fuel st t slot (Z.of_nat k) false =
  Ok (match list_find (fun e => tag e = t) (drop k (registered st)) with
      | Some (j, _) => Z.of_nat (k + j)
      | None => slot
      end).
Proof.
  intros Hwf. pose proof (registered_length st Hwf) as Hlen.
  destruct Hwf as [H0 H1].
  induction fuel as [|fuel IH]; intros k slot Hf Hk.
  - simpl. rewrite (proj2 (Z.ltb_ge _ _)) by lia. simpl.
    by rewrite drop_ge by lia.
  - simpl. destruct (decide (k = Z.to_nat (m_loadedTextures st))) as [->|Hne].
    { rewrite (proj2 (Z.ltb_ge _ _)) by lia. simpl. by rewrite drop_ge by lia. }
    assert (k < Z.to_nat (m_loadedTextures st))%nat as Hlt by lia.
    rewrite (proj2 (Z.ltb_lt _ _)) by lia. simpl.
    destruct (lookup_lt_is_Some_2 (m_textureIDs st) k) as [e He]; [lia|].
    rewrite (array_read_lookup _ _ _ He). simpl.
    assert (registered st !! k = Some e) as Hr by by rewrite registered_lookup.
    rewrite (drop_S _ _ _ Hr). simpl.
    rewrite string_compare_eq.
    destruct (decide (tag e = t)) as [Heq|Hneq].
    + rewrite bool_decide_eq_true_2 by done.
      rewrite FindTextureSlot_loop_found. f_equal. lia.
    + rewrite bool_decide_eq_false_2 by done.
      replace (Z.of_nat k + 1) with (Z.of_nat (S k)) by lia.
      rewrite IH by lia.
      destruct (list_find _ (drop (S k) _)) as [[j ?]|]; simpl; [|done].
      f_equal. lia.
Qed.

Lemma FindTextureSlot_spec st t :
  registry_in_bounds st ->
  FindTextureSlot st t =
  Ok (match list_find (fun e => tag e = t) (registered st) with
      | Some (j, _) => Z.of_nat j
      | None => -1
      end).
Proof.
  intros Hwf. unfold FindTextureSlot. change 0 with (Z.of_nat 0).
  rewrite FindTextureSlot_loop_spec by (done || lia).
  by rewrite drop_0.
Qed.

Lemma FindTextureID_loop_spec st t :
  registry_in_bounds st ->
  forall fuel (k : nat) id,
  (Z.to_nat (m_loadedTextures st) - k <= fuel)%nat ->
  (k <= Z.to_nat (m_loadedTextures st))%nat ->
  FindTextureID_loop fuel st t id (Z.of_nat k) false =
  Ok (match list_find (fun e => tag e = t) (drop k (registered st)) with
      | Some (_, e) => int_of_GLuint (ID e)
      | None => id
      end).
Proof.
  intros Hwf. pose proof (registered_length st Hwf) as Hlen.
  destruct Hwf as [H0 H1].
  induction fuel as [|fuel IH]; intros k id Hf Hk.
  - simpl. rewrite (proj2 (Z.ltb_ge _ _)) by lia. simpl.
    by rewrite drop_ge by lia.
  - simpl. destruct (decide (k = Z.to_nat (m_loadedTextures st))) as [->|Hne].
    { rewrite (proj2 (Z.ltb_ge _ _)) by lia. simpl. by rewrite drop_ge by lia. }
    assert (k < Z.to_nat (m_loadedTextures st))%nat as Hlt by lia.
    rewrite (proj2 (Z.ltb_lt _ _)) by lia. simpl.
    destruct (lookup_lt_is_Some_2 (m_textureIDs st) k) as [e He]; [lia|].
    rewrite (array_read_lookup _ _ _ He). simpl.
    assert (registered st !! k = Some e) as Hr by by rewrite registered_lookup.
    rewrite (drop_S _ _ _ Hr). simpl.
    rewrite string_compare_eq.
    destruct (decide (tag e = t)) as [Heq|Hneq].
    + rewrite bool_decide_eq_true_2 by done.
      by rewrite FindTextureID_loop_found.
    + rewrite bool_decide_eq_false_2 by done.
      replace (Z.of_nat k + 1) with (Z.of_nat (S k)) by lia.
      rewrite IH by lia.
      by destruct (list_find _ (drop (S k) _)) as [[j ?]|].
Qed.

Lemma FindTextureID_spec st t :
  registry_in_bounds st ->
  FindTextureID st t =
  Ok (match list_find (fun e => tag e = t) (registered st) with
      | Some (_, e) => int_of_GLuint (ID e)
      | None => -1
      end).
Proof.
  intros Hwf. unfold FindTextureID. change 0 with (Z.of_nat 0).
  rewrite FindTextureID_loop_spec by (done || lia).
  by rewrite drop_0.
Qed.

(** The two loops go through the same iterations. *)
Lemma lookups_lockstep st t fuel : forall slot id index bFound,
  coherent st slot id ->
  match FindTextureSlot_loop fuel st t slot index bFound,
        FindTextureID_loop fuel st t id index bFound with
  | Ok s, Ok i => coherent st s i
  | Undefined, Undefined => True
  | OutOfFuel, OutOfFuel => True
  | _, _ => False
  end.
Proof.
  induction fuel as [|fuel IH]; intros slot id index bFound HR; simpl.
  - by destruct ((index <? m_loadedTextures st) && Bool.eqb bFound false).
  - destruct ((index <? m_loadedTextures st) && Bool.eqb bFound false) eqn:Ht; [|done].
    apply andb_true_iff in Ht as [Hlt _]. apply Z.ltb_lt in Hlt.
    destruct (array_read (m_textureIDs st) index) as [e| |] eqn:He; simpl; try done.
    destruct (string_compare (tag e) t =? 0).
    + apply IH. right. split; [|by exists e].
      apply array_read_Ok in He. lia.
    + by apply IH.
Qed.

(** C9 as stated fails: in a registry whose one texture has the name
    4294967295, the largest [GLuint], [FindTextureSlot] finds the tag at
    slot 0 while [FindTextureID], which returns the name as an [int],
    returns -1; neither does it return the stored name. *)
Lemma FindTextureID_max_name_counterexample :
  FindTextureSlot max_name_texture "floor" = Ok 0 /\
  FindTextureID max_name_texture "floor" = Ok (-1) /\
  (ID <$> m_textureIDs max_name_texture !! 0%nat) = Some 4294967295 /\
  ~ (FindTextureID max_name_texture "floor" = Ok (-1) <->
     FindTextureSlot max_name_texture "floor" = Ok (-1)).
Proof.
  assert (FindTextureSlot max_name_texture "floor" = Ok 0) as Hs by reflexivity.
  assert (FindTextureID max_name_texture "floor" = Ok (-1)) as Hi by reflexivity.
  repeat split; try done.
  intros [H _]. specialize (H Hi). rewrite Hs in H. discriminate.
Qed.

(** C9, amended.  When every registered texture name is below 2^31, so that
    it survives the conversion to [int]: [FindTextureID] returns -1 exactly
    when [FindTextureSlot] does; when [FindTextureSlot] returns a slot
    [s >= 0], [FindTextureID] returns the name stored at index [s]; and in a
    registry within its array both lookups return. *)
Theorem FindTextureID_FindTextureSlot_coherent st t :
  Forall (fun e => 0 <= ID e < 2 ^ 31) (registered st) ->
  (FindTextureID st t = Ok (-1) <-> FindTextureSlot st t = Ok (-1)) /\
  (forall s, FindTextureSlot st t = Ok s -> 0 <= s ->
     exists e, m_textureIDs st !! Z.to_nat s = Some e /\
               FindTextureID st t = Ok (ID e)) /\
  (registry_in_bounds st ->
     exists s i, FindTextureSlot st t = Ok s /\ FindTextureID st t = Ok i).
Proof.
  intros Hnames.
  assert (forall s i, coherent st s i -> 0 <= s ->
            exists e, m_textureIDs st !! Z.to_nat s = Some e /\ i = ID e) as Hco.
  { intros s i [[-> _]|[[H0 Hlt] [e [He ->]]]] Hs; [lia|].
    apply array_read_Ok in He as [_ He].
    exists e. split; [done|].
    apply int_of_GLuint_small.
    rewrite Forall_forall in Hnames. apply Hnames.
    apply (list_elem_of_lookup_2 _ (Z.to_nat s)).
    rewrite registered_lookup by lia. done. }
  pose proof (lookups_lockstep st t (Z.to_nat (m_loadedTextures st))
                (-1) (-1) 0 false (or_introl (conj eq_refl eq_refl)))
    as Hstep.
  fold (FindTextureSlot st t) in Hstep. fold (FindTextureID st t) in Hstep.
  split; [|split].
  - destruct (FindTextureSlot st t) as [s| |], (FindTextureID st t) as [i| |];
      try done.
    split; intros [= ->].
    + destruct (decide (s = -1)) as [->|Hne]; [done|].
      assert (0 <= s) as Hs by (destruct Hstep as [[? _]|[[? _] _]]; lia).
      destruct (Hco s (-1) Hstep Hs) as [e [He Hid]].
      rewrite Forall_forall in Hnames.
      assert (e ∈ registered st) as Hin.
      { apply (list_elem_of_lookup_2 _ (Z.to_nat s)).
        destruct Hstep as [[? _]|[[? ?] _]]; [lia|].
        rewrite registered_lookup by lia. done. }
      specialize (Hnames e Hin). lia.
    + destruct Hstep as [[_ ->]|[[? _] _]]; [done | lia].
  - intros s Hs H0. rewrite Hs in Hstep.
    destruct (FindTextureID st t) as [i| |]; try done.
    destruct (Hco s i Hstep H0) as [e [He ->]]. eauto.
  - intros Hwf. rewrite FindTextureSlot_spec, FindTextureID_spec by done. eauto.
Qed.

Lemma FindTextureID_FindTextureSlot_coherent_witness :
  Forall (fun e => 0 <= ID e < 2 ^ 31) (registered prepared_scene) /\
  (FindTextureID prepared_scene "rug" = Ok (-1) <->
   FindTextureSlot prepared_scene "rug" = Ok (-1)) /\
  exists e, m_textureIDs prepared_scene !! 8%nat = Some e /\
            FindTextureID prepared_scene "rug" = Ok (ID e).
Proof.
  assert (Forall (fun e => 0 <= ID e < 2 ^ 31) (registered prepared_scene)) as H.
  { apply (bool_decide_unpack _). vm_compute. exact I. }
  split; [exact H|].
  destruct (FindTextureID_FindTextureSlot_coherent prepared_scene "rug" H)
    as [Hiff [Hslot _]].
  split; [exact Hiff|].
  apply (Hslot 8); [vm_compute; reflexivity | lia].
Defined.

(** ** Loading textures *)

Lemma bind_Ok_inv {A B} (m : M A) (f : A -> M B) st b st' :
  (m ≫= f) st = Ok (b, st') ->
  exists a st1, m st = Ok (a, st1) /\ f a st1 = Ok (b, st').
Proof.
  unfold mbind, M_bind. destruct (m st) as [[a st1]| |]; [eauto | done | done].
Qed.

Lemma lift_Ok_inv {A} (r : result A) st a st' :
  lift r st = Ok (a, st') -> r = Ok a /\ st' = st.
Proof. unfold lift. destruct r; [|done|done]. by intros [= -> ->]. Qed.

Lemma array_write_Ok {A} (arr : list A) i a arr' :
  array_write arr i a = Ok arr' ->
  0 <= i < Z.of_nat (length arr) /\ arr' = <[Z.to_nat i := a]> arr.
Proof.
  unfold array_write.
  destruct ((0 <=? i) && (i <? Z.of_nat (length arr))) eqn:E; [|done].
  apply andb_true_iff in E as [H0 H1]. apply Z.leb_le in H0. apply Z.ltb_lt in H1.
  intros [= <-]. done.
Qed.

(** Inversion of a run of monadic code that ended in [Ok]. *)
Ltac minv H :=
  repeat
    (let a := fresh "a" in
     let s := fresh "s" in
     let H1 := fresh "H" in
     apply bind_Ok_inv in H as (a & s & H1 & H);
     first
       [ apply lift_Ok_inv in H1 as [H1 ->]
       | injection H1 as <- <- ]).

Lemma CreateGLTexture_register_spec textureID t st b st' :
  CreateGLTexture_register textureID t st = Ok (b, st') ->
  b = true /\
  0 <= m_loadedTextures st < Z.of_nat (length (m_textureIDs st)) /\
  m_loadedTextures st' = m_loadedTextures st + 1 /\
  m_textureIDs st' =
    <[Z.to_nat (m_loadedTextures st) := {| ID := textureID; tag := t |}]>
      (m_textureIDs st).
Proof.
  unfold CreateGLTexture_register. intros H. minv H.
  injection H as <- <-. simpl in *.
  apply array_write_Ok in H1 as [Hb ->].
  apply array_read_Ok in H2 as [_ H2].
  rewrite list_lookup_insert_eq in H2 by lia. injection H2 as <-.
  apply array_write_Ok in H3 as [_ ->].
  rewrite list_insert_insert_eq. simpl.
  repeat split; lia || done.
Qed.

Lemma CreateGLTexture_registry P filename t st b st' :
  CreateGLTexture P filename t st = Ok (b, st') ->
  if b then
    0 <= m_loadedTextures st < Z.of_nat (length (m_textureIDs st)) /\
    m_loadedTextures st' = m_loadedTextures st + 1 /\
    exists name,
      m_textureIDs st' =
        <[Z.to_nat (m_loadedTextures st) := {| ID := name; tag := t |}]>
          (m_textureIDs st)
  else
    m_loadedTextures st' = m_loadedTextures st /\
    m_textureIDs st' = m_textureIDs st.
Proof.
  unfold CreateGLTexture. intros H.
  apply bind_Ok_inv in H as (? & st1 & H1 & H). injection H1 as _ <-.
  destruct (stbi_load P filename) as [image|].
  - apply bind_Ok_inv in H as (name & st2 & H1 & H). injection H1 as <- <-.
    do 5 (apply bind_Ok_inv in H as (? & ? & H1 & H); injection H1 as _ <-).
    destruct (colorChannels image =? 3);
      [|destruct (colorChannels image =? 4)].
    + apply bind_Ok_inv in H as (? & ? & H1 & H); injection H1 as _ <-.
      apply CreateGLTexture_register_spec in H as (-> & Hb & Hn & Hids).
      simpl in *. eauto.
    + apply bind_Ok_inv in H as (? & ? & H1 & H); injection H1 as _ <-.
      apply CreateGLTexture_register_spec in H as (-> & Hb & Hn & Hids).
      simpl in *. eauto.
    + injection H as <- <-. done.
  - injection H as <- <-. done.
Qed.


(** C6.  An image that decodes but has neither 3 nor 4 channels:
    [CreateGLTexture] returns false, and the count of loaded textures and
    every entry of the registry are as before the call. *)
Theorem CreateGLTexture_unsupported_channels P filename t st image :
  stbi_load P filename = Some image ->
  colorChannels image <> 3 ->
  colorChannels image <> 4 ->
  exists st',
    CreateGLTexture P filename t st = Ok (false, st') /\
    m_loadedTextures st' = m_loadedTextures st /\
    m_textureIDs st' = m_textureIDs st.
Proof.
  intros Hload H3 H4. unfold CreateGLTexture.
  rewrite bind_emit, Hload.
  apply Z.eqb_neq in H3, H4. rewrite H3, H4.
  eexists. split; [reflexivity|]. done.
Qed.

Lemma CreateGLTexture_unsupported_channels_witness :
  stbi_load example_platform "textures/gray.png"
    = Some {| width := 2; height := 2; colorChannels := 1 |} /\
  exists st',
    CreateGLTexture example_platform "textures/gray.png" "gray" prepared_scene
      = Ok (false, st') /\
    m_loadedTextures st' = 14 /\
    m_textureIDs st' = m_textureIDs prepared_scene.
Proof.
  split; [reflexivity|].
  apply (CreateGLTexture_unsupported_channels example_platform
           "textures/gray.png" "gray" prepared_scene
           {| width := 2; height := 2; colorChannels := 1 |});
    [reflexivity | simpl; lia | simpl; lia].
Defined.

Lemma registered_after_load st st' name t :
  registry_in_bounds st ->
  m_loadedTextures st < Z.of_nat (length (m_textureIDs st)) ->
  m_loadedTextures st' = m_loadedTextures st + 1 ->
  m_textureIDs st' =
    <[Z.to_nat (m_loadedTextures st) := {| ID := name; tag := t |}]>
      (m_textureIDs st) ->
  registry_in_bounds st' /\
  registered st' = registered st ++ [{| ID := name; tag := t |}].
Proof.
  intros [H0 H1] Hlt Hn Hids. split.
  - unfold registry_in_bounds. rewrite Hn, Hids, length_insert. lia.
  - unfold registered. rewrite Hn, Hids.
    replace (Z.to_nat (m_loadedTextures st + 1))
      with (S (Z.to_nat (m_loadedTextures st))) by lia.
    rewrite (take_S_r _ _ {| ID := name; tag := t |})
      by (apply list_lookup_insert_eq; lia).
    by rewrite take_insert_ge by lia.
Qed.

Lemma CreateGLTextures_registered P loads : forall st results st',
  registry_in_bounds st ->
  CreateGLTextures P loads st = Ok (results, st') ->
  registry_in_bounds st' /\
  tag <$> registered st' = (tag <$> registered st) ++ loaded_tags loads results.
Proof.
  induction loads as [|[filename t] loads IH]; intros st results st' Hwf H.
  - injection H as <- <-. simpl. by rewrite app_nil_r.
  - simpl in H.
    apply bind_Ok_inv in H as (b & st1 & H1 & H).
    apply bind_Ok_inv in H as (bs & st2 & H2 & H).
    injection H as <- <-.
    apply CreateGLTexture_registry in H1.
    destruct b.
    + destruct H1 as ([_ Hlt] & Hn & name & Hids).
      destruct (registered_after_load st st1 name t Hwf Hlt Hn Hids) as [Hwf1 Hreg].
      destruct (IH st1 bs st2 Hwf1 H2) as [Hwf2 Htags].
      split; [done|].
      rewrite Htags, Hreg, fmap_app. simpl. by rewrite <- app_assoc.
    + destruct H1 as [Hn Hids].
      assert (registry_in_bounds st1) as Hwf1
        by (unfold registry_in_bounds; by rewrite Hn, Hids).
      destruct (IH st1 bs st2 Hwf1 H2) as [Hwf2 Htags].
      split; [done|].
      rewrite Htags. unfold registered. by rewrite Hn, Hids.
Qed.

(** C7.  Starting from a registry with no texture loaded, after any sequence
    of [CreateGLTexture] calls whose successful loads have pairwise distinct
    tags: the count is the number of successful loads; the load at position
    [n] among them (counted from 0) is recorded at index [n] of the array;
    [FindTextureSlot] on its tag returns [n], which is in
    [0, m_loadedTextures); and [FindTextureSlot] on any other tag returns
    -1. *)
Theorem CreateGLTexture_slots_dense P st loads results st' :
  m_loadedTextures st = 0 ->
  CreateGLTextures P loads st = Ok (results, st') ->
  NoDup (loaded_tags loads results) ->
  m_loadedTextures st' = Z.of_nat (length (loaded_tags loads results)) /\
  (forall (n : nat) t,
     loaded_tags loads results !! n = Some t ->
     (tag <$> m_textureIDs st' !! n) = Some t /\
     FindTextureSlot st' t = Ok (Z.of_nat n) /\
     0 <= Z.of_nat n < m_loadedTextures st') /\
  (forall t,
     t ∉ loaded_tags loads results -> FindTextureSlot st' t = Ok (-1)).
Proof.
  intros H0 Hrun Hnodup.
  assert (registry_in_bounds st) as Hwf by (unfold registry_in_bounds; lia).
  destruct (CreateGLTextures_registered P loads st results st' Hwf Hrun)
    as [Hwf' Htags].
  assert (registered st = []) as Hnil by (unfold registered; by rewrite H0).
  rewrite Hnil in Htags. simpl in Htags.
  pose proof (registered_length st' Hwf') as Hlen.
  assert (m_loadedTextures st' = Z.of_nat (length (loaded_tags loads results)))
    as Hcount.
  { rewrite <- Htags, length_fmap, Hlen. destruct Hwf'. lia. }
  split; [done|]. split.
  - intros n t Hn.
    assert (n < length (loaded_tags loads results))%nat as Hlt
      by (by apply lookup_lt_Some in Hn).
    rewrite <- Htags, list_lookup_fmap in Hn.
    destruct (registered st' !! n) as [e|] eqn:He; [|done].
    injection Hn as Hn.
    split; [|split; [|lia]].
    + rewrite <- registered_lookup by lia. by rewrite He; simpl; f_equal.
    + rewrite FindTextureSlot_spec by done.
      assert (list_find (fun e => tag e = t) (registered st') = Some (n, e)) as ->;
        [|done].
      apply list_find_Some. split; [done|]. split; [done|].
      intros j y Hj Hjn Hy.
      assert (j = n); [|lia].
      apply (NoDup_lookup _ j n t Hnodup).
      * rewrite <- Htags, list_lookup_fmap, Hj. simpl. by f_equal.
      * rewrite <- Htags, list_lookup_fmap, He. simpl. by f_equal.
  - intros t Ht. rewrite FindTextureSlot_spec by done.
    assert (list_find (fun e => tag e = t) (registered st') = None) as ->; [|done].
    apply list_find_None, Forall_forall. intros e He Heq.
    apply Ht. rewrite <- Htags, <- Heq. by apply list_elem_of_fmap_2.
Qed.

Lemma CreateGLTexture_slots_dense_witness :
  m_loadedTextures (empty_scene (Some ∅)) = 0 /\
  CreateGLTextures example_platform mixed_loads (empty_scene (Some ∅))
    = Ok ([true; false; false; true], mixed_loaded) /\
  NoDup (loaded_tags mixed_loads [true; false; false; true]) /\
  m_loadedTextures mixed_loaded = 2 /\
  FindTextureSlot mixed_loaded "leaf" = Ok 0 /\
  FindTextureSlot mixed_loaded "vase" = Ok 1 /\
  FindTextureSlot mixed_loaded "gray" = Ok (-1).
Proof.
  assert (CreateGLTextures example_platform mixed_loads (empty_scene (Some ∅))
          = Ok ([true; false; false; true], mixed_loaded)) as Hrun
    by (vm_compute; reflexivity).
  assert (NoDup (loaded_tags mixed_loads [true; false; false; true])) as Hnodup
    by (apply (bool_decide_unpack _); vm_compute; exact I).
  destruct (CreateGLTexture_slots_dense example_platform (empty_scene (Some ∅))
              mixed_loads [true; false; false; true] mixed_loaded
              eq_refl Hrun Hnodup) as (Hcount & Hslot & Hnone).
  split; [reflexivity|]. split; [exact Hrun|]. split; [exact Hnodup|].
  split; [exact Hcount|].
  split; [exact (proj1 (proj2 (Hslot 0%nat "leaf" eq_refl)))|].
  split; [exact (proj1 (proj2 (Hslot 1%nat "vase" eq_refl)))|].
  apply Hnone. simpl. intros Hin.
  apply elem_of_cons in Hin as [?|Hin]; [discriminate|].
  apply elem_of_cons in Hin as [?|Hin]; [discriminate|].
  by apply elem_of_nil in Hin.
Defined.

(** ** Teardown *)

(** [DestroyGLTextures] deletes no texture: every name in use stays in use,
    and all it asks of OpenGL is to generate names. *)
Lemma DestroyGLTextures_loop_keeps P fuel : forall i st st',
  DestroyGLTextures_loop P fuel i st = Ok (tt, st') ->
  (forall name, name ∈ gl_textures st -> name ∈ gl_textures st') /\
  exists new,
    trace st' = trace st ++ new /\
    Forall (fun e => exists name, e = glGenTextures name) new.
Proof.
  induction fuel as [|fuel IH]; intros i st st' H; simpl in H.
  - destruct (i <? m_loadedTextures st); [done|]. injection H as <-.
    split; [done|]. exists []. by rewrite app_nil_r.
  - destruct (i <? m_loadedTextures st).
    + apply bind_Ok_inv in H as (e & s1 & H1 & H).
      apply lift_Ok_inv in H1 as [_ ->].
      apply bind_Ok_inv in H as (name & s2 & H1 & H). injection H1 as <- <-.
      apply bind_Ok_inv in H as (ids & s3 & H1 & H).
      apply lift_Ok_inv in H1 as [_ ->].
      apply bind_Ok_inv in H as (? & s4 & H1 & H). injection H1 as _ <-.
      apply IH in H as [Hkeep (new & Htrace & Hnew)]. simpl in *.
      split.
      * intros name Hin. apply Hkeep. apply elem_of_app. by left.
      * eexists. rewrite Htrace, <- app_assoc. split; [reflexivity|].
        constructor; [eauto | done].
    + injection H as <-. split; [done|]. exists []. by rewrite app_nil_r.
Qed.

Lemma DestroyGLTextures_loop_returns P fuel : forall (k : nat) st,
  registry_in_bounds st ->
  (Z.to_nat (m_loadedTextures st) - k <= fuel)%nat ->
  exists st', DestroyGLTextures_loop P fuel (Z.of_nat k) st = Ok (tt, st').
Proof.
  induction fuel as [|fuel IH]; intros k st [H0 H1] Hf; simpl.
  - rewrite (proj2 (Z.ltb_ge _ _)) by lia. eauto.
  - destruct (Z.of_nat k <? m_loadedTextures st) eqn:Hlt; [|eauto].
    apply Z.ltb_lt in Hlt.
    destruct (lookup_lt_is_Some_2 (m_textureIDs st) k) as [e He]; [lia|].
    rewrite (bind_Ok _ _ _ e st) by (by rewrite (array_read_lookup _ _ _ He)).
    erewrite bind_Ok by reflexivity.
    erewrite bind_Ok
      by (simpl; rewrite array_write_in_bounds by lia; reflexivity).
    rewrite bind_modify.
    replace (Z.of_nat k + 1) with (Z.of_nat (S k)) by lia.
    apply IH.
    + unfold registry_in_bounds. simpl. rewrite length_insert. lia.
    + simpl. lia.
Qed.

(** In a registry within its array [DestroyGLTextures] returns; whenever it
    returns, every texture name that was in use still is, and the calls it
    made are all [glGenTextures]. *)
Lemma DestroyGLTextures_keeps_every_name P st :
  (registry_in_bounds st -> exists st', DestroyGLTextures P st = Ok (tt, st')) /\
  (forall st', DestroyGLTextures P st = Ok (tt, st') ->
     (forall name, name ∈ gl_textures st -> name ∈ gl_textures st') /\
     exists new,
       trace st' = trace st ++ new /\
       Forall (fun e => exists name, e = glGenTextures name) new).
Proof.
  split.
  - intros Hwf. unfold DestroyGLTextures. change 0 with (Z.of_nat 0).
    apply DestroyGLTextures_loop_returns; [done | lia].
  - intros st'. apply DestroyGLTextures_loop_keeps.
Qed.

(** C4 (the code departs from the claim).  The claim: [DestroyGLTextures]
    issues a delete on the handle of every registered entry, so that no slot
    keeps a live handle.  The code: on a registry holding the one texture
    named 7, the only OpenGL call is a [glGenTextures]; the name 7 is still
    in use afterwards, no [glDeleteTextures] is in the trace, and slot 0,
    still counted as loaded, now holds the newly generated name. *)
Theorem DestroyGLTextures_generates_instead_of_deleting P :
  exists st',
    DestroyGLTextures P one_texture = Ok (tt, st') /\
    trace st' = [glGenTextures (gl_fresh_name P [7])] /\
    (forall name, glDeleteTextures name ∉ trace st') /\
    7 ∈ gl_textures st' /\
    gl_textures st' = [7; gl_fresh_name P [7]] /\
    m_loadedTextures st' = 1 /\
    m_textureIDs st' !! 0%nat = Some {| ID := gl_fresh_name P [7]; tag := "floor" |}.
Proof.
  eexists. split; [reflexivity|]. simpl.
  repeat split; try done.
  - intros name Hin. apply elem_of_cons in Hin as [?|Hin]; [discriminate|]. by apply elem_of_nil in Hin.
  - apply elem_of_cons. by left.
Qed.

(** ** Preparation *)

Lemma returns_bind {A B} Pre (m : M A) Mid (f : A -> M B) Post :
  returns Pre m Mid ->
  (forall a, returns (Mid a) (f a) Post) ->
  returns Pre (m ≫= f) Post.
Proof.
  intros Hm Hf st Hpre.
  destruct (Hm st Hpre) as (a & st1 & H1 & Hmid).
  destruct (Hf a st1 Hmid) as (b & st2 & H2 & Hpost).
  exists b, st2. by rewrite (bind_Ok _ _ _ _ _ H1).
Qed.

Lemma returns_weaken {A} (Pre Pre' : State -> Prop) (m : M A)
    (Post Post' : A -> State -> Prop) :
  returns Pre' m Post' ->
  (forall st, Pre st -> Pre' st) ->
  (forall a st, Post' a st -> Post a st) ->
  returns Pre m Post.
Proof.
  intros Hm Hpre Hpost st H.
  destruct (Hm st (Hpre st H)) as (a & st' & Hrun & H').
  eauto.
Qed.

Lemma array_read_Z {A} (arr : list A) i a :
  0 <= i -> arr !! Z.to_nat i = Some a -> array_read arr i = Ok a.
Proof.
  intros H0 H. unfold array_read.
  rewrite (proj2 (Z.leb_le 0 i)) by done. by rewrite H.
Qed.

Lemma array_write_Z {A} (arr : list A) i a :
  0 <= i < Z.of_nat (length arr) ->
  array_write arr i a = Ok (<[Z.to_nat i := a]> arr).
Proof.
  intros H. unfold array_write.
  rewrite (proj2 (Z.leb_le 0 i)) by lia.
  by rewrite (proj2 (Z.ltb_lt i _)) by lia.
Qed.

Lemma CreateGLTexture_register_returns textureID t k :
  k < Z.of_nat MAX_TEXTURES ->
  returns (loading k) (CreateGLTexture_register textureID t)
    (fun _ => loading (k + 1)).
Proof.
  intros Hk st (Hsh & Hmat & Hlen & H0 & H1).
  unfold CreateGLTexture_register. rewrite !bind_emit, bind_get.
  simpl m_textureIDs. simpl m_loadedTextures.
  destruct (lookup_lt_is_Some_2 (m_textureIDs st) (Z.to_nat (m_loadedTextures st)))
    as [e He]; [lia|].
  rewrite (array_read_Z _ _ _ H0 He), bind_lift_Ok.
  rewrite array_write_Z, bind_lift_Ok by lia.
  rewrite (array_read_Z _ _ {| ID := textureID; tag := tag e |}), bind_lift_Ok
    by (lia || (apply list_lookup_insert_eq; lia)).
  rewrite array_write_Z, bind_lift_Ok by (rewrite length_insert; lia).
  eexists _, _. split; [reflexivity|].
  unfold loading. simpl. rewrite !length_insert.
  repeat split; done || lia.
Qed.

Lemma CreateGLTexture_returns P filename t k :
  k < Z.of_nat MAX_TEXTURES ->
  returns (loading k) (CreateGLTexture P filename t) (fun _ => loading (k + 1)).
Proof.
  intros Hk st Hst.
  assert (forall e, loading k (set_trace e st)) as Htrace by (intros; exact Hst).
  assert (loading (k + 1) st) as Hst'.
  { destruct Hst as (? & ? & ? & ? & ?). repeat split; done || lia. }
  unfold CreateGLTexture. rewrite bind_emit.
  destruct (stbi_load P filename) as [image|]; [|by eexists _, _].
  unfold gl_gen_texture. erewrite bind_Ok by reflexivity.
  rewrite !bind_emit.
  match goal with
  | |- context [CreateGLTexture_register ?id ?t] =>
      pose proof (CreateGLTexture_register_returns id t k Hk) as Hreg
  end.
  destruct (colorChannels image =? 3); [|destruct (colorChannels image =? 4)].
  - rewrite bind_emit. apply Hreg. exact Hst.
  - rewrite bind_emit. apply Hreg. exact Hst.
  - by eexists _, _.
Qed.

Lemma BindGLTextures_loop_returns fuel : forall (k : nat) st,
  registry_in_bounds st ->
  (Z.to_nat (m_loadedTextures st) - k <= fuel)%nat ->
  exists st',
    BindGLTextures_loop fuel (Z.of_nat k) st = Ok (tt, st') /\
    st' = set_trace (trace st') st.
Proof.
  induction fuel as [|fuel IH]; intros k st [H0 H1] Hf; simpl.
  - rewrite (proj2 (Z.ltb_ge _ _)) by lia.
    exists st. by destruct st.
  - destruct (Z.of_nat k <? m_loadedTextures st) eqn:Hlt;
      [|exists st; by destruct st].
    apply Z.ltb_lt in Hlt. rewrite bind_emit.
    destruct (lookup_lt_is_Some_2 (m_textureIDs st) k) as [e He]; [lia|].
    rewrite (array_read_lookup _ _ _ He), bind_lift_Ok, bind_emit.
    replace (Z.of_nat k + 1) with (Z.of_nat (S k)) by lia.
    match goal with
    | |- context [BindGLTextures_loop fuel _ ?s] =>
        destruct (IH (S k) s) as (st' & Hrun & Hst');
        [by split | simpl; lia |]
    end.
    exists st'. split; [exact Hrun|]. rewrite Hst' at 1. reflexivity.
Qed.

Lemma LoadSceneTextures_returns P :
  returns (loading 0) (LoadSceneTextures P) (fun _ => loading 14).
Proof.
  unfold LoadSceneTextures.
  do 14 (eapply returns_bind;
           [apply CreateGLTexture_returns; unfold MAX_TEXTURES; lia | intros ?; cbv beta]).
  intros st (Hsh & Hmat & Hlen & H0 & H1). simpl in H1.
  destruct (BindGLTextures_loop_returns (Z.to_nat (m_loadedTextures st)) 0 st)
    as (st' & Hrun & Hst');
    [unfold registry_in_bounds; rewrite Hlen; unfold MAX_TEXTURES; lia | lia |].
  exists tt, st'. split; [exact Hrun|].
  rewrite Hst'. done.
Qed.

Lemma shader_set_ready name v :
  returns scene_ready (shader_set name v) (fun _ => scene_ready).
Proof.
  intros st ([sh Hsh] & Hmat & Hwf).
  rewrite (shader_set_Some _ _ _ _ Hsh).
  eexists _, _. split; [reflexivity|].
  split; [by eexists | done].
Qed.

Lemma emit_ready e : returns scene_ready (emit e) (fun _ => scene_ready).
Proof. intros st H. by eexists _, _. Qed.

Lemma DefineObjectMaterials_returns :
  returns (loading 14) DefineObjectMaterials (fun _ => scene_ready).
Proof.
  intros st (Hsh & Hmat & Hlen & H0 & H1).
  unfold DefineObjectMaterials, push_back. cbv zeta. rewrite !bind_modify.
  eexists _, _. split; [reflexivity|].
  split; [exact Hsh|]. split.
  - simpl. rewrite Hmat. discriminate.
  - unfold registry_in_bounds. simpl. rewrite Hlen. unfold MAX_TEXTURES. lia.
Qed.

(** [PrepareScene], on a scene with a shader attached and nothing loaded,
    returns and leaves what [RenderScene] relies on, whatever the files
    decode to. *)
Lemma PrepareScene_ready P sh :
  exists st',
    PrepareScene P (empty_scene (Some sh)) = Ok (tt, st') /\ scene_ready st'.
Proof.
  assert (returns (loading 0) (PrepareScene P) (fun _ => scene_ready)) as H.
  { unfold PrepareScene.
    eapply returns_bind; [apply LoadSceneTextures_returns | intros ?; cbv beta].
    eapply returns_bind; [apply DefineObjectMaterials_returns | intros ?; cbv beta].
    eapply returns_bind.
    { unfold SetupSceneLights.
      repeat (eapply returns_bind; [apply shader_set_ready | intros ?; cbv beta]).
      apply shader_set_ready. }
    intros ?; cbv beta.
    repeat (eapply returns_bind; [apply emit_ready | intros ?; cbv beta]).
    apply emit_ready. }
  destruct (H (empty_scene (Some sh))) as ([] & st' & Hrun & Hready).
  - split; [by eexists|]. repeat split; done.
  - eauto.
Qed.

(** ** Rendering *)

Lemma run_call_ready P c st :
  scene_ready st ->
  exists st' new,
    run_call P c st = Ok (tt, st') /\
    scene_ready st' /\
    trace st' = trace st ++ new /\
    effect_of <$> new = call_effects c.
Proof.
  intros ([sh Hsh] & Hmat & Hwf).
  destruct c as [s rx ry rz p | r g b a | t | t | m]; simpl.
  - unfold SetTransformations. rewrite bind_get, Hsh.
    rewrite (shader_set_Some _ _ _ _ Hsh).
    eexists _, _. split; [reflexivity|]. split; [|split; [reflexivity|done]].
    split; [by eexists | done].
  - unfold SetShaderColor. rewrite bind_get, Hsh.
    rewrite (bind_shader_set _ _ _ _ _ Hsh).
    erewrite shader_set_Some by reflexivity.
    eexists _, _. split; [reflexivity|]. simpl.
    split; [|split; [by rewrite <- app_assoc|done]].
    split; [by eexists | done].
  - unfold SetShaderTexture. rewrite bind_get, Hsh.
    rewrite (bind_shader_set _ _ _ _ _ Hsh).
    rewrite bind_get, FindTextureSlot_spec by done.
    rewrite bind_lift_Ok.
    erewrite shader_set_Some by reflexivity.
    eexists _, _. split; [reflexivity|]. simpl.
    split; [|split; [by rewrite <- app_assoc|done]].
    split; [by eexists | done].
  - rewrite (SetShaderMaterial_nonempty P t st sh Hsh Hmat).
    eexists _, _. split; [reflexivity|]. simpl.
    split; [|split; [reflexivity|done]].
    split; [by eexists | done].
  - eexists _, _. split; [reflexivity|]. simpl.
    split; [|split; [reflexivity|done]].
    split; [by eexists | done].
Qed.

Lemma run_calls_ready P cs : forall st,
  scene_ready st ->
  exists st' new,
    run_calls P cs st = Ok (tt, st') /\
    scene_ready st' /\
    trace st' = trace st ++ new /\
    effect_of <$> new = concat (call_effects <$> cs).
Proof.
  induction cs as [|c cs IH]; intros st Hready; simpl.
  - exists st, []. by rewrite app_nil_r.
  - destruct (run_call_ready P c st Hready) as (st1 & new1 & H1 & Hr1 & Ht1 & He1).
    destruct (IH st1 Hr1) as (st2 & new2 & H2 & Hr2 & Ht2 & He2).
    exists st2, (new1 ++ new2).
    split; [by rewrite (bind_Ok _ _ _ _ _ H1)|].
    split; [done|]. split.
    + by rewrite Ht2, Ht1, app_assoc.
    + by rewrite fmap_app, He1, He2.
Qed.

(** A trace whose effects are those of a sequence of objects is itself a
    sequence of objects, with the same effects object by object. *)
Lemma events_of_object_effects (ks : list (list effect * mesh)) :
  forall new,
  effect_of <$> new = concat (object_effects <$> ks) ->
  exists segments : list (list event * mesh),
    new = concat (object_events <$> segments) /\
    Forall2 (fun s k => effect_of <$> s.1 = k.1 /\ s.2 = k.2) segments ks.
Proof.
  induction ks as [|[k m] ks IH]; intros new H; simpl in H.
  - apply fmap_nil_inv in H as ->. by exists [].
  - unfold object_effects at 1 in H. simpl in H.
    apply fmap_app_inv in H as (l1 & l2 & H1 & H2 & ->).
    symmetry in H1. apply fmap_app_inv in H1 as (pre & d & Hpre & Hd & ->).
    symmetry in Hd. apply fmap_cons_inv in Hd as (e & d' & He & Hd' & ->).
    symmetry in Hd'. apply fmap_nil_inv in Hd' as ->.
    destruct e; try discriminate.
    injection He as ->.
    symmetry in H2. destruct (IH l2 H2) as (segments & -> & HF).
    eexists ((pre, _) :: segments). split; [reflexivity|].
    constructor; [done | done].
Qed.

Lemma state_set_of_effects (s : list event) :
  state_set_effects (effect_of <$> s) ->
  Forall (fun e => draw_of_event e = None) s /\ state_set s.
Proof.
  intros [Hnodraw Hset]. split; [|exact Hset].
  apply Forall_fmap in Hnodraw.
  eapply Forall_impl; [exact Hnodraw|].
  intros e He. simpl in He. by destruct e.
Qed.

(** C1.  In the body of [RenderScene], each of the 33 draws is preceded,
    since the draw before it, by a call of [SetTransformations], then of
    [SetShaderColor] or [SetShaderTexture], then of [SetShaderMaterial], and
    no call follows the last draw.  Run on a scene that is ready (shader
    attached, some material registered, texture registry within its array,
    as [PrepareScene] leaves it), [RenderScene] returns, and what it adds to
    the trace is 33 stretches, each ending in its draw and containing no
    other draw, in each of which the model matrix, the texture flag with the
    sampler or the colour, and the three material uniforms are written:
    every draw finds the state that was set for it after the previous draw,
    and none is set ahead of it. *)
Theorem RenderScene_state_set_before_each_draw P st :
  scene_ready st ->
  (exists objects : list (list call * mesh),
     RenderScene_body = concat (object_call_sequence <$> objects) /\
     length objects = 33%nat /\
     Forall (fun o => object_calls o.1 = true) objects) /\
  (exists st' (segments : list (list event * mesh)),
     RenderScene P st = Ok (tt, st') /\
     trace st' = trace st ++ concat (object_events <$> segments) /\
     length segments = 33%nat /\
     Forall (fun s => Forall (fun e => draw_of_event e = None) s.1 /\
                      state_set s.1) segments).
Proof.
  intros Hready. split.
  - exists (split_draws draw_of_call RenderScene_body).1.
    split; [vm_compute; reflexivity|]. split; [vm_compute; reflexivity|].
    apply (bool_decide_unpack _). vm_compute. exact I.
  - destruct (run_calls_ready P RenderScene_body st Hready)
      as (st' & new & Hrun & _ & Htrace & Heff).
    set (ks := (split_draws draw_of_effect
                  (concat (call_effects <$> RenderScene_body))).1).
    assert (concat (call_effects <$> RenderScene_body)
            = concat (object_effects <$> ks)) as Hks
      by (vm_compute; reflexivity).
    rewrite Hks in Heff.
    destruct (events_of_object_effects ks new Heff) as (segments & -> & HF).
    exists st', segments. split; [exact Hrun|]. split; [exact Htrace|]. split.
    + rewrite (Forall2_length _ _ _ HF). vm_compute. reflexivity.
    + eapply Forall2_Forall_l; [exact HF|].
      assert (Forall (fun k => state_set_effects k.1) ks) as Hall
        by (apply (bool_decide_unpack _); vm_compute; exact I).
      eapply Forall_impl; [exact Hall|].
      intros k Hk s [Hs _]. apply state_set_of_effects. by rewrite Hs.
Qed.

Lemma RenderScene_state_set_before_each_draw_witness :
  scene_ready prepared_scene /\
  exists st' (segments : list (list event * mesh)),
    RenderScene example_platform prepared_scene = Ok (tt, st') /\
    trace st' = trace prepared_scene ++ concat (object_events <$> segments) /\
    length segments = 33%nat /\
    Forall (fun s => Forall (fun e => draw_of_event e = None) s.1 /\
                     state_set s.1) segments.
Proof.
  assert (scene_ready prepared_scene) as Hready.
  { split; [by eexists|]. split; [discriminate|].
    unfold registry_in_bounds. simpl. lia. }
  split; [exact Hready|].
  exact (proj2 (RenderScene_state_set_before_each_draw
                  example_platform prepared_scene Hready)).
Defined.

(** C5 (the code departs from the claim).  The claim: for every drawn
    object, at most one of [SetShaderColor] and [SetShaderTexture] is called
    between the previous draw and its own.  The code: the 23rd object, the
    lamp shade, is drawn after a call of [SetShaderColor] and a call of
    [SetShaderTexture]; on the prepared scene the colour and the sampler are
    both written before that one draw.  For each of the other 32 objects
    only [SetShaderTexture] is called. *)
Theorem RenderScene_lamp_top_color_and_texture :
  exists objects : list (list call * mesh),
    RenderScene_body = concat (object_call_sequence <$> objects) /\
    objects !! 22%nat = Some (lamp_top_calls, TaperedCylinderMesh) /\
    color_xor_texture lamp_top_calls = false /\
    Forall (fun o => color_xor_texture o.1 = true) (delete 22%nat objects) /\
    effect_of <$> trace (state_after (run_calls example_platform lamp_top_calls)
                           (set_trace [] prepared_scene))
    = [WriteUniform "model";
       WriteUniform "bUseTexture"; WriteUniform "objectColor";
       WriteUniform "bUseTexture"; WriteUniform "objectTexture";
       WriteUniform "material.diffuseColor"; WriteUniform "material.specularColor";
       WriteUniform "material.shininess"].
Proof.
  exists (split_draws draw_of_call RenderScene_body).1.
  split; [vm_compute; reflexivity|].
  split; [vm_compute; reflexivity|].
  split; [reflexivity|].
  split; [apply (bool_decide_unpack _); vm_compute; exact I|].
  vm_compute. reflexivity.
Qed.

(** * Further properties of the code *)

(** ** Material lookup and selection *)

Lemma list_find_first_match {A} (P : A -> Prop) `{!forall x, Decision (P x)}
    (l : list A) i e :
  first_match P l i e -> list_find P l = Some (i, e).
Proof.
  intros (Hi & HP & Hfirst). apply list_find_Some.
  split; [done|]. split; [done|]. intros j y Hj Hlt. by apply (Hfirst j).
Qed.

Lemma list_find_no_match {A} (P : A -> Prop) `{!forall x, Decision (P x)}
    (l : list A) :
  Forall (fun e => ~ P e) l -> list_find P l = None.
Proof. intros HF. by apply list_find_None. Qed.

(** X1.  [FindMaterial] takes the first entry with the tag: when [e], at
    index [i], is the first registered material tagged [t], it returns true
    and has copied the diffuse colour, specular colour and shininess of [e]
    into [material]; later materials with the same tag are never reached,
    and the tag of [material] is not assigned. *)
Theorem FindMaterial_first_match st t material i e :
  first_match (fun e => material_tag e = t) (m_objectMaterials st) i e ->
  FindMaterial st t material =
  Ok (true, {| diffuseColor := diffuseColor e;
               specularColor := specularColor e;
               shininess := shininess e;
               material_tag := material_tag material |}).
Proof.
  intros H. rewrite FindMaterial_spec.
  rewrite (list_find_first_match _ _ _ _ H).
  destruct H as (Hi & _). by destruct (m_objectMaterials st).
Qed.

Lemma FindMaterial_first_match_witness :
  first_match (fun e => material_tag e = "wood") (m_objectMaterials two_woods) 1
    {| diffuseColor := Vec3 0.3 0.3 0.3; specularColor := Vec3 0.4 0.4 0.4;
       shininess := 40.0; material_tag := "wood" |} /\
  FindMaterial two_woods "wood" (uninitialised_material example_platform) =
  Ok (true, {| diffuseColor := Vec3 0.3 0.3 0.3; specularColor := Vec3 0.4 0.4 0.4;
               shininess := 40.0; material_tag := "" |}).
Proof.
  assert (first_match (fun e => material_tag e = "wood")
            (m_objectMaterials two_woods) 1
            {| diffuseColor := Vec3 0.3 0.3 0.3; specularColor := Vec3 0.4 0.4 0.4;
               shininess := 40.0; material_tag := "wood" |}) as H.
  { split; [reflexivity|]. split; [reflexivity|].
    intros j e' Hj He'. destruct j as [|j]; [|lia].
    injection He' as <-. discriminate. }
  split; [exact H|].
  exact (FindMaterial_first_match two_woods "wood"
           (uninitialised_material example_platform) 1 _ H).
Defined.

(** X2.  When no registered material has the tag [t], [FindMaterial] leaves
    [material] as it was, and what it returns tells only whether the
    registry is empty: false for an empty registry, true otherwise. *)
Theorem FindMaterial_no_match st t material :
  Forall (fun e => material_tag e <> t) (m_objectMaterials st) ->
  FindMaterial st t material =
  Ok (bool_decide (m_objectMaterials st <> []), material).
Proof.
  intros H. rewrite FindMaterial_spec.
  rewrite (list_find_no_match _ _ H).
  by destruct (m_objectMaterials st).
Qed.

Lemma FindMaterial_no_match_witness :
  Forall (fun e => material_tag e <> "glass") (m_objectMaterials two_woods) /\
  FindMaterial two_woods "glass" (uninitialised_material example_platform) =
    Ok (true, uninitialised_material example_platform) /\
  Forall (fun e => material_tag e <> "glass")
    (m_objectMaterials (empty_scene None)) /\
  FindMaterial (empty_scene None) "glass" (uninitialised_material example_platform) =
    Ok (false, uninitialised_material example_platform).
Proof.
  assert (Forall (fun e => material_tag e <> "glass") (m_objectMaterials two_woods))
    as H by (repeat (constructor; [discriminate|]); constructor).
  assert (Forall (fun e => material_tag e <> "glass")
            (m_objectMaterials (empty_scene None))) as H' by constructor.
  split; [exact H|]. split.
  - exact (FindMaterial_no_match two_woods "glass" _ H).
  - split; [exact H'|]. exact (FindMaterial_no_match (empty_scene None) "glass" _ H').
Defined.

(** The value of a uniform after a run of writes. *)
Ltac map_lookup :=
  repeat (rewrite lookup_insert_ne by done); rewrite ?lookup_insert_eq.

(** X3.  With a shader attached and [e] the first registered material tagged
    [t], [SetShaderMaterial] writes the diffuse colour, specular colour and
    shininess of [e] to the three material uniforms, in that order, and
    nothing else: every other uniform, the registries and the texture names
    are as before. *)
Theorem SetShaderMaterial_first_match P st sh t i e :
  m_pShaderManager st = Some sh ->
  first_match (fun e => material_tag e = t) (m_objectMaterials st) i e ->
  exists st' sh',
    SetShaderMaterial P t st = Ok (tt, st') /\
    m_pShaderManager st' = Some sh' /\
    sh' !! "material.diffuseColor" = Some (Vec3Value (diffuseColor e)) /\
    sh' !! "material.specularColor" = Some (Vec3Value (specularColor e)) /\
    sh' !! "material.shininess" = Some (FloatValue (shininess e)) /\
    (forall name,
       name <> "material.diffuseColor" -> name <> "material.specularColor" ->
       name <> "material.shininess" -> sh' !! name = sh !! name) /\
    trace st' =
      trace st ++
      [setUniform "material.diffuseColor" (Vec3Value (diffuseColor e));
       setUniform "material.specularColor" (Vec3Value (specularColor e));
       setUniform "material.shininess" (FloatValue (shininess e))] /\
    m_objectMaterials st' = m_objectMaterials st /\
    m_textureIDs st' = m_textureIDs st /\
    m_loadedTextures st' = m_loadedTextures st /\
    gl_textures st' = gl_textures st.
Proof.
  intros Hsh Hfirst.
  assert (m_objectMaterials st <> []) as Hne
    by (destruct Hfirst as (Hi & _); by destruct (m_objectMaterials st)).
  pose proof (SetShaderMaterial_nonempty P t st sh Hsh Hne) as Hrun.
  rewrite (list_find_first_match _ _ _ _ Hfirst) in Hrun. simpl in Hrun.
  eexists _, _. split; [exact Hrun|]. simpl.
  split; [reflexivity|].
  split; [by map_lookup|].
  split; [by map_lookup|].
  split; [by map_lookup|].
  split; [|done].
  intros name H1 H2 H3. by rewrite !lookup_insert_ne.
Qed.

Lemma SetShaderMaterial_first_match_witness :
  m_pShaderManager two_woods = Some ∅ /\
  exists st' sh',
    SetShaderMaterial example_platform "wood" two_woods = Ok (tt, st') /\
    m_pShaderManager st' = Some sh' /\
    sh' !! "material.shininess" = Some (FloatValue 40.0) /\
    sh' !! "model" = None.
Proof.
  split; [reflexivity|].
  assert (first_match (fun e => material_tag e = "wood")
            (m_objectMaterials two_woods) 1
            {| diffuseColor := Vec3 0.3 0.3 0.3; specularColor := Vec3 0.4 0.4 0.4;
               shininess := 40.0; material_tag := "wood" |}) as H.
  { split; [reflexivity|]. split; [reflexivity|].
    intros j e' Hj He'. destruct j as [|j]; [|lia].
    injection He' as <-. discriminate. }
  destruct (SetShaderMaterial_first_match example_platform two_woods ∅ "wood" 1 _
              eq_refl H)
    as (st' & sh' & Hrun & Hsh & _ & _ & Hshin & Hother & _).
  exists st', sh'. split; [exact Hrun|]. split; [exact Hsh|].
  split; [exact Hshin|].
  rewrite Hother by discriminate. reflexivity.
Defined.

Lemma SetShaderMaterial_null P st t :
  m_pShaderManager st = None ->
  m_objectMaterials st <> [] ->
  SetShaderMaterial P t st = Undefined.
Proof.
  intros Hsh Hne. unfold SetShaderMaterial. rewrite bind_get.
  rewrite FindMaterial_spec.
  destruct (m_objectMaterials st) as [|e0 mats] eqn:E; [done|]. simpl.
  rewrite bind_lift_Ok. simpl.
  unfold mbind, M_bind, shader_set. by rewrite Hsh.
Qed.

(** X4.  [SetShaderMaterial] does not test [m_pShaderManager]: with the
    pointer NULL it does nothing when no material is registered, and calls
    through the NULL pointer as soon as one is, whatever the tag. *)
Theorem SetShaderMaterial_without_shader P st t :
  m_pShaderManager st = None ->
  SetShaderMaterial P t st =
  if bool_decide (m_objectMaterials st = []) then Ok (tt, st) else Undefined.
Proof.
  intros Hsh. destruct (m_objectMaterials st) as [|e0 mats] eqn:E.
  - by rewrite (SetShaderMaterial_empty P t st E).
  - rewrite bool_decide_eq_false_2 by done.
    apply SetShaderMaterial_null; [done | by rewrite E].
Qed.

Lemma SetShaderMaterial_without_shader_witness :
  m_pShaderManager (set_shader None two_woods) = None /\
  SetShaderMaterial example_platform "wood" (set_shader None two_woods) = Undefined /\
  m_pShaderManager (empty_scene None) = None /\
  SetShaderMaterial example_platform "wood" (empty_scene None)
    = Ok (tt, empty_scene None).
Proof.
  split; [reflexivity|]. split.
  - exact (SetShaderMaterial_without_shader example_platform
             (set_shader None two_woods) "wood" eq_refl).
  - split; [reflexivity|].
    exact (SetShaderMaterial_without_shader example_platform
             (empty_scene None) "wood" eq_refl).
Defined.

(** ** Texture and colour selection *)

Lemma SetShaderTexture_run st sh t :
  m_pShaderManager st = Some sh ->
  registry_in_bounds st ->
  exists s,
    FindTextureSlot st t = Ok s /\
    SetShaderTexture t st =
    Ok (tt, set_trace
              (trace st ++ [setUniform "bUseTexture" (IntValue 1);
                            setUniform "objectTexture" (Sampler2DValue s)])
              (set_shader
                 (Some (<["objectTexture" := Sampler2DValue s]>
                          (<["bUseTexture" := IntValue 1]> sh))) st)).
Proof.
  intros Hsh Hwf. eexists. split; [by apply FindTextureSlot_spec|].
  unfold SetShaderTexture. rewrite bind_get, Hsh.
  rewrite (bind_shader_set _ _ _ _ _ Hsh).
  rewrite bind_get, FindTextureSlot_spec by done.
  rewrite bind_lift_Ok.
  erewrite shader_set_Some by reflexivity.
  simpl. unfold set_trace, set_shader. simpl. by rewrite <- app_assoc.
Qed.

Lemma SetShaderColor_run st sh r g b a :
  m_pShaderManager st = Some sh ->
  SetShaderColor r g b a st =
  Ok (tt, set_trace
            (trace st ++ [setUniform "bUseTexture" (IntValue 0);
                          setUniform "objectColor" (Vec4Value (Vec4 r g b a))])
            (set_shader
               (Some (<["objectColor" := Vec4Value (Vec4 r g b a)]>
                        (<["bUseTexture" := IntValue 0]> sh))) st)).
Proof.
  intros Hsh. unfold SetShaderColor. rewrite bind_get, Hsh.
  rewrite (bind_shader_set _ _ _ _ _ Hsh).
  erewrite shader_set_Some by reflexivity.
  simpl. unfold set_trace, set_shader. simpl. by rewrite <- app_assoc.
Qed.

(** X5.  With a shader attached and the registry within its array,
    [SetShaderTexture] sets "bUseTexture" to 1 and "objectTexture" to what
    [FindTextureSlot] returns for the tag: the index of the first registered
    texture with that tag, and -1, which it writes as it is, when no
    registered texture has it.  No other uniform changes. *)
Theorem SetShaderTexture_sampler st sh t :
  m_pShaderManager st = Some sh ->
  registry_in_bounds st ->
  exists s st' sh',
    FindTextureSlot st t = Ok s /\
    SetShaderTexture t st = Ok (tt, st') /\
    m_pShaderManager st' = Some sh' /\
    sh' !! "bUseTexture" = Some (IntValue 1) /\
    sh' !! "objectTexture" = Some (Sampler2DValue s) /\
    (forall name, name <> "bUseTexture" -> name <> "objectTexture" ->
                  sh' !! name = sh !! name) /\
    (forall i e, first_match (fun e => tag e = t) (registered st) i e ->
                 s = Z.of_nat i) /\
    (Forall (fun e => tag e <> t) (registered st) -> s = -1).
Proof.
  intros Hsh Hwf.
  destruct (SetShaderTexture_run st sh t Hsh Hwf) as (s & Hs & Hrun).
  eexists s, _, _. split; [exact Hs|]. split; [exact Hrun|]. simpl.
  split; [reflexivity|].
  split; [by map_lookup|].
  split; [by map_lookup|].
  split; [intros name H1 H2; by rewrite !lookup_insert_ne|].
  rewrite FindTextureSlot_spec in Hs by done. injection Hs as <-.
  split.
  - intros i e H. by rewrite (list_find_first_match _ _ _ _ H).
  - intros H. by rewrite (list_find_no_match _ _ H).
Qed.

Lemma SetShaderTexture_sampler_witness :
  m_pShaderManager prepared_scene = Some ∅ /\
  registry_in_bounds prepared_scene /\
  exists st' sh',
    SetShaderTexture "no such texture" prepared_scene = Ok (tt, st') /\
    m_pShaderManager st' = Some sh' /\
    sh' !! "objectTexture" = Some (Sampler2DValue (-1)).
Proof.
  assert (registry_in_bounds prepared_scene) as Hwf
    by (unfold registry_in_bounds; simpl; lia).
  split; [reflexivity|]. split; [exact Hwf|].
  destruct (SetShaderTexture_sampler prepared_scene ∅ "no such texture" eq_refl Hwf)
    as (s & st' & sh' & _ & Hrun & Hsh & _ & Htex & _ & _ & Hnone).
  exists st', sh'. split; [exact Hrun|]. split; [exact Hsh|].
  rewrite Htex, Hnone; [reflexivity|].
  apply (bool_decide_unpack _). vm_compute. exact I.
Defined.

(** X6.  [SetShaderColor] and [SetShaderTexture] share the flag
    "bUseTexture" and nothing else: called one after the other, the later
    call decides the flag (1 after [SetShaderTexture], 0 after
    [SetShaderColor]), while the colour and the sampler written by both
    stay in the shader. *)
Theorem SetShaderColor_SetShaderTexture_last_wins st sh r g b a t :
  m_pShaderManager st = Some sh ->
  registry_in_bounds st ->
  exists s st1 sh1 st2 sh2,
    FindTextureSlot st t = Ok s /\
    (SetShaderColor r g b a;; SetShaderTexture t) st = Ok (tt, st1) /\
    m_pShaderManager st1 = Some sh1 /\
    sh1 !! "bUseTexture" = Some (IntValue 1) /\
    sh1 !! "objectColor" = Some (Vec4Value (Vec4 r g b a)) /\
    sh1 !! "objectTexture" = Some (Sampler2DValue s) /\
    (SetShaderTexture t;; SetShaderColor r g b a) st = Ok (tt, st2) /\
    m_pShaderManager st2 = Some sh2 /\
    sh2 !! "bUseTexture" = Some (IntValue 0) /\
    sh2 !! "objectColor" = Some (Vec4Value (Vec4 r g b a)) /\
    sh2 !! "objectTexture" = Some (Sampler2DValue s).
Proof.
  intros Hsh Hwf.
  destruct (SetShaderTexture_run st sh t Hsh Hwf) as (s & Hs & Htex).
  pose proof (SetShaderColor_run st sh r g b a Hsh) as Hcol.
  match type of Hcol with _ = Ok (_, ?st1) =>
    destruct (SetShaderTexture_run st1 _ t eq_refl Hwf) as (s' & Hs' & Htex')
  end.
  assert (s' = s) as ->.
  { pose proof Hs as Hs0. rewrite FindTextureSlot_spec in Hs0, Hs' by done.
    unfold registered in *. simpl in *. congruence. }
  match type of Htex with _ = Ok (_, ?st1) =>
    pose proof (SetShaderColor_run st1 _ r g b a eq_refl) as Hcol'
  end.
  eexists s, _, _, _, _. split; [exact Hs|].
  split; [rewrite (bind_Ok _ _ _ _ _ Hcol); exact Htex'|]. simpl.
  split; [reflexivity|].
  split; [by map_lookup|].
  split; [by map_lookup|].
  split; [by map_lookup|].
  split; [rewrite (bind_Ok _ _ _ _ _ Htex); exact Hcol'|]. simpl.
  split; [reflexivity|].
  split; [by map_lookup|].
  split; [by map_lookup|].
  by map_lookup.
Qed.

Lemma SetShaderColor_SetShaderTexture_last_wins_witness :
  m_pShaderManager prepared_scene = Some ∅ /\
  registry_in_bounds prepared_scene /\
  exists st1 sh1,
    (SetShaderColor 0.3 0.3 0.3 0.3;; SetShaderTexture "lamp_top") prepared_scene
      = Ok (tt, st1) /\
    m_pShaderManager st1 = Some sh1 /\
    sh1 !! "bUseTexture" = Some (IntValue 1) /\
    sh1 !! "objectColor" = Some (Vec4Value (Vec4 0.3 0.3 0.3 0.3)).
Proof.
  assert (registry_in_bounds prepared_scene) as Hwf
    by (unfold registry_in_bounds; simpl; lia).
  split; [reflexivity|]. split; [exact Hwf|].
  destruct (SetShaderColor_SetShaderTexture_last_wins prepared_scene ∅
              0.3 0.3 0.3 0.3 "lamp_top" eq_refl Hwf)
    as (s & st1 & sh1 & _ & _ & _ & Hrun & Hsh & Hflag & Hcol & _).
  exists st1, sh1. done.
Defined.

(** ** Texture lookup *)

(** X7.  In a registry within its array, both lookups take the first
    registered entry with the tag: when [e], at index [i], is the first of
    the [m_loadedTextures] registered entries tagged [t], [FindTextureSlot]
    returns [i] and [FindTextureID] returns the name of [e] (as an [int]);
    a texture loaded later under the same tag is never found. *)
Theorem texture_lookup_first_match st t i e :
  registry_in_bounds st ->
  first_match (fun e => tag e = t) (registered st) i e ->
  FindTextureSlot st t = Ok (Z.of_nat i) /\
  FindTextureID st t = Ok (int_of_GLuint (ID e)).
Proof.
  intros Hwf H.
  rewrite FindTextureSlot_spec, FindTextureID_spec by done.
  by rewrite (list_find_first_match _ _ _ _ H).
Qed.

Lemma texture_lookup_first_match_witness :
  registry_in_bounds wall_twice /\
  first_match (fun e => tag e = "wall") (registered wall_twice) 1
    {| ID := 12; tag := "wall" |} /\
  FindTextureSlot wall_twice "wall" = Ok 1 /\
  FindTextureID wall_twice "wall" = Ok 12.
Proof.
  assert (registry_in_bounds wall_twice) as Hwf
    by (unfold registry_in_bounds; simpl; lia).
  assert (first_match (fun e => tag e = "wall") (registered wall_twice) 1
            {| ID := 12; tag := "wall" |}) as H.
  { split; [reflexivity|]. split; [reflexivity|].
    intros j e' Hj He'. destruct j as [|j]; [|lia].
    injection He' as <-. discriminate. }
  split; [exact Hwf|]. split; [exact H|].
  exact (texture_lookup_first_match wall_twice "wall" 1 _ Hwf H).
Defined.

(** X8.  In a registry within its array, a tag that none of the
    [m_loadedTextures] registered entries has is not found: both lookups
    return -1, also when an array element past the registered ones carries
    that tag. *)
Theorem texture_lookup_absent st t :
  registry_in_bounds st ->
  Forall (fun e => tag e <> t) (registered st) ->
  FindTextureSlot st t = Ok (-1) /\ FindTextureID st t = Ok (-1).
Proof.
  intros Hwf H.
  rewrite FindTextureSlot_spec, FindTextureID_spec by done.
  by rewrite (list_find_no_match _ _ H).
Qed.

Lemma texture_lookup_absent_witness :
  registry_in_bounds wall_twice /\
  Forall (fun e => tag e <> "stale") (registered wall_twice) /\
  (tag <$> m_textureIDs wall_twice !! 3%nat) = Some "stale" /\
  FindTextureSlot wall_twice "stale" = Ok (-1) /\
  FindTextureID wall_twice "stale" = Ok (-1).
Proof.
  assert (registry_in_bounds wall_twice) as Hwf
    by (unfold registry_in_bounds; simpl; lia).
  assert (Forall (fun e => tag e <> "stale") (registered wall_twice)) as H
    by (apply (bool_decide_unpack _); vm_compute; exact I).
  split; [exact Hwf|]. split; [exact H|]. split; [reflexivity|].
  exact (texture_lookup_absent wall_twice "stale" Hwf H).
Defined.

(** ** Loading a texture *)

(** X9.  A file that [stbi_load] cannot read: [CreateGLTexture] returns
    false having made no OpenGL call; the registry, the texture names in
    use and the shader are untouched. *)
Theorem CreateGLTexture_unreadable_file P filename t st :
  stbi_load P filename = None ->
  exists st',
    CreateGLTexture P filename t st = Ok (false, st') /\
    trace st' = trace st ++ [stbi_set_flip_vertically_on_load true] /\
    gl_textures st' = gl_textures st /\
    m_textureIDs st' = m_textureIDs st /\
    m_loadedTextures st' = m_loadedTextures st /\
    m_objectMaterials st' = m_objectMaterials st /\
    m_pShaderManager st' = m_pShaderManager st.
Proof.
  intros H. unfold CreateGLTexture. rewrite bind_emit, H.
  eexists. split; [reflexivity|]. done.
Qed.

Lemma CreateGLTexture_unreadable_file_witness :
  stbi_load example_platform "textures/missing.jpg" = None /\
  exists st',
    CreateGLTexture example_platform "textures/missing.jpg" "missing" prepared_scene
      = Ok (false, st') /\
    gl_textures st' = gl_textures prepared_scene /\
    m_loadedTextures st' = 14.
Proof.
  split; [reflexivity|].
  destruct (CreateGLTexture_unreadable_file example_platform
              "textures/missing.jpg" "missing" prepared_scene eq_refl)
    as (st' & Hrun & _ & Hgl & _ & Hn & _).
  exists st'. split; [exact Hrun|]. split; [exact Hgl|]. exact Hn.
Defined.

(** X10.  An image that decodes with a channel count other than 3 and 4 is
    rejected after its texture has been generated and bound: the generated
    name stays in use, bound to [GL_TEXTURE_2D] and registered nowhere, and
    the image is not handed to [stbi_image_free]. *)
Theorem CreateGLTexture_rejected_image_leaks P filename t st image :
  stbi_load P filename = Some image ->
  colorChannels image <> 3 ->
  colorChannels image <> 4 ->
  let name := gl_fresh_name P (gl_textures st) in
  exists st',
    CreateGLTexture P filename t st = Ok (false, st') /\
    gl_textures st' = gl_textures st ++ [name] /\
    trace st' =
      trace st ++
      [stbi_set_flip_vertically_on_load true;
       glGenTextures name;
       glBindTexture GL_TEXTURE_2D name;
       glTexParameteri GL_TEXTURE_2D GL_TEXTURE_WRAP_S GL_REPEAT;
       glTexParameteri GL_TEXTURE_2D GL_TEXTURE_WRAP_T GL_REPEAT;
       glTexParameteri GL_TEXTURE_2D GL_TEXTURE_MIN_FILTER GL_LINEAR;
       glTexParameteri GL_TEXTURE_2D GL_TEXTURE_MAG_FILTER GL_LINEAR] /\
    m_textureIDs st' = m_textureIDs st /\
    m_loadedTextures st' = m_loadedTextures st.
Proof.
  intros Hload H3 H4 name. unfold CreateGLTexture.
  rewrite bind_emit, Hload.
  apply Z.eqb_neq in H3, H4. rewrite H3, H4.
  eexists. split; [reflexivity|]. simpl.
  split; [done|]. split; [|done].
  by rewrite <- !app_assoc.
Qed.

Lemma CreateGLTexture_rejected_image_leaks_witness :
  stbi_load example_platform "textures/gray.png"
    = Some {| width := 2; height := 2; colorChannels := 1 |} /\
  exists st',
    CreateGLTexture example_platform "textures/gray.png" "gray" prepared_scene
      = Ok (false, st') /\
    gl_textures st' = gl_textures prepared_scene ++ [15] /\
    m_loadedTextures st' = 14.
Proof.
  split; [reflexivity|].
  destruct (CreateGLTexture_rejected_image_leaks example_platform
              "textures/gray.png" "gray" prepared_scene
              {| width := 2; height := 2; colorChannels := 1 |} eq_refl)
    as (st' & Hrun & Hgl & _ & _ & Hn); [simpl; lia | simpl; lia |].
  exists st'. split; [exact Hrun|]. split; [exact Hgl|]. exact Hn.
Defined.

Lemma State_ext st1 st2 :
  m_pShaderManager st1 = m_pShaderManager st2 ->
  m_textureIDs st1 = m_textureIDs st2 ->
  m_loadedTextures st1 = m_loadedTextures st2 ->
  m_objectMaterials st1 = m_objectMaterials st2 ->
  gl_textures st1 = gl_textures st2 ->
  trace st1 = trace st2 ->
  st1 = st2.
Proof. destruct st1, st2. simpl. by intros -> -> -> -> -> ->. Qed.

Lemma CreateGLTexture_register_run textureID t st :
  0 <= m_loadedTextures st < Z.of_nat (length (m_textureIDs st)) ->
  CreateGLTexture_register textureID t st =
  Ok (true,
      set_loadedTextures (m_loadedTextures st + 1)
        (set_textureIDs
           (<[Z.to_nat (m_loadedTextures st) := {| ID := textureID; tag := t |}]>
              (m_textureIDs st))
           (set_trace
              (trace st ++ [glGenerateMipmap GL_TEXTURE_2D; stbi_image_free;
                            glBindTexture GL_TEXTURE_2D 0])
              st))).
Proof.
  intros [H0 H1].
  unfold CreateGLTexture_register. rewrite !bind_emit, bind_get.
  simpl m_textureIDs. simpl m_loadedTextures.
  destruct (lookup_lt_is_Some_2 (m_textureIDs st) (Z.to_nat (m_loadedTextures st)))
    as [e He]; [lia|].
  rewrite (array_read_Z _ _ _ H0 He), bind_lift_Ok.
  rewrite array_write_Z, bind_lift_Ok by lia.
  rewrite (array_read_Z _ _ {| ID := textureID; tag := tag e |}), bind_lift_Ok
    by (lia || (apply list_lookup_insert_eq; lia)).
  rewrite array_write_Z, bind_lift_Ok by (rewrite length_insert; lia).
  rewrite !bind_modify. rewrite list_insert_insert_eq.
  unfold mret, M_ret. do 2 f_equal. apply State_ext; simpl; try done.
  by rewrite <- !app_assoc.
Qed.

Lemma CreateGLTexture_run P filename t st image :
  stbi_load P filename = Some image ->
  colorChannels image = 3 \/ colorChannels image = 4 ->
  0 <= m_loadedTextures st < Z.of_nat (length (m_textureIDs st)) ->
  let name := gl_fresh_name P (gl_textures st) in
  CreateGLTexture P filename t st =
  Ok (true,
      {| m_pShaderManager := m_pShaderManager st;
         m_textureIDs :=
           <[Z.to_nat (m_loadedTextures st) := {| ID := name; tag := t |}]>
             (m_textureIDs st);
         m_loadedTextures := m_loadedTextures st + 1;
         m_objectMaterials := m_objectMaterials st;
         gl_textures := gl_textures st ++ [name];
         trace :=
           trace st ++
           [stbi_set_flip_vertically_on_load true;
            glGenTextures name;
            glBindTexture GL_TEXTURE_2D name;
            glTexParameteri GL_TEXTURE_2D GL_TEXTURE_WRAP_S GL_REPEAT;
            glTexParameteri GL_TEXTURE_2D GL_TEXTURE_WRAP_T GL_REPEAT;
            glTexParameteri GL_TEXTURE_2D GL_TEXTURE_MIN_FILTER GL_LINEAR;
            glTexParameteri GL_TEXTURE_2D GL_TEXTURE_MAG_FILTER GL_LINEAR;
            upload_call image;
            glGenerateMipmap GL_TEXTURE_2D;
            stbi_image_free;
            glBindTexture GL_TEXTURE_2D 0] |}).
Proof.
  intros Hload Hch Hb name. unfold CreateGLTexture.
  rewrite bind_emit, Hload.
  unfold gl_gen_texture. erewrite bind_Ok by reflexivity.
  rewrite !bind_emit. unfold upload_call.
  destruct Hch as [Hch|Hch]; rewrite Hch;
    [change (3 =? 3) with true
    |change (4 =? 3) with false; change (4 =? 4) with true];
    cbv iota;
    rewrite bind_emit, CreateGLTexture_register_run by (simpl; lia);
    do 2 f_equal; apply State_ext; simpl; try done;
    by rewrite <- !app_assoc.
Qed.

(** X11.  A readable image of 3 or 4 channels, with a free slot in the
    array: [CreateGLTexture] returns true; the generated name and the tag
    are stored at index [m_loadedTextures], which then grows by one; the
    bitmap is uploaded as [GL_RGB8]/[GL_RGB] for 3 channels and as
    [GL_RGBA8]/[GL_RGBA] for 4, with repeat wrapping and linear filtering set
    before the upload; mipmaps are generated, the image is freed and the
    texture unbound; shader and materials are untouched. *)
Theorem CreateGLTexture_loads P filename t st image :
  stbi_load P filename = Some image ->
  colorChannels image = 3 \/ colorChannels image = 4 ->
  0 <= m_loadedTextures st < Z.of_nat (length (m_textureIDs st)) ->
  let name := gl_fresh_name P (gl_textures st) in
  let internalformat := if colorChannels image =? 3 then GL_RGB8 else GL_RGBA8 in
  let format := if colorChannels image =? 3 then GL_RGB else GL_RGBA in
  exists st',
    CreateGLTexture P filename t st = Ok (true, st') /\
    m_textureIDs st' =
      <[Z.to_nat (m_loadedTextures st) := {| ID := name; tag := t |}]>
        (m_textureIDs st) /\
    m_loadedTextures st' = m_loadedTextures st + 1 /\
    gl_textures st' = gl_textures st ++ [name] /\
    trace st' =
      trace st ++
      [stbi_set_flip_vertically_on_load true;
       glGenTextures name;
       glBindTexture GL_TEXTURE_2D name;
       glTexParameteri GL_TEXTURE_2D GL_TEXTURE_WRAP_S GL_REPEAT;
       glTexParameteri GL_TEXTURE_2D GL_TEXTURE_WRAP_T GL_REPEAT;
       glTexParameteri GL_TEXTURE_2D GL_TEXTURE_MIN_FILTER GL_LINEAR;
       glTexParameteri GL_TEXTURE_2D GL_TEXTURE_MAG_FILTER GL_LINEAR;
       glTexImage2D GL_TEXTURE_2D 0 internalformat (width image) (height image)
         0 format GL_UNSIGNED_BYTE;
       glGenerateMipmap GL_TEXTURE_2D;
       stbi_image_free;
       glBindTexture GL_TEXTURE_2D 0] /\
    m_pShaderManager st' = m_pShaderManager st /\
    m_objectMaterials st' = m_objectMaterials st.
Proof.
  intros Hload Hch Hb name internalformat format.
  eexists. split; [by apply CreateGLTexture_run|]. simpl.
  repeat split; try done.
  unfold upload_call, internalformat, format.
  by destruct (colorChannels image =? 3).
Qed.

Lemma CreateGLTexture_loads_witness :
  stbi_load example_platform "textures/rug.jpg"
    = Some {| width := 512; height := 512; colorChannels := 3 |} /\
  exists st',
    CreateGLTexture example_platform "textures/rug.jpg" "rug" (empty_scene None)
      = Ok (true, st') /\
    m_textureIDs st' !! 0%nat = Some {| ID := 1; tag := "rug" |} /\
    m_loadedTextures st' = 1.
Proof.
  split; [reflexivity|].
  destruct (CreateGLTexture_loads example_platform "textures/rug.jpg" "rug"
              (empty_scene None)
              {| width := 512; height := 512; colorChannels := 3 |} eq_refl)
    as (st' & Hrun & Hids & Hn & _); [by left | simpl; lia |].
  exists st'. split; [exact Hrun|]. split; [|exact Hn].
  rewrite Hids. reflexivity.
Defined.

(** X12.  Load, then look up: after a successful [CreateGLTexture] under a
    tag that was not registered, in a registry within its array,
    [FindTextureSlot] on that tag returns the index the texture was stored
    at, the count before the call, and [FindTextureID] returns the name
    that was generated for it (as an [int]). *)
Theorem CreateGLTexture_then_lookup P filename t st image :
  stbi_load P filename = Some image ->
  colorChannels image = 3 \/ colorChannels image = 4 ->
  registry_in_bounds st ->
  m_loadedTextures st < Z.of_nat (length (m_textureIDs st)) ->
  Forall (fun e => tag e <> t) (registered st) ->
  exists st',
    CreateGLTexture P filename t st = Ok (true, st') /\
    FindTextureSlot st' t = Ok (m_loadedTextures st) /\
    FindTextureID st' t = Ok (int_of_GLuint (gl_fresh_name P (gl_textures st))).
Proof.
  intros Hload Hch Hwf Hlt Hnew.
  pose proof (CreateGLTexture_run P filename t st image Hload Hch
                (conj (proj1 Hwf) Hlt)) as Hrun.
  cbv zeta in Hrun.
  eexists. split; [exact Hrun|].
  match type of Hrun with _ = Ok (_, ?s) => set (st' := s) in * end.
  destruct (registered_after_load st st'
              (gl_fresh_name P (gl_textures st)) t Hwf Hlt eq_refl eq_refl)
    as [Hwf' Hreg].
  assert (first_match (fun e => tag e = t) (registered st')
            (Z.to_nat (m_loadedTextures st))
            {| ID := gl_fresh_name P (gl_textures st); tag := t |}) as Hfirst.
  { pose proof (registered_length st Hwf) as Hlen. rewrite Hreg.
    split; [by rewrite lookup_app_r, Hlen, Nat.sub_diag by lia|].
    split; [done|].
    intros j e' Hj He'. rewrite lookup_app_l in He' by lia.
    rewrite Forall_forall in Hnew. apply Hnew.
    by apply (list_elem_of_lookup_2 _ j). }
  rewrite FindTextureSlot_spec, FindTextureID_spec by done.
  rewrite (list_find_first_match _ _ _ _ Hfirst). simpl.
  destruct Hwf. split; f_equal; lia.
Qed.

Lemma CreateGLTexture_then_lookup_witness :
  stbi_load example_platform "textures/extra.jpg"
    = Some {| width := 512; height := 512; colorChannels := 3 |} /\
  registry_in_bounds prepared_scene /\
  Forall (fun e => tag e <> "extra") (registered prepared_scene) /\
  exists st',
    CreateGLTexture example_platform "textures/extra.jpg" "extra" prepared_scene
      = Ok (true, st') /\
    FindTextureSlot st' "extra" = Ok 14 /\
    FindTextureID st' "extra" = Ok 15.
Proof.
  assert (registry_in_bounds prepared_scene) as Hwf
    by (unfold registry_in_bounds; simpl; lia).
  assert (Forall (fun e => tag e <> "extra") (registered prepared_scene)) as Hnew
    by (apply (bool_decide_unpack _); vm_compute; exact I).
  split; [reflexivity|]. split; [exact Hwf|]. split; [exact Hnew|].
  apply (CreateGLTexture_then_lookup example_platform "textures/extra.jpg" "extra"
           prepared_scene {| width := 512; height := 512; colorChannels := 3 |});
    [reflexivity | by left | exact Hwf | simpl; lia | exact Hnew].
Defined.

(** X13.  Slots are stable: in a registry within its array, whatever a
    later [CreateGLTexture] call loads or fails to load, a tag that was
    found before is found at the same slot and with the same name
    afterwards; a second load under a registered tag is therefore never
    reached by the lookups. *)
Theorem CreateGLTexture_keeps_slots P filename t st b st' t' s :
  registry_in_bounds st ->
  CreateGLTexture P filename t st = Ok (b, st') ->
  FindTextureSlot st t' = Ok s ->
  s <> -1 ->
  registry_in_bounds st' /\
  FindTextureSlot st' t' = Ok s /\
  FindTextureID st' t' = FindTextureID st t'.
Proof.
  intros Hwf Hrun Hs Hne.
  apply CreateGLTexture_registry in Hrun.
  assert (registry_in_bounds st' /\
          exists l, registered st' = registered st ++ l) as [Hwf' [l Hreg]].
  { destruct b.
    - destruct Hrun as ([_ Hlt] & Hn & name & Hids).
      destruct (registered_after_load st st' name t Hwf Hlt Hn Hids) as [? ?].
      eauto.
    - destruct Hrun as [Hn Hids]. split.
      + unfold registry_in_bounds. by rewrite Hn, Hids.
      + exists []. unfold registered. by rewrite Hn, Hids, app_nil_r. }
  split; [done|].
  rewrite FindTextureSlot_spec in Hs by done.
  rewrite !FindTextureSlot_spec, !FindTextureID_spec by done.
  destruct (list_find (fun e => tag e = t') (registered st)) as [[j e]|] eqn:Hfind.
  - rewrite Hreg, (list_find_app_l _ _ _ _ _ Hfind). done.
  - by injection Hs as <-.
Qed.

Lemma CreateGLTexture_keeps_slots_witness :
  registry_in_bounds prepared_scene /\
  exists st',
    CreateGLTexture example_platform "textures/other_rug.jpg" "rug" prepared_scene
      = Ok (true, st') /\
    m_loadedTextures st' = 15 /\
    FindTextureSlot st' "rug" = Ok 8 /\
    FindTextureID st' "rug" = Ok 9.
Proof.
  assert (registry_in_bounds prepared_scene) as Hwf
    by (unfold registry_in_bounds; simpl; lia).
  split; [exact Hwf|].
  assert (0 <= m_loadedTextures prepared_scene
            < Z.of_nat (length (m_textureIDs prepared_scene))) as Hb
    by (simpl; lia).
  pose proof (CreateGLTexture_run example_platform "textures/other_rug.jpg" "rug"
                prepared_scene
                {| width := 512; height := 512; colorChannels := 3 |} eq_refl
                (or_introl eq_refl) Hb) as Hrun.
  cbv zeta in Hrun.
  match type of Hrun with _ = Ok (_, ?s) => set (st' := s) in * end.
  exists st'. split; [exact Hrun|]. split; [reflexivity|].
  destruct (CreateGLTexture_keeps_slots example_platform
              "textures/other_rug.jpg" "rug" prepared_scene true st' "rug" 8
              Hwf Hrun) as (_ & Hslot & Hid);
    [vm_compute; reflexivity | lia |].
  split; [exact Hslot|]. rewrite Hid. vm_compute. reflexivity.
Defined.

Lemma array_read_outside {A} (arr : list A) i :
  ~ (0 <= i < Z.of_nat (length arr)) -> array_read arr i = Undefined.
Proof.
  intros H. unfold array_read. destruct (0 <=? i) eqn:E; [|done].
  apply Z.leb_le in E. by rewrite lookup_ge_None_2 by lia.
Qed.

Lemma CreateGLTexture_outside P filename t st image :
  stbi_load P filename = Some image ->
  colorChannels image = 3 \/ colorChannels image = 4 ->
  ~ (0 <= m_loadedTextures st < Z.of_nat (length (m_textureIDs st))) ->
  CreateGLTexture P filename t st = Undefined.
Proof.
  intros Hload Hch Hfull.
  assert (forall textureID st1,
            m_textureIDs st1 = m_textureIDs st ->
            m_loadedTextures st1 = m_loadedTextures st ->
            CreateGLTexture_register textureID t st1 = Undefined) as Hreg.
  { intros textureID st1 Hids Hn.
    unfold CreateGLTexture_register. rewrite !bind_emit, bind_get.
    simpl m_textureIDs. simpl m_loadedTextures. rewrite Hids, Hn.
    by rewrite array_read_outside. }
  unfold CreateGLTexture. rewrite bind_emit, Hload.
  unfold gl_gen_texture. erewrite bind_Ok by reflexivity.
  rewrite !bind_emit.
  destruct Hch as [Hch|Hch]; rewrite Hch;
    [change (3 =? 3) with true
    |change (4 =? 3) with false; change (4 =? 4) with true];
    cbv iota; rewrite bind_emit; by apply Hreg.
Qed.

(** X14.  There is no capacity check: with every element of the array
    registered (or the count outside the array in any other way), a
    readable image of 3 or 4 channels makes [CreateGLTexture] store past the
    array, which is undefined behaviour. *)
Theorem CreateGLTexture_full_registry P filename t st image :
  stbi_load P filename = Some image ->
  colorChannels image = 3 \/ colorChannels image = 4 ->
  ~ (0 <= m_loadedTextures st < Z.of_nat (length (m_textureIDs st))) ->
  CreateGLTexture P filename t st = Undefined.
Proof.
  apply CreateGLTexture_outside.
Qed.

Lemma CreateGLTexture_full_registry_witness :
  stbi_load example_platform "textures/leaf.jpg"
    = Some {| width := 512; height := 512; colorChannels := 3 |} /\
  ~ (0 <= m_loadedTextures full_registry
       < Z.of_nat (length (m_textureIDs full_registry))) /\
  CreateGLTexture example_platform "textures/leaf.jpg" "leaf" full_registry
    = Undefined.
Proof.
  assert (~ (0 <= m_loadedTextures full_registry
               < Z.of_nat (length (m_textureIDs full_registry)))) as H
    by (simpl; lia).
  split; [reflexivity|]. split; [exact H|].
  apply (CreateGLTexture_full_registry example_platform "textures/leaf.jpg" "leaf"
           full_registry {| width := 512; height := 512; colorChannels := 3 |});
    [reflexivity | by left | exact H].
Defined.

(** ** Binding and teardown *)

Lemma BindGLTextures_loop_run fuel : forall (k : nat) st,
  registry_in_bounds st ->
  (Z.to_nat (m_loadedTextures st) - k <= fuel)%nat ->
  BindGLTextures_loop fuel (Z.of_nat k) st =
  Ok (tt, set_trace
            (trace st ++
             concat (imap (fun i e => [glActiveTexture (Z.of_nat (k + i));
                                       glBindTexture GL_TEXTURE_2D (ID e)])
                       (drop k (registered st))))
            st).
Proof.
  induction fuel as [|fuel IH]; intros k st Hwf Hf;
    pose proof (registered_length st Hwf) as Hlen; destruct Hwf as [H0 H1]; simpl.
  - rewrite (proj2 (Z.ltb_ge _ _)) by lia.
    rewrite drop_ge by lia. simpl. rewrite app_nil_r.
    do 2 f_equal. by destruct st.
  - destruct (Z.of_nat k <? m_loadedTextures st) eqn:Hlt.
    + apply Z.ltb_lt in Hlt. rewrite bind_emit.
      destruct (lookup_lt_is_Some_2 (m_textureIDs st) k) as [e He]; [lia|].
      rewrite (array_read_lookup _ _ _ He), bind_lift_Ok, bind_emit.
      replace (Z.of_nat k + 1) with (Z.of_nat (S k)) by lia.
      rewrite IH by (done || (simpl; lia)).
      assert (registered st !! k = Some e) as Hr
        by (rewrite registered_lookup by lia; done).
      rewrite (drop_S _ _ _ Hr), imap_cons. simpl.
      do 2 f_equal. apply State_ext; simpl; try done.
      rewrite <- !app_assoc. simpl. rewrite Nat.add_0_r.
      do 3 f_equal. unfold registered. simpl.
      f_equal. apply imap_ext. intros i x _. simpl.
      by replace (k + S i)%nat with (S (k + i)) by lia.
    + apply Z.ltb_ge in Hlt. rewrite drop_ge by lia. simpl. rewrite app_nil_r.
      do 2 f_equal. by destruct st.
Qed.

(** X15.  In a registry within its array, [BindGLTextures] goes through the
    registered textures in slot order and, for the texture at index [i],
    selects texture unit [GL_TEXTURE0 + i] and binds the stored name to it;
    it makes no other call and changes nothing in the scene manager.  With
    no texture registered it does nothing. *)
Theorem BindGLTextures_binds_slot_to_unit st :
  registry_in_bounds st ->
  exists st',
    BindGLTextures st = Ok (tt, st') /\
    trace st' =
      trace st ++
      concat (imap (fun i e => [glActiveTexture (Z.of_nat i);
                                glBindTexture GL_TEXTURE_2D (ID e)])
                (registered st)) /\
    m_textureIDs st' = m_textureIDs st /\
    m_loadedTextures st' = m_loadedTextures st /\
    m_objectMaterials st' = m_objectMaterials st /\
    m_pShaderManager st' = m_pShaderManager st /\
    gl_textures st' = gl_textures st.
Proof.
  intros Hwf. eexists. split.
  - unfold BindGLTextures. change 0 with (Z.of_nat 0).
    apply BindGLTextures_loop_run; [done | lia].
  - simpl. by rewrite drop_0.
Qed.

Lemma BindGLTextures_binds_slot_to_unit_witness :
  registry_in_bounds wall_twice /\
  exists st',
    BindGLTextures wall_twice = Ok (tt, st') /\
    trace st' =
      [glActiveTexture 0; glBindTexture GL_TEXTURE_2D 11;
       glActiveTexture 1; glBindTexture GL_TEXTURE_2D 12;
       glActiveTexture 2; glBindTexture GL_TEXTURE_2D 13].
Proof.
  assert (registry_in_bounds wall_twice) as Hwf
    by (unfold registry_in_bounds; simpl; lia).
  split; [exact Hwf|].
  destruct (BindGLTextures_binds_slot_to_unit wall_twice Hwf)
    as (st' & Hrun & Htrace & _).
  exists st'. split; [exact Hrun|]. rewrite Htrace. reflexivity.
Defined.

Lemma DestroyGLTextures_loop_run P fuel : forall (k : nat) st,
  registry_in_bounds st ->
  (k <= Z.to_nat (m_loadedTextures st))%nat ->
  (Z.to_nat (m_loadedTextures st) - k <= fuel)%nat ->
  exists st',
    DestroyGLTextures_loop P fuel (Z.of_nat k) st = Ok (tt, st') /\
    m_loadedTextures st' = m_loadedTextures st /\
    tag <$> m_textureIDs st' = tag <$> m_textureIDs st /\
    length (gl_textures st') =
      (length (gl_textures st) + (Z.to_nat (m_loadedTextures st) - k))%nat /\
    m_pShaderManager st' = m_pShaderManager st /\
    m_objectMaterials st' = m_objectMaterials st.
Proof.
  induction fuel as [|fuel IH]; intros k st [H0 H1] Hk Hf; simpl.
  - rewrite (proj2 (Z.ltb_ge _ _)) by lia.
    eexists. split; [reflexivity|]. repeat split; lia.
  - destruct (Z.of_nat k <? m_loadedTextures st) eqn:Hlt.
    + apply Z.ltb_lt in Hlt.
      destruct (lookup_lt_is_Some_2 (m_textureIDs st) k) as [e He]; [lia|].
      rewrite (bind_Ok _ _ _ e st) by (by rewrite (array_read_lookup _ _ _ He)).
      erewrite bind_Ok by reflexivity.
      erewrite bind_Ok
        by (simpl; rewrite array_write_in_bounds by lia; reflexivity).
      rewrite bind_modify.
      replace (Z.of_nat k + 1) with (Z.of_nat (S k)) by lia.
      match goal with
      | |- context [DestroyGLTextures_loop P fuel _ ?s] =>
          destruct (IH (S k) s) as (st' & Hrun & Hn & Htags & Hgl & Hsh & Hmat)
      end.
      * unfold registry_in_bounds. simpl. rewrite length_insert. lia.
      * simpl. lia.
      * simpl. lia.
      * simpl in *. exists st'. split; [exact Hrun|].
        split; [done|]. split.
        { rewrite Htags, list_fmap_insert. simpl.
          apply list_insert_id. by rewrite list_lookup_fmap, He. }
        split; [|done]. rewrite Hgl, length_app. simpl. lia.
    + apply Z.ltb_ge in Hlt.
      eexists. split; [reflexivity|]. repeat split; lia.
Qed.

Lemma slot_by_tags st st' t :
  m_loadedTextures st' = m_loadedTextures st ->
  tag <$> m_textureIDs st' = tag <$> m_textureIDs st ->
  registry_in_bounds st ->
  registry_in_bounds st' /\ FindTextureSlot st' t = FindTextureSlot st t.
Proof.
  intros Hn Htags Hwf.
  assert (registry_in_bounds st') as Hwf'.
  { unfold registry_in_bounds in *.
    rewrite Hn, <- (length_fmap tag), Htags, length_fmap. done. }
  split; [done|].
  rewrite !FindTextureSlot_spec by done.
  assert (tag <$> registered st' = tag <$> registered st) as Hreg
    by (unfold registered; by rewrite !fmap_take, Hn, Htags).
  pose proof (list_find_fmap tag (fun x => x = t) (registered st')) as H1.
  pose proof (list_find_fmap tag (fun x => x = t) (registered st)) as H2.
  rewrite Hreg, H2 in H1. unfold compose in H1.
  destruct (list_find _ (registered st')) as [[? ?]|],
           (list_find _ (registered st)) as [[? ?]|]; simpl in H1; congruence.
Qed.

(** X16.  After [DestroyGLTextures], in a registry within its array, the
    registry still looks loaded: the count and every tag are as before, so
    [FindTextureSlot] answers as before the teardown, while the names stored
    in the slots have been replaced and one more texture name per
    registered texture is in use. *)
Theorem DestroyGLTextures_registry_stays_loaded P st :
  registry_in_bounds st ->
  exists st',
    DestroyGLTextures P st = Ok (tt, st') /\
    m_loadedTextures st' = m_loadedTextures st /\
    tag <$> m_textureIDs st' = tag <$> m_textureIDs st /\
    (forall t, FindTextureSlot st' t = FindTextureSlot st t) /\
    length (gl_textures st') =
      (length (gl_textures st) + Z.to_nat (m_loadedTextures st))%nat /\
    (forall name, name ∈ gl_textures st -> name ∈ gl_textures st').
Proof.
  intros Hwf.
  destruct (DestroyGLTextures_loop_run P (Z.to_nat (m_loadedTextures st)) 0 st)
    as (st' & Hrun & Hn & Htags & Hgl & _); [done | lia | lia |].
  exists st'. split; [exact Hrun|]. split; [done|]. split; [done|].
  split; [intros t; by apply slot_by_tags|].
  split; [rewrite Hgl; lia|].
  by apply (DestroyGLTextures_loop_keeps P _ _ _ _ Hrun).
Qed.

Lemma DestroyGLTextures_registry_stays_loaded_witness :
  registry_in_bounds prepared_scene /\
  exists st',
    DestroyGLTextures example_platform prepared_scene = Ok (tt, st') /\
    m_loadedTextures st' = 14 /\
    FindTextureSlot st' "rug" = Ok 8 /\
    length (gl_textures st') = 28%nat.
Proof.
  assert (registry_in_bounds prepared_scene) as Hwf
    by (unfold registry_in_bounds; simpl; lia).
  split; [exact Hwf|].
  destruct (DestroyGLTextures_registry_stays_loaded example_platform
              prepared_scene Hwf) as (st' & Hrun & Hn & _ & Hslot & Hgl & _).
  exists st'. split; [exact Hrun|]. split; [exact Hn|].
  split; [rewrite Hslot; vm_compute; reflexivity|].
  rewrite Hgl. reflexivity.
Defined.

(** ** Rendering, from the registries *)

Lemma SetShaderMaterial_run P st sh t :
  m_pShaderManager st = Some sh ->
  m_objectMaterials st <> [] ->
  SetShaderMaterial P t st =
  Ok (tt, set_trace (trace st ++ call_events P st (call_SetShaderMaterial t))
            (set_shader
               (Some (foldl apply_event sh
                        (call_events P st (call_SetShaderMaterial t)))) st)).
Proof.
  intros Hsh Hne. rewrite (SetShaderMaterial_nonempty P t st sh Hsh Hne).
  reflexivity.
Qed.

Lemma run_call_events P c st sh :
  m_pShaderManager st = Some sh ->
  m_objectMaterials st <> [] ->
  registry_in_bounds st ->
  run_call P c st =
  Ok (tt, set_trace (trace st ++ call_events P st c)
            (set_shader (Some (foldl apply_event sh (call_events P st c))) st)).
Proof.
  intros Hsh Hmat Hwf.
  destruct c as [s rx ry rz p | r g b a | t | t | m]; simpl run_call.
  - unfold SetTransformations. rewrite bind_get, Hsh.
    by rewrite (shader_set_Some _ _ _ _ Hsh).
  - by rewrite (SetShaderColor_run st sh r g b a Hsh).
  - destruct (SetShaderTexture_run st sh t Hsh Hwf) as (s & Hs & Hrun).
    rewrite Hrun. rewrite FindTextureSlot_spec in Hs by done.
    injection Hs as <-. reflexivity.
  - by apply SetShaderMaterial_run.
  - unfold emit. simpl. do 2 f_equal. apply State_ext; simpl; by rewrite ?Hsh.
Qed.

Lemma run_calls_events P cs : forall st sh,
  m_pShaderManager st = Some sh ->
  m_objectMaterials st <> [] ->
  registry_in_bounds st ->
  run_calls P cs st =
  Ok (tt, set_trace (trace st ++ concat (call_events P st <$> cs))
            (set_shader
               (Some (foldl apply_event sh (concat (call_events P st <$> cs))))
               st)).
Proof.
  induction cs as [|c cs IH]; intros st sh Hsh Hmat Hwf; simpl.
  - unfold mret, M_ret. do 2 f_equal.
    apply State_ext; simpl; by rewrite ?Hsh, ?app_nil_r.
  - rewrite (bind_Ok _ _ _ _ _ (run_call_events P c st sh Hsh Hmat Hwf)).
    rewrite (IH _ (foldl apply_event sh (call_events P st c)))
      by (simpl; done).
    do 2 f_equal. apply State_ext; simpl; try done.
    + by rewrite foldl_app.
    + by rewrite <- app_assoc.
Qed.

(** A uniform that a run of events does not write keeps its value. *)
Lemma foldl_apply_event_other l : forall sh name,
  ~ writes name l -> foldl apply_event sh l !! name = sh !! name.
Proof.
  induction l as [|e l IH]; intros sh name Hw; [done|]. simpl.
  rewrite IH.
  - destruct e; simpl; try done.
    apply lookup_insert_ne. intros ->. apply Hw.
    unfold writes. simpl. apply elem_of_cons. by left.
  - intros H. apply Hw. unfold writes in *. simpl. apply elem_of_cons. by right.
Qed.

(** A uniform that a run of events writes does not depend on the shader the
    run starts from. *)
Lemma foldl_apply_event_written l : forall sh1 sh2 name,
  sh1 !! name = sh2 !! name \/ writes name l ->
  foldl apply_event sh1 l !! name = foldl apply_event sh2 l !! name.
Proof.
  induction l as [|e l IH]; intros sh1 sh2 name H; simpl.
  - destruct H as [H|H]; [done|]. unfold writes in H. simpl in H.
    by apply elem_of_nil in H.
  - apply IH.
    destruct (decide (effect_of e = WriteUniform name)) as [He|He].
    + left. destruct e; try discriminate. injection He as ->.
      simpl. by rewrite !lookup_insert_eq.
    + destruct H as [H|H].
      * left. destruct e; simpl; try done.
        rewrite !lookup_insert_ne; [done| |]; intros ->; by apply He.
      * right. unfold writes in *. simpl in H.
        apply elem_of_cons in H as [H|H]; [by symmetry in H|done].
Qed.


Lemma call_events_effects P st cs :
  effect_of <$> concat (call_events P st <$> cs) = concat (call_effects <$> cs).
Proof.
  induction cs as [|c cs IH]; [done|].
  rewrite !fmap_cons, !concat_cons, fmap_app, IH. f_equal. by destruct c.
Qed.



(** X18.  [RenderScene] writes only the seven per-object uniforms: on a
    scene that is ready, every other uniform of the shader (the lights, the
    UV scale) has after the call the value it had before, and the
    registries and the texture names in use are untouched. *)
Theorem RenderScene_writes_only_object_uniforms P st sh :
  m_pShaderManager st = Some sh ->
  m_objectMaterials st <> [] ->
  registry_in_bounds st ->
  exists st' sh',
    RenderScene P st = Ok (tt, st') /\
    m_pShaderManager st' = Some sh' /\
    (forall name, name ∉ per_object_uniforms -> sh' !! name = sh !! name) /\
    m_textureIDs st' = m_textureIDs st /\
    m_loadedTextures st' = m_loadedTextures st /\
    m_objectMaterials st' = m_objectMaterials st /\
    gl_textures st' = gl_textures st.
Proof.
  unfold RenderScene. generalize RenderScene_body. intros cs.
  intros Hsh Hmat Hwf.
  eexists _, _. split; [by apply (run_calls_events P cs st sh)|].
  simpl. split; [reflexivity|]. split; [|done].
  intros name Hname. apply foldl_apply_event_other.
  unfold writes. rewrite call_events_effects. intros Hin. apply Hname.
  assert (Forall (fun k => forall n, k = WriteUniform n -> n ∈ per_object_uniforms)
            (concat (call_effects <$> cs))) as Hall.
  { apply Forall_concat, Forall_fmap, Forall_forall. intros c _.
    destruct c; simpl;
      repeat (apply Forall_cons; split;
              [intros n Hn; try discriminate; injection Hn as <-;
               apply list_elem_of_In; simpl; tauto|]);
      try apply Forall_nil; exact I. }
  rewrite Forall_forall in Hall. by apply (Hall _ Hin).
Qed.

Lemma RenderScene_writes_only_object_uniforms_witness :
  m_pShaderManager (set_shader (Some {["UVscale" := Vec2Value (Vec2 2 2)]})
                      prepared_scene)
    = Some {["UVscale" := Vec2Value (Vec2 2 2)]} /\
  exists st' sh',
    RenderScene example_platform
      (set_shader (Some {["UVscale" := Vec2Value (Vec2 2 2)]}) prepared_scene)
      = Ok (tt, st') /\
    m_pShaderManager st' = Some sh' /\
    sh' !! "UVscale" = Some (Vec2Value (Vec2 2 2)).
Proof.
  split; [reflexivity|].
  destruct (RenderScene_writes_only_object_uniforms example_platform
              (set_shader (Some {["UVscale" := Vec2Value (Vec2 2 2)]}) prepared_scene)
              {["UVscale" := Vec2Value (Vec2 2 2)]} eq_refl)
    as (st' & sh' & Hrun & Hsh & Hother & _).
  - discriminate.
  - unfold registry_in_bounds. simpl. lia.
  - exists st', sh'. split; [exact Hrun|]. split; [exact Hsh|].
    rewrite Hother; [reflexivity|].
    unfold per_object_uniforms. intros Hin.
    repeat (apply elem_of_cons in Hin as [Hin|Hin]; [discriminate|]).
    by apply elem_of_nil in Hin.
Defined.

(** ** Rendering and preparing without a shader *)

Lemma run_call_without_shader P c st :
  m_pShaderManager st = None ->
  m_objectMaterials st = [] ->
  run_call P c st = Ok (tt, set_trace (trace st ++ draws_of [c]) st).
Proof.
  intros Hsh Hmat.
  assert (st = set_trace (trace st ++ []) st) as Hst
    by (rewrite app_nil_r; by destruct st).
  destruct c as [s rx ry rz p | r g b a | t | t | m]; simpl run_call;
    unfold draws_of; simpl omap.
  - unfold SetTransformations. rewrite bind_get, Hsh. by rewrite <- Hst.
  - unfold SetShaderColor. rewrite bind_get, Hsh. by rewrite <- Hst.
  - unfold SetShaderTexture. rewrite bind_get, Hsh. by rewrite <- Hst.
  - rewrite (SetShaderMaterial_empty P t st Hmat). by rewrite <- Hst.
  - reflexivity.
Qed.

Lemma run_calls_without_shader P cs : forall st,
  m_pShaderManager st = None ->
  m_objectMaterials st = [] ->
  run_calls P cs st = Ok (tt, set_trace (trace st ++ draws_of cs) st).
Proof.
  induction cs as [|c cs IH]; intros st Hsh Hmat; simpl run_calls.
  - unfold mret, M_ret, draws_of. simpl. rewrite app_nil_r. by destruct st.
  - rewrite (bind_Ok _ _ _ _ _ (run_call_without_shader P c st Hsh Hmat)).
    rewrite IH by done.
    do 2 f_equal. apply State_ext; simpl; try done.
    rewrite <- app_assoc. f_equal.
    unfold draws_of. simpl. by destruct (draw_of_call c).
Qed.

Lemma run_calls_null_shader P cs : forall st,
  m_pShaderManager st = None ->
  m_objectMaterials st <> [] ->
  existsb is_SetShaderMaterial cs = true ->
  run_calls P cs st = Undefined.
Proof.
  induction cs as [|c cs IH]; intros st Hsh Hmat Hex; [done|].
  simpl run_calls.
  destruct c as [s rx ry rz p | r g b a | t | t | m]; simpl in Hex.
  - erewrite bind_Ok;
      [|unfold run_call, SetTransformations; rewrite bind_get, Hsh; reflexivity].
    by apply IH.
  - erewrite bind_Ok;
      [|unfold run_call, SetShaderColor; rewrite bind_get, Hsh; reflexivity].
    by apply IH.
  - erewrite bind_Ok;
      [|unfold run_call, SetShaderTexture; rewrite bind_get, Hsh; reflexivity].
    by apply IH.
  - unfold mbind, M_bind. simpl run_call.
    by rewrite (SetShaderMaterial_null P st t Hsh Hmat).
  - erewrite bind_Ok by reflexivity. by apply IH.
Qed.

(** X19.  [RenderScene] without a shader: when no material is registered it
    returns, its 33 draws being all it does, each with whatever state the
    shader already has; when some material is registered it calls through
    the NULL pointer, in [SetShaderMaterial]. *)
Theorem RenderScene_without_shader P st :
  m_pShaderManager st = None ->
  length (draws_of RenderScene_body) = 33%nat /\
  RenderScene P st =
  if bool_decide (m_objectMaterials st = []) then
    Ok (tt, set_trace (trace st ++ draws_of RenderScene_body) st)
  else Undefined.
Proof.
  intros Hsh. split; [vm_compute; reflexivity|].
  unfold RenderScene. case_bool_decide as Hmat.
  - by apply run_calls_without_shader.
  - apply run_calls_null_shader; [done | done | vm_compute; reflexivity].
Qed.

Lemma RenderScene_without_shader_witness :
  m_pShaderManager (empty_scene None) = None /\
  RenderScene example_platform (empty_scene None) =
    Ok (tt, set_trace (draws_of RenderScene_body) (empty_scene None)) /\
  m_pShaderManager (set_shader None prepared_scene) = None /\
  RenderScene example_platform (set_shader None prepared_scene) = Undefined.
Proof.
  destruct (RenderScene_without_shader example_platform (empty_scene None) eq_refl)
    as [_ H1].
  destruct (RenderScene_without_shader example_platform
              (set_shader None prepared_scene) eq_refl) as [_ H2].
  split; [reflexivity|]. split; [rewrite H1; vm_compute; reflexivity|].
  split; [reflexivity|]. rewrite H2. vm_compute. reflexivity.
Defined.

Lemma CreateGLTexture_total P filename t st :
  0 <= m_loadedTextures st < Z.of_nat (length (m_textureIDs st)) ->
  exists b st',
    CreateGLTexture P filename t st = Ok (b, st') /\
    m_pShaderManager st' = m_pShaderManager st /\
    m_objectMaterials st' = m_objectMaterials st /\
    length (m_textureIDs st') = length (m_textureIDs st) /\
    m_loadedTextures st <= m_loadedTextures st' <= m_loadedTextures st + 1.
Proof.
  intros Hb.
  destruct (stbi_load P filename) as [image|] eqn:Hload.
  - destruct (decide (colorChannels image = 3 \/ colorChannels image = 4))
      as [Hch|Hch].
    + eexists _, _. split; [by apply (CreateGLTexture_run P filename t st image)|].
      simpl. rewrite length_insert. repeat split; lia.
    + unfold CreateGLTexture. rewrite bind_emit, Hload.
      rewrite (proj2 (Z.eqb_neq _ 3)), (proj2 (Z.eqb_neq _ 4)) by tauto.
      eexists _, _. split; [reflexivity|]. simpl. repeat split; lia.
  - unfold CreateGLTexture. rewrite bind_emit, Hload.
    eexists _, _. split; [reflexivity|]. simpl. repeat split; lia.
Qed.

Lemma CreateGLTexture_loading_with P filename t sh0 k :
  k < Z.of_nat MAX_TEXTURES ->
  returns (loading_with sh0 k) (CreateGLTexture P filename t)
    (fun _ => loading_with sh0 (k + 1)).
Proof.
  intros Hk st (Hsh & Hmat & Hlen & H0 & H1).
  destruct (CreateGLTexture_total P filename t st)
    as (b & st' & Hrun & Hsh' & Hmat' & Hlen' & Hn); [lia|].
  exists b, st'. split; [exact Hrun|].
  unfold loading_with. rewrite Hsh', Hmat', Hlen'. repeat split; done || lia.
Qed.

Lemma LoadSceneTextures_loading_with P sh0 :
  returns (loading_with sh0 0) (LoadSceneTextures P)
    (fun _ => loading_with sh0 14).
Proof.
  unfold LoadSceneTextures.
  do 14 (eapply returns_bind;
           [apply CreateGLTexture_loading_with; unfold MAX_TEXTURES; lia
           | intros ?; cbv beta]).
  intros st (Hsh & Hmat & Hlen & H0 & H1). simpl in H1.
  destruct (BindGLTextures_loop_returns (Z.to_nat (m_loadedTextures st)) 0 st)
    as (st' & Hrun & Hst');
    [unfold registry_in_bounds; rewrite Hlen; unfold MAX_TEXTURES; lia | lia |].
  exists tt, st'. split; [exact Hrun|].
  rewrite Hst'. done.
Qed.

Lemma bind_Undefined {A B} (m : M A) (f : A -> M B) st :
  m st = Undefined -> (m ≫= f) st = Undefined.
Proof. intros H. unfold mbind, M_bind. by rewrite H. Qed.

Lemma SetupSceneLights_null st :
  m_pShaderManager st = None -> SetupSceneLights st = Undefined.
Proof.
  intros Hsh. unfold SetupSceneLights. apply bind_Undefined.
  unfold shader_set. by rewrite Hsh.
Qed.

(** X20.  [SetupSceneLights] does not test [m_pShaderManager], and
    [PrepareScene] calls it unconditionally: on a scene manager without a
    shader and with nothing loaded, [PrepareScene] loads the textures and
    defines the materials and then calls through the NULL pointer, whatever
    the texture files decode to. *)
Theorem PrepareScene_without_shader P st :
  m_pShaderManager st = None ->
  m_objectMaterials st = [] ->
  length (m_textureIDs st) = MAX_TEXTURES ->
  m_loadedTextures st = 0 ->
  SetupSceneLights st = Undefined /\ PrepareScene P st = Undefined.
Proof.
  intros Hsh Hmat Hlen Hn. split; [by apply SetupSceneLights_null|].
  destruct (LoadSceneTextures_loading_with P None st)
    as ([] & st1 & Hrun & Hsh1 & Hmat1 & _).
  { repeat split; done || lia. }
  unfold PrepareScene. rewrite (bind_Ok _ _ _ _ _ Hrun).
  erewrite bind_Ok
    by (unfold DefineObjectMaterials, push_back; cbv zeta;
        rewrite !bind_modify; reflexivity).
  apply bind_Undefined, SetupSceneLights_null. exact Hsh1.
Qed.

Lemma PrepareScene_without_shader_witness :
  m_pShaderManager (empty_scene None) = None /\
  PrepareScene example_platform (empty_scene None) = Undefined.
Proof.
  split; [reflexivity|].
  exact (proj2 (PrepareScene_without_shader example_platform (empty_scene None)
                  eq_refl eq_refl eq_refl eq_refl)).
Defined.

(** ** The whole scene *)

Lemma CreateGLTexture_prepared P filename t b l :
  (exists image, stbi_load P filename = Some image /\
                 (colorChannels image = 3 \/ colorChannels image = 4)) ->
  (length l < MAX_TEXTURES)%nat ->
  returns (prepared b l []) (CreateGLTexture P filename t)
    (fun _ => prepared b (l ++ [t]) []).
Proof.
  intros (image & Hload & Hch) Hl st (Hsh & Hmat & Hlen & Hwf & Htags).
  pose proof (registered_length st Hwf) as Hreg.
  assert (length l = Z.to_nat (m_loadedTextures st)) as Hcount
    by (by rewrite <- Htags, length_fmap).
  assert (0 <= m_loadedTextures st < Z.of_nat (length (m_textureIDs st))) as Hb
    by (destruct Hwf; rewrite Hlen; lia).
  pose proof (CreateGLTexture_run P filename t st image Hload Hch Hb) as Hrun.
  cbv zeta in Hrun.
  match type of Hrun with _ = Ok (_, ?s) => set (st' := s) in * end.
  destruct (registered_after_load st st'
              (gl_fresh_name P (gl_textures st)) t Hwf (proj2 Hb) eq_refl eq_refl)
    as [Hwf' Hreg'].
  exists true, st'. split; [exact Hrun|].
  split; [exact Hsh|]. split; [exact Hmat|].
  split; [simpl; by rewrite length_insert|]. split; [exact Hwf'|].
  by rewrite Hreg', fmap_app, Htags.
Qed.

Lemma prepared_set_trace b l ms st t :
  prepared b l ms st -> prepared b l ms (set_trace t st).
Proof. done. Qed.

Lemma LoadSceneTextures_prepared P b :
  scene_textures_load P ->
  returns (prepared b [] []) (LoadSceneTextures P)
    (fun _ => prepared b scene_texture_tags []).
Proof.
  intros Hload. unfold scene_textures_load in Hload.
  repeat (apply Forall_cons in Hload as [? Hload]).
  unfold LoadSceneTextures.
  do 14 (eapply returns_bind;
           [apply CreateGLTexture_prepared;
              [eassumption | unfold MAX_TEXTURES; simpl; lia]
           | intros ?; cbv beta]).
  intros st Hst.
  destruct (BindGLTextures_loop_returns (Z.to_nat (m_loadedTextures st)) 0 st)
    as (st' & Hrun & Hst'); [apply Hst | lia |].
  exists tt, st'. split; [exact Hrun|].
  rewrite Hst'. by apply prepared_set_trace.
Qed.

Lemma DefineObjectMaterials_prepared b l :
  returns (prepared b l []) DefineObjectMaterials
    (fun _ => prepared b l scene_materials).
Proof.
  intros st (Hsh & Hmat & Hrest).
  unfold DefineObjectMaterials, push_back. cbv zeta. rewrite !bind_modify.
  eexists _, _. split; [reflexivity|].
  split; [exact Hsh|]. split; [|exact Hrest].
  simpl. by rewrite Hmat.
Qed.

Lemma shader_set_prepared l ms name v :
  returns (prepared true l ms) (shader_set name v) (fun _ => prepared true l ms).
Proof.
  intros st ([sh Hsh] & Hrest).
  rewrite (shader_set_Some _ _ _ _ Hsh).
  eexists _, _. split; [reflexivity|].
  split; [by eexists | exact Hrest].
Qed.

Lemma emit_prepared b l ms e :
  returns (prepared b l ms) (emit e) (fun _ => prepared b l ms).
Proof. intros st H. by eexists _, _. Qed.

Lemma PrepareScene_prepared P :
  scene_textures_load P ->
  returns (prepared true [] []) (PrepareScene P)
    (fun _ => prepared true scene_texture_tags scene_materials).
Proof.
  intros Hload. unfold PrepareScene.
  eapply returns_bind; [by apply LoadSceneTextures_prepared | intros ?; cbv beta].
  eapply returns_bind; [apply DefineObjectMaterials_prepared | intros ?; cbv beta].
  eapply returns_bind.
  { unfold SetupSceneLights.
    repeat (eapply returns_bind; [apply shader_set_prepared | intros ?; cbv beta]).
    apply shader_set_prepared. }
  intros ?; cbv beta.
  repeat (eapply returns_bind; [apply emit_prepared | intros ?; cbv beta]).
  apply emit_prepared.
Qed.

Lemma slot_of_tags st t : slot_of st t = slot_in (tag <$> registered st) t.
Proof.
  unfold slot_of, slot_in.
  rewrite (list_find_fmap tag (fun x => x = t) (registered st)).
  unfold compose. by destruct (list_find _ (registered st)) as [[? ?]|].
Qed.

Lemma call_events_same P1 st1 P2 st2 c :
  tag <$> registered st1 = tag <$> registered st2 ->
  m_objectMaterials st1 = m_objectMaterials st2 ->
  names_registered_material (m_objectMaterials st2) c = true ->
  call_events P1 st1 c = call_events P2 st2 c.
Proof.
  intros Htags Hmat Hc.
  destruct c as [s rx ry rz p | r g b a | t | t | m]; simpl; try done.
  - by rewrite !slot_of_tags, Htags.
  - unfold material_of. rewrite Hmat.
    destruct (list_find _ (m_objectMaterials st2)) as [[j e]|] eqn:Hfind; [done|].
    exfalso. simpl in Hc. apply bool_decide_eq_true in Hc.
    apply list_elem_of_fmap in Hc as (e & -> & He).
    apply list_find_None in Hfind. rewrite Forall_forall in Hfind.
    by apply (Hfind e He).
Qed.

Lemma prepared_calls_frame P cs st :
  prepared true scene_texture_tags scene_materials st ->
  Forall (fun c => names_registered_material scene_materials c = true) cs ->
  exists st',
    run_calls P cs st = Ok (tt, st') /\
    trace st' =
      trace st ++ concat (call_events example_platform prepared_scene <$> cs).
Proof.
  intros ([sh Hsh] & Hmat & Hlen & Hwf & Htags) Hall.
  assert (m_objectMaterials st <> []) as Hne by (by rewrite Hmat).
  eexists. split; [by apply (run_calls_events P cs st sh)|].
  unfold set_trace. cbn [trace]. do 2 f_equal.
  apply Forall_fmap_ext_1.
  eapply Forall_impl; [exact Hall|].
  intros c Hc. apply call_events_same; [by rewrite Htags | by rewrite Hmat | done].
Qed.

Lemma RenderScene_body_materials :
  Forall (fun c => names_registered_material scene_materials c = true)
    RenderScene_body.
Proof. apply (bool_decide_unpack _); vm_compute; exact I. Qed.

Lemma prepared_frame P st :
  prepared true scene_texture_tags scene_materials st ->
  exists st',
    RenderScene P st = Ok (tt, st') /\
    trace st' =
      trace st ++
      concat (call_events example_platform prepared_scene <$> RenderScene_body).
Proof.
  intros Hst. unfold RenderScene.
  apply prepared_calls_frame; [exact Hst | exact RenderScene_body_materials].
Qed.

(** X21.  When every texture file decodes to 3 or 4 channels, what
    [RenderScene] does after [PrepareScene] does not depend on the
    platform: on any two such platforms, whatever texture names OpenGL hands
    out, whatever the uninitialised [material] holds and whatever the shader
    held at the start, the same calls are made with the same values.  Every
    sampler index written is a slot from 0 to 13, never -1. *)
Theorem scene_frame_is_platform_independent P1 sh1 P2 sh2 :
  scene_textures_load P1 ->
  scene_textures_load P2 ->
  exists frame st1 st1' st2 st2',
    PrepareScene P1 (empty_scene (Some sh1)) = Ok (tt, st1) /\
    RenderScene P1 st1 = Ok (tt, st1') /\
    trace st1' = trace st1 ++ frame /\
    PrepareScene P2 (empty_scene (Some sh2)) = Ok (tt, st2) /\
    RenderScene P2 st2 = Ok (tt, st2') /\
    trace st2' = trace st2 ++ frame /\
    (forall name s, setUniform name (Sampler2DValue s) ∈ frame -> 0 <= s < 14).
Proof.
  intros H1 H2.
  assert (forall sh, prepared true [] [] (empty_scene (Some sh))) as Hempty.
  { intros sh. split; [by eexists|]. repeat split; done. }
  destruct (PrepareScene_prepared P1 H1 _ (Hempty sh1)) as ([] & st1 & Hp1 & Hst1).
  destruct (PrepareScene_prepared P2 H2 _ (Hempty sh2)) as ([] & st2 & Hp2 & Hst2).
  destruct (prepared_frame P1 st1 Hst1) as (st1' & Hr1 & Ht1).
  destruct (prepared_frame P2 st2 Hst2) as (st2' & Hr2 & Ht2).
  eexists _, st1, st1', st2, st2'.
  split; [exact Hp1|]. split; [exact Hr1|]. split; [exact Ht1|].
  split; [exact Hp2|]. split; [exact Hr2|]. split; [exact Ht2|].
  assert (Forall (fun e => sampler_in_range 14 e = true)
            (concat (call_events example_platform prepared_scene
                       <$> RenderScene_body))) as Hall
    by (apply (bool_decide_unpack _); vm_compute; exact I).
  intros name s Hin. rewrite Forall_forall in Hall.
  specialize (Hall _ Hin). cbn [sampler_in_range] in Hall.
  apply andb_true_iff in Hall as [Ha Hb].
  apply Z.leb_le in Ha. apply Z.ltb_lt in Hb. lia.
Qed.

Lemma scene_frame_is_platform_independent_witness :
  scene_textures_load example_platform /\
  scene_textures_load rgba_platform /\
  exists frame st1 st1' st2 st2',
    PrepareScene example_platform (empty_scene (Some ∅)) = Ok (tt, st1) /\
    RenderScene example_platform st1 = Ok (tt, st1') /\
    trace st1' = trace st1 ++ frame /\
    PrepareScene rgba_platform
      (empty_scene (Some {["bUseTexture" := BoolValue false]})) = Ok (tt, st2) /\
    RenderScene rgba_platform st2 = Ok (tt, st2') /\
    trace st2' = trace st2 ++ frame /\
    (forall name s, setUniform name (Sampler2DValue s) ∈ frame -> 0 <= s < 14).
Proof.
  assert (scene_textures_load example_platform) as H1.
  { unfold scene_textures_load.
    repeat (apply Forall_cons; split;
              [eexists; split; [reflexivity | left; reflexivity]|]).
    apply Forall_nil; exact I. }
  assert (scene_textures_load rgba_platform) as H2.
  { unfold scene_textures_load.
    repeat (apply Forall_cons; split;
              [eexists; split; [reflexivity | right; reflexivity]|]).
    apply Forall_nil; exact I. }
  split; [exact H1|]. split; [exact H2|].
  exact (scene_frame_is_platform_independent example_platform ∅ rgba_platform
           {["bUseTexture" := BoolValue false]} H1 H2).
Defined.

(** ** The lights *)

Lemma shader_set_written st0 sh evs name v :
  returns (shader_written st0 sh evs) (shader_set name v)
    (fun _ => shader_written st0 sh (evs ++ [setUniform name v])).
Proof.
  intros st (Hsh & Htr & Hrest).
  rewrite (shader_set_Some _ _ _ _ Hsh).
  eexists _, _. split; [reflexivity|].
  split; [by rewrite foldl_app|].
  split; [simpl; by rewrite Htr, app_assoc | exact Hrest].
Qed.

Lemma SetupSceneLights_written st sh :
  m_pShaderManager st = Some sh ->
  exists evs st',
    SetupSceneLights st = Ok (tt, st') /\
    shader_written st sh evs st' /\
    Forall (fun name => ~ writes name evs) per_object_uniforms /\
    Forall (fun name => foldl apply_event ∅ evs !! name = Some (BoolValue true) /\
                        writes name evs) light_switches.
Proof.
  intros Hsh.
  assert (shader_written st sh [] st) as H0.
  { split; [exact Hsh|]. split; [by rewrite app_nil_r | done]. }
  eassert (returns (shader_written st sh []) SetupSceneLights
             (fun _ => shader_written st sh _)) as Hrun.
  { unfold SetupSceneLights.
    repeat (eapply returns_bind; [apply shader_set_written | intros ?; cbv beta]).
    apply shader_set_written. }
  destruct (Hrun st H0) as ([] & st' & Hst' & Hw).
  eexists _, st'. split; [exact Hst'|]. split; [exact Hw|].
  split; [unfold writes; apply (bool_decide_unpack _); vm_compute; exact I|].
  unfold light_switches.
  repeat (apply Forall_cons; split;
            [split;
               [vm_compute; reflexivity
               | unfold writes; apply (bool_decide_unpack _); vm_compute; exact I]|]).
  apply Forall_nil; exact I.
Qed.

Lemma call_events_object_uniforms P st cs name :
  name ∉ per_object_uniforms -> ~ writes name (concat (call_events P st <$> cs)).
Proof.
  intros Hname. unfold writes. rewrite call_events_effects. intros Hin. apply Hname.
  assert (Forall (fun k => forall n, k = WriteUniform n -> n ∈ per_object_uniforms)
            (concat (call_effects <$> cs))) as Hall.
  { apply Forall_concat, Forall_fmap, Forall_forall. intros c _.
    destruct c; simpl;
      repeat (apply Forall_cons; split;
              [intros n Hn; try discriminate; injection Hn as <-;
               apply list_elem_of_In; simpl; tauto|]);
      try apply Forall_nil; exact I. }
  rewrite Forall_forall in Hall. by apply (Hall _ Hin).
Qed.

(** X22.  The lights and the objects do not interfere.  On a scene that is
    ready, [SetupSceneLights] returns, leaves the seven per-object uniforms
    and the registries as they were, and switches the lighting and the five
    lights on; a [RenderScene] after it leaves every uniform that is not
    per-object, the light switches among them, as [SetupSceneLights] set
    it. *)
Theorem SetupSceneLights_then_RenderScene P st sh :
  m_pShaderManager st = Some sh ->
  m_objectMaterials st <> [] ->
  registry_in_bounds st ->
  exists st1 sh1 st2 sh2,
    SetupSceneLights st = Ok (tt, st1) /\
    m_pShaderManager st1 = Some sh1 /\
    RenderScene P st1 = Ok (tt, st2) /\
    m_pShaderManager st2 = Some sh2 /\
    (forall name, name ∈ per_object_uniforms -> sh1 !! name = sh !! name) /\
    m_textureIDs st1 = m_textureIDs st /\
    m_loadedTextures st1 = m_loadedTextures st /\
    m_objectMaterials st1 = m_objectMaterials st /\
    gl_textures st1 = gl_textures st /\
    (forall name, name ∉ per_object_uniforms -> sh2 !! name = sh1 !! name) /\
    (forall name, name ∈ light_switches ->
       sh1 !! name = Some (BoolValue true) /\ sh2 !! name = Some (BoolValue true)).
Proof.
  unfold RenderScene. generalize RenderScene_body. intros cs.
  intros Hsh Hmat Hwf.
  destruct (SetupSceneLights_written st sh Hsh)
    as (evs & st1 & Hrun & (Hsh1 & _ & Hids & Hn & Hms & Hgl) & Hobj & Hsw).
  assert (forall name, name ∉ per_object_uniforms ->
            foldl apply_event (foldl apply_event sh evs)
              (concat (call_events P st1 <$> cs)) !! name =
            foldl apply_event sh evs !! name) as Hkeep.
  { intros name Hname. apply foldl_apply_event_other.
    by apply call_events_object_uniforms. }
  eexists st1, _, _, _. split; [exact Hrun|]. split; [exact Hsh1|].
  split.
  { apply (run_calls_events P cs st1 _ Hsh1); [by rewrite Hms|].
    unfold registry_in_bounds. by rewrite Hids, Hn. }
  split; [reflexivity|].
  split.
  { intros name Hname. apply foldl_apply_event_other.
    rewrite Forall_forall in Hobj. by apply Hobj. }
  do 4 (split; [done|]).
  split; [exact Hkeep|].
  intros name Hname. rewrite Forall_forall in Hsw.
  destruct (Hsw name Hname) as [Hval Hwr].
  assert (foldl apply_event sh evs !! name = Some (BoolValue true)) as H1.
  { rewrite <- Hval. apply foldl_apply_event_written. by right. }
  split; [exact H1|]. rewrite Hkeep; [exact H1|].
  assert (Forall (fun n => n ∉ per_object_uniforms) light_switches) as Hall
    by (apply (bool_decide_unpack _); vm_compute; exact I).
  rewrite Forall_forall in Hall. by apply Hall.
Qed.

Lemma SetupSceneLights_then_RenderScene_witness :
  m_pShaderManager prepared_scene = Some ∅ /\
  m_objectMaterials prepared_scene <> [] /\
  registry_in_bounds prepared_scene /\
  exists st1 sh1 st2 sh2,
    SetupSceneLights prepared_scene = Ok (tt, st1) /\
    m_pShaderManager st1 = Some sh1 /\
    RenderScene example_platform st1 = Ok (tt, st2) /\
    m_pShaderManager st2 = Some sh2 /\
    sh1 !! "objectColor" = None /\
    sh2 !! "pointLights[3].bActive" = Some (BoolValue true).
Proof.
  assert (m_objectMaterials prepared_scene <> []) as Hmat by discriminate.
  assert (registry_in_bounds prepared_scene) as Hwf
    by (unfold registry_in_bounds; simpl; lia).
  split; [reflexivity|]. split; [exact Hmat|]. split; [exact Hwf|].
  destruct (SetupSceneLights_then_RenderScene example_platform prepared_scene ∅
              eq_refl Hmat Hwf)
    as (st1 & sh1 & st2 & sh2 & Hrun1 & Hsh1 & Hrun2 & Hsh2 & Hobj & _ & _ & _ & _
        & _ & Hsw).
  exists st1, sh1, st2, sh2.
  split; [exact Hrun1|]. split; [exact Hsh1|].
  split; [exact Hrun2|]. split; [exact Hsh2|].
  split.
  - rewrite Hobj; [reflexivity|].
    apply list_elem_of_In. simpl. tauto.
  - apply Hsw. apply list_elem_of_In. simpl. tauto.
Defined.

(** ** Preparing the scene a second time *)

Lemma overflows_bind_l {A B} Pre (m : M A) (f : A -> M B) :
  overflows Pre m -> overflows Pre (m ≫= f).
Proof. intros H st Hst. apply bind_Undefined. by apply H. Qed.

Lemma overflows_bind_r {A B} Pre Mid (m : M A) (f : A -> M B) :
  returns Pre m Mid -> (forall a, overflows (Mid a) (f a)) ->
  overflows Pre (m ≫= f).
Proof.
  intros Hm Hf st Hst. destruct (Hm st Hst) as (a & st' & Hrun & Hmid).
  rewrite (bind_Ok _ _ _ _ _ Hrun). by apply Hf.
Qed.

Lemma CreateGLTexture_counted P filename t n k :
  (exists image, stbi_load P filename = Some image /\
                 (colorChannels image = 3 \/ colorChannels image = 4)) ->
  0 <= k < Z.of_nat n ->
  returns (counted n k) (CreateGLTexture P filename t) (fun _ => counted n (k + 1)).
Proof.
  intros (image & Hload & Hch) Hk st (Hsh & Hlen & Hn).
  assert (0 <= m_loadedTextures st < Z.of_nat (length (m_textureIDs st))) as Hb
    by (rewrite Hlen, Hn; lia).
  rewrite (CreateGLTexture_run P filename t st image Hload Hch Hb).
  eexists _, _. split; [reflexivity|].
  split; [exact Hsh|]. split; [simpl; by rewrite length_insert|].
  simpl. by rewrite Hn.
Qed.

Lemma CreateGLTexture_overflows P filename t n k :
  (exists image, stbi_load P filename = Some image /\
                 (colorChannels image = 3 \/ colorChannels image = 4)) ->
  ~ (0 <= k < Z.of_nat n) ->
  overflows (counted n k) (CreateGLTexture P filename t).
Proof.
  intros (image & Hload & Hch) Hk st (Hsh & Hlen & Hn).
  apply (CreateGLTexture_outside P filename t st image Hload Hch).
  by rewrite Hlen, Hn.
Qed.

Lemma LoadSceneTextures_overflows P n k :
  scene_textures_load P ->
  0 <= k -> Z.of_nat n < k + 14 ->
  overflows (counted n k) (LoadSceneTextures P).
Proof.
  intros Hload Hk Hn. unfold scene_textures_load in Hload.
  repeat (apply Forall_cons in Hload as [? Hload]).
  unfold LoadSceneTextures.
  repeat
    (match goal with
     | |- overflows (counted _ ?j) _ =>
         destruct (decide (j < Z.of_nat n));
         [eapply overflows_bind_r;
            [apply CreateGLTexture_counted; [eassumption | lia]
            | intros ?; cbv beta]
         | apply overflows_bind_l, CreateGLTexture_overflows;
             [eassumption | lia]]
     end).
  lia.
Qed.

Lemma LoadSceneTextures_counted P n :
  scene_textures_load P ->
  14 <= Z.of_nat n ->
  returns (counted n 0) (LoadSceneTextures P) (fun _ => counted n 14).
Proof.
  intros Hload Hn. unfold scene_textures_load in Hload.
  repeat (apply Forall_cons in Hload as [? Hload]).
  unfold LoadSceneTextures.
  do 14 (eapply returns_bind;
           [apply CreateGLTexture_counted; [eassumption | lia]
           | intros ?; cbv beta]).
  intros st Hst.
  destruct (BindGLTextures_loop_returns (Z.to_nat (m_loadedTextures st)) 0 st)
    as (st' & Hrun & Hst');
    [destruct Hst as (_ & Hlen & Hk); unfold registry_in_bounds; lia | lia |].
  exists tt, st'. split; [exact Hrun|].
  rewrite Hst'. exact Hst.
Qed.

Lemma shader_set_counted n k name v :
  returns (counted n k) (shader_set name v) (fun _ => counted n k).
Proof.
  intros st ([sh Hsh] & Hrest).
  rewrite (shader_set_Some _ _ _ _ Hsh).
  eexists _, _. split; [reflexivity|].
  split; [by eexists | exact Hrest].
Qed.

Lemma DefineObjectMaterials_counted n k :
  returns (counted n k) DefineObjectMaterials (fun _ => counted n k).
Proof.
  intros st (Hsh & Hlen & Hk).
  unfold DefineObjectMaterials, push_back. cbv zeta. rewrite !bind_modify.
  eexists _, _. split; [reflexivity|].
  split; [exact Hsh|]. split; [exact Hlen | exact Hk].
Qed.

Lemma PrepareScene_counted P n :
  scene_textures_load P ->
  14 <= Z.of_nat n ->
  returns (counted n 0) (PrepareScene P) (fun _ => counted n 14).
Proof.
  intros Hload Hn. unfold PrepareScene.
  eapply returns_bind; [by apply LoadSceneTextures_counted | intros ?; cbv beta].
  eapply returns_bind; [apply DefineObjectMaterials_counted | intros ?; cbv beta].
  eapply returns_bind.
  { unfold SetupSceneLights.
    repeat (eapply returns_bind; [apply shader_set_counted | intros ?; cbv beta]).
    apply shader_set_counted. }
  intros ?; cbv beta.
  assert (forall e, returns (counted n 14) (emit e) (fun _ => counted n 14)) as Hemit
    by (intros e st H; by eexists _, _).
  repeat (eapply returns_bind; [apply Hemit | intros ?; cbv beta]).
  apply Hemit.
Qed.

(** X23.  The scene cannot be prepared a second time.  With a shader
    attached, no texture registered, every texture file decoding to 3 or 4
    channels, and an array of at least 14 and fewer than 28 elements (16,
    by the comments of the code): [PrepareScene] returns with 14 textures
    registered; a second [PrepareScene] stores past the array, which is
    undefined behaviour; and so does one that follows [DestroyGLTextures],
    which returns but does not reset the count. *)
Theorem PrepareScene_twice_overflows P st :
  scene_textures_load P ->
  is_Some (m_pShaderManager st) ->
  m_loadedTextures st = 0 ->
  (14 <= length (m_textureIDs st) < 28)%nat ->
  exists st1 st2,
    PrepareScene P st = Ok (tt, st1) /\
    m_loadedTextures st1 = 14 /\
    PrepareScene P st1 = Undefined /\
    DestroyGLTextures P st1 = Ok (tt, st2) /\
    m_loadedTextures st2 = 14 /\
    PrepareScene P st2 = Undefined.
Proof.
  intros Hload Hsh Hk Hn.
  set (n := length (m_textureIDs st)) in *.
  destruct (PrepareScene_counted P n Hload ltac:(lia) st)
    as ([] & st1 & Hrun1 & Hsh1 & Hlen1 & Hk1); [done|].
  assert (forall st', counted n 14 st' -> PrepareScene P st' = Undefined) as Hover.
  { intros st' Hst'. unfold PrepareScene. apply bind_Undefined.
    apply (LoadSceneTextures_overflows P n 14 Hload); [lia | lia | exact Hst']. }
  destruct (DestroyGLTextures_loop_run P (Z.to_nat (m_loadedTextures st1)) 0 st1)
    as (st2 & Hrun2 & Hk2 & Htags2 & _ & Hsh2 & _);
    [unfold registry_in_bounds; lia | lia | lia |].
  exists st1, st2. split; [exact Hrun1|]. split; [exact Hk1|].
  split; [by apply Hover|]. split; [exact Hrun2|].
  split; [by rewrite Hk2|].
  apply Hover. split; [by rewrite Hsh2|]. split; [|by rewrite Hk2].
  rewrite <- Hlen1. rewrite <- (length_fmap tag (m_textureIDs st2)), Htags2.
  apply length_fmap.
Qed.

Lemma PrepareScene_twice_overflows_witness :
  scene_textures_load example_platform /\
  is_Some (m_pShaderManager (empty_scene (Some ∅))) /\
  m_loadedTextures (empty_scene (Some ∅)) = 0 /\
  (14 <= length (m_textureIDs (empty_scene (Some ∅))) < 28)%nat /\
  exists st1 st2,
    PrepareScene example_platform (empty_scene (Some ∅)) = Ok (tt, st1) /\
    m_loadedTextures st1 = 14 /\
    PrepareScene example_platform st1 = Undefined /\
    DestroyGLTextures example_platform st1 = Ok (tt, st2) /\
    m_loadedTextures st2 = 14 /\
    PrepareScene example_platform st2 = Undefined.
Proof.
  assert (scene_textures_load example_platform) as H1.
  { unfold scene_textures_load.
    repeat (apply Forall_cons; split;
              [eexists; split; [reflexivity | left; reflexivity]|]).
    apply Forall_nil; exact I. }
  assert (is_Some (m_pShaderManager (empty_scene (Some ∅)))) as H2 by (by eexists).
  assert (14 <= length (m_textureIDs (empty_scene (Some ∅))) < 28)%nat as H3
    by (simpl; lia).
  split; [exact H1|]. split; [exact H2|]. split; [reflexivity|]. split; [exact H3|].
  exact (PrepareScene_twice_overflows example_platform (empty_scene (Some ∅))
           H1 H2 eq_refl H3).
Defined.

(** ** Texture files that cannot be used *)











